(** * Cross-reference analysis tool: a shallow embedding

    Embedding of [agentaskit-production/tools/analysis/cross_reference.py]
    (class [CrossReferenceAnalyzer] and [main]).

    Conventions of the model.
    - A Python [str] is the [string] of its UTF-8 bytes, the names of
      files being well-formed UTF-8.  Equality, [in], slicing at a
      character of ASCII, [join] and the order of [sorted] are then the
      same on the bytes as on the code points.
    - A Python [dict] keeps insertion order, and the report depends on that
      order (the samples are slices), so a dict is an association list whose
      keys are kept unique by [dict_set].
    - A [pathlib.Path] is a list of components with an anchor flag (POSIX
      flavour).
    - The file system, the clock and [hashlib.sha256] are outside the
      program: they are arguments of the model ([FileSystem], [now], [sha]).
      The order in which [rglob] and [iterdir] yield their results is part
      of the [FileSystem] value.  A run makes the output directory first
      and writes its two report files last, with all its queries in
      between: the [FileSystem] of a run answers the queries as the file
      system stands between the two.
    - The methods mutate [self]; here each takes the analyzer value and
      returns the new one.
    - A raised exception is [None].  The program catches none but those of
      reading a file's content, so an exception of [relative_to], [stat],
      [datetime.fromtimestamp], [iterdir], [mkdir] or of writing a report
      file ends the run; the process then exits with status 1.
    - [print] calls are left out. *)

From Stdlib Require Import List String Ascii Bool Arith Lia Permutation.
From Stdlib Require Import NArith ZArith Sorted RelationClasses.
From Stdlib Require Import Strings.Byte DecimalString.
Import ListNotations.
Open Scope string_scope.
Open Scope list_scope.

Set Implicit Arguments.

(** ** Errors: a raised exception is [None] *)

Definition bind {A B : Type} (c : option A) (k : A -> option B) : option B :=
  match c with
  | Some x => k x
  | None => None
  end.

Notation "x <- c ;; k" := (bind c (fun x => k))
  (at level 61, c at next level, right associativity).

(** ** Python strings *)

(** [bool(s)] for a string: the empty string is falsy. *)
Definition truthy (s : string) : bool :=
  match s with
  | EmptyString => false
  | String _ _ => true
  end.

(** [pat in s]. *)
Fixpoint contains (pat s : string) : bool :=
  String.prefix pat s ||
  match s with
  | EmptyString => false
  | String _ r => contains pat r
  end.

(** What [contains] decides: [pat] occurs in [s]. *)
Definition substring_of (pat s : string) : Prop :=
  exists a b, s = String.append a (String.append pat b).

(** [s[n:]]. *)
Fixpoint str_drop (n : nat) (s : string) : string :=
  match n, s with
  | O, _ => s
  | S _, EmptyString => EmptyString
  | S m, String _ r => str_drop m r
  end.

(** [s[:n]]. *)
Fixpoint str_take (n : nat) (s : string) : string :=
  match n, s with
  | O, _ => EmptyString
  | S _, EmptyString => EmptyString
  | S m, String c r => String c (str_take m r)
  end.

(** [s.rfind(c)], with [None] for -1. *)
Fixpoint rfind (c : ascii) (s : string) : option nat :=
  match s with
  | EmptyString => None
  | String a r =>
      match rfind c r with
      | Some i => Some (S i)
      | None => if Ascii.eqb a c then Some 0 else None
      end
  end.

(** [c.lower()] and [s.lower()] on ASCII letters. *)
Definition ascii_lower (c : ascii) : ascii :=
  let n := nat_of_ascii c in
  if ((65 <=? n) && (n <=? 90))%nat then ascii_of_nat (n + 32) else c.

Fixpoint str_lower (s : string) : string :=
  match s with
  | EmptyString => EmptyString
  | String c r => String (ascii_lower c) (str_lower r)
  end.

(** ** Python dicts, in insertion order *)

Abbreviation dict V := (list (string * V)) (only parsing).

Fixpoint dict_get {V} (k : string) (d : dict V) : option V :=
  match d with
  | [] => None
  | (k', v) :: r => if String.eqb k k' then Some v else dict_get k r
  end.

(** [d[k] = v]: an existing key keeps its position. *)
Fixpoint dict_set {V} (k : string) (v : V) (d : dict V) : dict V :=
  match d with
  | [] => [(k, v)]
  | (k', v') :: r =>
      if String.eqb k k' then (k', v) :: r else (k', v') :: dict_set k v r
  end.

Definition keys {V} (d : dict V) : list string := map fst d.
Definition values {V} (d : dict V) : list V := map snd d.

(** [d[k]] on a [defaultdict]: a missing key reads as the default. *)
Definition dict_get_default {V} (dflt : V) (k : string) (d : dict V) : V :=
  match dict_get k d with
  | Some v => v
  | None => dflt
  end.

(** [d[k].append(x)] on a [defaultdict(list)]. *)
Definition dict_append {V} (k : string) (x : V) (d : dict (list V))
  : dict (list V) :=
  dict_set k (dict_get_default [] k d ++ [x]) d.

(** ** [sorted] on strings *)

Fixpoint insert_sorted (x : string) (l : list string) : list string :=
  match l with
  | [] => [x]
  | y :: r => if String.leb x y then x :: l else y :: insert_sorted x r
  end.

Definition sorted (l : list string) : list string :=
  fold_right insert_sorted [] l.

(** ** [pathlib.Path] *)

Record Path : Type := mkPath {
  anchored : bool;        (* the path starts at the root [/] *)
  parts : list string     (* its components, the root apart *)
}.

(** [str(p)]. *)
Definition path_str (p : Path) : string :=
  match anchored p, parts p with
  | false, [] => "."
  | false, ps => String.concat "/" ps
  | true, ps => "/" ++ String.concat "/" ps
  end.

(** [p.name]. *)
Definition path_name (p : Path) : string := last (parts p) "".

(** [p / rel], for a relative [rel]. *)
Definition path_div (p : Path) (rel : list string) : Path :=
  mkPath (anchored p) (parts p ++ rel).

Fixpoint strip_prefix (pre l : list string) : option (list string) :=
  match pre, l with
  | [], _ => Some l
  | _ :: _, [] => None
  | x :: pre', y :: l' =>
      if String.eqb x y then strip_prefix pre' l' else None
  end.

(** [p.relative_to(base)]; [None] is the [ValueError]. *)
Definition relative_to (p base : Path) : option Path :=
  if Bool.eqb (anchored p) (anchored base) then
    rest <- strip_prefix (parts base) (parts p) ;;
    Some (mkPath false rest)
  else None.

(** [PurePath.suffix], as CPython defines it up to 3.13:
    [i = name.rfind('.')]; [name[i:]] when [0 < i < len(name) - 1],
    else the empty string.  No version changes the case of a character. *)
Definition suffix_of_name (name : string) : string :=
  match rfind "."%char name with
  | Some i =>
      if ((0 <? i) && (i <? String.length name - 1))%nat then str_drop i name
      else ""
  | None => ""
  end.

Definition path_suffix (p : Path) : string := suffix_of_name (path_name p).

(** The extension as the specification words it: the suffix, in lower
    case. *)
Definition spec_extension (name : string) : string :=
  str_lower (suffix_of_name name).

(** ** The file system, as the program observes it *)

Record stat_result : Type := mkStat {
  st_size : nat;
  st_mtime : Z            (* the time, counted in nanoseconds since the
                             epoch: the float is this count over 10^9 *)
}.

Record FileSystem : Type := mkFS {
  fs_exists : Path -> bool;
  fs_is_dir : Path -> bool;
  fs_is_file : Path -> bool;
  (* [d.rglob("*")]: every descendant of [d], relative to [d], in the
     order the traversal yields them *)
  fs_rglob : Path -> list (list string);
  (* [d.iterdir()]: the names of the children of [d]; [None] when it
     raises (as for a root that exists and is not a directory) *)
  fs_iterdir : Path -> option (list string);
  (* the bytes of a file, [None] when [open] or [read] raises *)
  fs_read : Path -> option (list byte);
  (* [p.stat()], [None] when it raises *)
  fs_stat : Path -> option stat_result;
  (* [datetime.fromtimestamp(t).isoformat()] for the time [t] of a
     [stat_result], in the time zone of the machine; [None] when it raises
     (a time outside the years 1..9999) *)
  fs_isoformat : Z -> option string;
  (* [p.mkdir(parents=True, exist_ok=True)] succeeds *)
  fs_mkdir : Path -> bool;
  (* [open(p, "w")] and the writing that follows succeed *)
  fs_write : Path -> bool
}.

(** What a successful run has seen: the children listed, and the size and
    the date of a file. *)
Definition children (fs : FileSystem) (d : Path) : list string :=
  match fs_iterdir fs d with
  | Some names => names
  | None => []
  end.

Definition size_seen (fs : FileSystem) (p : Path) : nat :=
  match fs_stat fs p with
  | Some st => st_size st
  | None => 0
  end.

Definition modified_seen (fs : FileSystem) (p : Path) : string :=
  match fs_stat fs p with
  | Some st =>
      match fs_isoformat fs (st_mtime st) with
      | Some text => text
      | None => ""
      end
  | None => ""
  end.

(** The file cannot be [stat]-ed, or its modification time is no date. *)
Definition undatable (fs : FileSystem) (p : Path) : bool :=
  match fs_stat fs p with
  | Some st =>
      match fs_isoformat fs (st_mtime st) with
      | Some _ => false
      | None => true
      end
  | None => true
  end.

(** ** File records *)

Record FileInfo : Type := mkInfo {
  info_path : string;
  info_name : string;
  info_size : nat;
  info_hash : string;
  info_extension : string;
  info_modified : string
}.

Section Scanner.

Variable fs : FileSystem.
Variable sha : list byte -> string.   (* [sha256(bytes).hexdigest()] *)

Definition compute_file_hash (filepath : Path) : string :=
  match fs_read fs filepath with
  | Some bytes => sha bytes
  | None => ""
  end.

Definition get_file_info (filepath base_dir : Path) : option FileInfo :=
  relative <- relative_to filepath base_dir ;;
  stat <- fs_stat fs filepath ;;
  modified <- fs_isoformat fs (st_mtime stat) ;;
  Some {| info_path := path_str relative;
          info_name := path_name filepath;
          info_size := st_size stat;
          info_hash := compute_file_hash filepath;
          info_extension := path_suffix filepath;
          info_modified := modified |}.

Definition skip_patterns : list string :=
  [".git"; "__pycache__"; ".pyc"; "node_modules"; "target/debug";
   "target/release"; ".DS_Store"].

Definition _should_skip (filepath : Path) : bool :=
  let path_str := path_str filepath in
  existsb (fun pattern => contains pattern path_str) skip_patterns.

(** The body of the [for filepath in directory.rglob("*")] loop, over the
    descendants still to visit. *)
Fixpoint scan_loop (directory base_dir : Path) (rels : list (list string))
    (files : dict FileInfo) : option (dict FileInfo) :=
  match rels with
  | [] => Some files
  | rel :: rest =>
      let filepath := path_div directory rel in
      if fs_is_file fs filepath && negb (_should_skip filepath) then
        info <- get_file_info filepath base_dir ;;
        scan_loop directory base_dir rest (dict_set (info_path info) info files)
      else scan_loop directory base_dir rest files
  end.

Definition scan_directory (directory base_dir : Path)
  : option (dict FileInfo) :=
  if negb (fs_exists fs directory) then Some []
  else scan_loop directory base_dir (fs_rglob fs directory) [].

(** Scanning [d] relative to itself, as [analyze] does, when nothing
    raises: the record built for the descendant [rel] of [d], the test of
    the loop, one turn of the loop and the tree it yields (see
    [scan_directory_self]). *)
Definition record_at (d : Path) (rel : list string) : FileInfo :=
  {| info_path := path_str (mkPath false rel);
     info_name := path_name (path_div d rel);
     info_size := size_seen fs (path_div d rel);
     info_hash := compute_file_hash (path_div d rel);
     info_extension := path_suffix (path_div d rel);
     info_modified := modified_seen fs (path_div d rel) |}.

Definition kept (d : Path) (rel : list string) : bool :=
  fs_is_file fs (path_div d rel) && negb (_should_skip (path_div d rel)).

(** Some file the scan of [d] records cannot be [stat]-ed or dated. *)
Definition scan_raises (d : Path) : bool :=
  fs_exists fs d &&
  existsb (fun rel => kept d rel && undatable fs (path_div d rel))
          (fs_rglob fs d).

Definition scan_step (d : Path) (files : dict FileInfo) (rel : list string)
  : dict FileInfo :=
  if kept d rel
  then dict_set (path_str (mkPath false rel)) (record_at d rel) files
  else files.

Definition scan_tree (d : Path) : dict FileInfo :=
  if negb (fs_exists fs d) then []
  else fold_left (scan_step d) (fs_rglob fs d) [].

End Scanner.

(** ** The analyzer *)

Record Location : Type := mkLoc {
  loc_source : string;
  loc_path : string
}.

Record DuplicateGroup : Type := mkGroup {
  dup_hash : string;
  dup_locations : list Location
}.

Record LineageEntry : Type := mkEntry {
  le_version : string;
  le_path : string;
  le_hash_match : bool
}.

Record CrossReferenceAnalyzer : Type := mkAnalyzer {
  production_dir : Path;
  archive_dir : Path;
  output_dir : Path;
  production_files : dict FileInfo;
  archive_files : dict (dict FileInfo);
  duplicates : list DuplicateGroup;
  lineage : dict (list LineageEntry);
  missing : list string
}.

(** The fields [__init__] sets. *)
Definition fresh_analyzer (production_dir archive_dir output_dir : Path)
  : CrossReferenceAnalyzer :=
  mkAnalyzer production_dir archive_dir output_dir [] [] [] [] [].

(** [CrossReferenceAnalyzer(production_dir, archive_dir, output_dir)]: the
    output directory is made first. *)
Definition __init__ (fs : FileSystem)
    (production_dir archive_dir output_dir : Path)
  : option CrossReferenceAnalyzer :=
  if fs_mkdir fs output_dir
  then Some (fresh_analyzer production_dir archive_dir output_dir)
  else None.

Definition set_production_files (a : CrossReferenceAnalyzer) v :=
  mkAnalyzer (production_dir a) (archive_dir a) (output_dir a)
    v (archive_files a) (duplicates a) (lineage a) (missing a).

Definition set_archive_files (a : CrossReferenceAnalyzer) v :=
  mkAnalyzer (production_dir a) (archive_dir a) (output_dir a)
    (production_files a) v (duplicates a) (lineage a) (missing a).

Definition set_duplicates (a : CrossReferenceAnalyzer) v :=
  mkAnalyzer (production_dir a) (archive_dir a) (output_dir a)
    (production_files a) (archive_files a) v (lineage a) (missing a).

Definition set_lineage (a : CrossReferenceAnalyzer) v :=
  mkAnalyzer (production_dir a) (archive_dir a) (output_dir a)
    (production_files a) (archive_files a) (duplicates a) v (missing a).

Definition set_missing (a : CrossReferenceAnalyzer) v :=
  mkAnalyzer (production_dir a) (archive_dir a) (output_dir a)
    (production_files a) (archive_files a) (duplicates a) (lineage a) v.

(** *** [_find_duplicates] *)

(** One turn of either inner loop: a file with a truthy hash is filed under
    its hash. *)
Definition add_location (label : string)
    (hash_to_files : dict (list (string * string)))
    (item : string * FileInfo) : dict (list (string * string)) :=
  let '(path, info) := item in
  if truthy (info_hash info)
  then dict_append (info_hash info) (label, path) hash_to_files
  else hash_to_files.

Definition add_version (hash_to_files : dict (list (string * string)))
    (item : string * dict FileInfo) : dict (list (string * string)) :=
  let '(version, files) := item in
  fold_left (add_location version) files hash_to_files.

Definition hash_to_files (a : CrossReferenceAnalyzer)
  : dict (list (string * string)) :=
  fold_left add_version (archive_files a)
    (fold_left (add_location "production") (production_files a) []).

Definition add_group (dups : list DuplicateGroup)
    (item : string * list (string * string)) : list DuplicateGroup :=
  let '(file_hash, locations) := item in
  if (1 <? List.length locations)%nat
  then dups ++ [mkGroup (str_take 16 file_hash)
                        (map (fun loc => mkLoc (fst loc) (snd loc)) locations)]
  else dups.

Definition _find_duplicates (a : CrossReferenceAnalyzer)
  : CrossReferenceAnalyzer :=
  set_duplicates a (fold_left add_group (hash_to_files a) (duplicates a)).

(** *** [_trace_lineage] *)

Definition add_entry (prod_info : FileInfo) (version : string)
    (lineage : list LineageEntry) (item : string * FileInfo)
  : list LineageEntry :=
  let '(arch_path, arch_info) := item in
  if String.eqb (info_name arch_info) (info_name prod_info)
  then lineage ++ [mkEntry version arch_path
                     (String.eqb (info_hash prod_info) (info_hash arch_info))]
  else lineage.

Definition add_version_entries (archive : dict (dict FileInfo))
    (prod_info : FileInfo) (lineage : list LineageEntry) (version : string)
  : list LineageEntry :=
  fold_left (add_entry prod_info version)
    (dict_get_default [] version archive) lineage.

(** The list [lineage] built for one production file. *)
Definition lineage_of (archive : dict (dict FileInfo)) (prod_info : FileInfo)
  : list LineageEntry :=
  fold_left (add_version_entries archive prod_info) (sorted (keys archive)) [].

Definition trace_one (archive : dict (dict FileInfo))
    (lin : dict (list LineageEntry)) (item : string * FileInfo)
  : dict (list LineageEntry) :=
  let '(prod_path, prod_info) := item in
  match lineage_of archive prod_info with
  | [] => lin
  | l => dict_set prod_path l lin
  end.

Definition _trace_lineage (a : CrossReferenceAnalyzer)
  : CrossReferenceAnalyzer :=
  set_lineage a
    (fold_left (trace_one (archive_files a)) (production_files a) (lineage a)).

(** *** [_find_missing] *)

Definition expected_dirs : list string :=
  ["core/src"; "services"; "tests"; "docs"; "deploy"; "security";
   "dashboards"; "alerts"; "slo"].

Definition expected_files : list string :=
  ["Cargo.toml"; "README.md"; "CHANGELOG.md"; ".todo"].

Fixpoint split_slash (s : string) : list string :=
  match s with
  | EmptyString => [""]
  | String c r =>
      match split_slash r with
      | [] => [String c ""]
      | h :: t => if Ascii.eqb c "/" then "" :: h :: t else String c h :: t
      end
  end.

(** [p / s] for a relative string [s]: its components, empty and [.]
    components dropped. *)
Definition path_div_str (p : Path) (s : string) : Path :=
  path_div p
    (filter (fun c => negb (String.eqb c "") && negb (String.eqb c "."))
            (split_slash s)).

Section Missing.

Variable fs : FileSystem.

Definition check_expected (production_dir : Path) (kind : string)
    (missing : list string) (name : string) : list string :=
  if negb (fs_exists fs (path_div_str production_dir name))
  then missing ++ [String.append kind name]
  else missing.

Definition _find_missing (a : CrossReferenceAnalyzer)
  : CrossReferenceAnalyzer :=
  let m1 := fold_left (check_expected (production_dir a) "directory: ")
              expected_dirs (missing a) in
  let m2 := fold_left (check_expected (production_dir a) "file: ")
              expected_files m1 in
  set_missing a m2.

End Missing.

(** *** [_generate_report] *)

Record Summary : Type := mkSummary {
  sm_production_files : nat;
  sm_archive_versions : nat;
  sm_archive_files : nat;
  sm_duplicates_found : nat;
  sm_files_with_lineage : nat;
  sm_missing_components : nat
}.

Record Report : Type := mkReport {
  rp_timestamp : string;
  rp_summary : Summary;
  rp_duplicates : list DuplicateGroup;
  rp_lineage_sample : dict (list LineageEntry);
  rp_missing : list string;
  rp_critical_missing : list string
}.

(** [dict(items)]. *)
Definition dict_of_items {V} (items : list (string * V)) : dict V :=
  fold_left (fun d item => dict_set (fst item) (snd item) d) items [].

Definition is_critical (m : string) : bool :=
  contains "core" m || contains "security" m.

(** The dict [report]; [now] is [datetime.now().isoformat()]. *)
Definition report_of (now : string) (a : CrossReferenceAnalyzer)
  : Report :=
  {| rp_timestamp := now;
     rp_summary :=
       {| sm_production_files := List.length (production_files a);
          sm_archive_versions := List.length (archive_files a);
          sm_archive_files :=
            list_sum (map (fun f => List.length f) (values (archive_files a)));
          sm_duplicates_found := List.length (duplicates a);
          sm_files_with_lineage := List.length (lineage a);
          sm_missing_components := List.length (missing a) |};
     rp_duplicates := firstn 50 (duplicates a);
     rp_lineage_sample := dict_of_items (firstn 20 (lineage a));
     rp_missing := missing a;
     rp_critical_missing := filter is_critical (missing a) |}.

(** [_generate_report]: the dict is built, then written to [report.json]
    (the text [report_json]) and to [report.md] (the text
    [_format_markdown]) in the output directory, then returned. *)
Definition _generate_report (fs : FileSystem) (now : string)
    (a : CrossReferenceAnalyzer) : option Report :=
  let report := report_of now a in
  if fs_write fs (path_div (output_dir a) ["report.json"]) then
    if fs_write fs (path_div (output_dir a) ["report.md"]) then Some report
    else None
  else None.

(** *** [json.dump(report, f, indent=2)] *)

#[warnings="-register-all"]
Inductive json : Type :=
| JStr (s : string)
| JNum (n : nat)
| JBool (b : bool)
| JArr (items : list json)
| JObj (members : list (string * json)).

Definition dquote : string := String (ascii_of_nat 34) "".
Definition newline : string := String (ascii_of_nat 10) "".

Definition str_of_nat (n : nat) : string :=
  NilEmpty.string_of_uint (Nat.to_uint n).

Definition hex_digit (n : N) : string :=
  String.substring (N.to_nat (n mod 16)) 1 "0123456789abcdef".

(** [format(n, "04x")], for [n] below 65536. *)
Definition hex4 (n : N) : string :=
  (hex_digit (n / 4096) ++ hex_digit (n / 256) ++ hex_digit (n / 16) ++
   hex_digit n)%string.

(** The code points of a Python [str], from its UTF-8 bytes.  A byte that
    starts no well-formed sequence is a byte of a file name that Python
    could not decode: it stands for the lone surrogate U+DC00 + byte that
    [os.fsdecode] gives it. *)
Definition in_range (lo hi n : N) : bool := ((lo <=? n) && (n <=? hi))%N.

Definition is_cont (b : N) : bool := in_range 128 191 b.

Definition lead2 (b0 b1 : N) : bool := in_range 194 223 b0 && is_cont b1.

Definition lead3 (b0 b1 b2 : N) : bool :=
  ((b0 =? 224)%N && in_range 160 191 b1 ||
   (in_range 225 236 b0 || in_range 238 239 b0) && is_cont b1 ||
   (b0 =? 237)%N && in_range 128 159 b1) && is_cont b2.

Definition lead4 (b0 b1 b2 b3 : N) : bool :=
  ((b0 =? 240)%N && in_range 144 191 b1 ||
   in_range 241 243 b0 && is_cont b1 ||
   (b0 =? 244)%N && in_range 128 143 b1) && is_cont b2 && is_cont b3.

Fixpoint code_points (s : string) : list N :=
  match s with
  | EmptyString => []
  | String c0 r0 =>
      let b0 := N_of_ascii c0 in
      if (b0 <? 128)%N then b0 :: code_points r0
      else
        match r0 with
        | EmptyString => [(56320 + b0)%N]
        | String c1 r1 =>
            let b1 := N_of_ascii c1 in
            if lead2 b0 b1
            then ((b0 - 192) * 64 + (b1 - 128))%N :: code_points r1
            else
              match r1 with
              | EmptyString => (56320 + b0)%N :: code_points r0
              | String c2 r2 =>
                  let b2 := N_of_ascii c2 in
                  if lead3 b0 b1 b2
                  then ((b0 - 224) * 4096 + (b1 - 128) * 64 +
                        (b2 - 128))%N :: code_points r2
                  else
                    match r2 with
                    | EmptyString => (56320 + b0)%N :: code_points r0
                    | String c3 r3 =>
                        let b3 := N_of_ascii c3 in
                        if lead4 b0 b1 b2 b3
                        then ((b0 - 240) * 262144 + (b1 - 128) * 4096 +
                              (b2 - 128) * 64 + (b3 - 128))%N
                             :: code_points r3
                        else (56320 + b0)%N :: code_points r0
                    end
              end
        end
  end.

(** The escapes of the encoder with [ensure_ascii]: the short forms; a
    character of [' '..'~'] as it is; [\uXXXX] for any other one below
    65536, and the two surrogates of any other one above. *)
Definition escape_char (n : N) : string :=
  if (n =? 34)%N then "\" ++ dquote
  else if (n =? 92)%N then "\\"
  else if (n =? 10)%N then "\n"
  else if (n =? 13)%N then "\r"
  else if (n =? 9)%N then "\t"
  else if (n =? 8)%N then "\b"
  else if (n =? 12)%N then "\f"
  else if ((n <? 32) || (126 <? n))%N then
    if (n <? 65536)%N then "\u" ++ hex4 n
    else ("\u" ++ hex4 (55296 + (n - 65536) / 1024) ++
          "\u" ++ hex4 (56320 + (n - 65536) mod 1024))%string
  else String (ascii_of_N n) "".

Definition escape (s : string) : string :=
  String.concat "" (map escape_char (code_points s)).

Definition encode_string (s : string) : string := dquote ++ escape s ++ dquote.

Fixpoint spaces (n : nat) : string :=
  match n with
  | O => ""
  | S m => " " ++ spaces m
  end.

Definition newline_indent (level : nat) : string :=
  newline ++ spaces (2 * level).

Fixpoint dumps (level : nat) (j : json) : string :=
  match j with
  | JStr s => encode_string s
  | JNum n => str_of_nat n
  | JBool b => if b then "true" else "false"
  | JArr [] => "[]"
  | JArr (x :: xs) =>
      "[" ++ newline_indent (S level) ++ dumps (S level) x ++
      (fix more (l : list json) : string :=
         match l with
         | [] => ""
         | y :: ys =>
             ("," ++ newline_indent (S level) ++ dumps (S level) y ++ more ys)%string
         end) xs ++
      newline_indent level ++ "]"
  | JObj [] => "{}"
  | JObj ((k, v) :: ms) =>
      "{" ++ newline_indent (S level) ++
      encode_string k ++ ": " ++ dumps (S level) v ++
      (fix more (l : list (string * json)) : string :=
         match l with
         | [] => ""
         | (k', v') :: r =>
             ("," ++ newline_indent (S level) ++
              encode_string k' ++ ": " ++ dumps (S level) v' ++ more r)%string
         end) ms ++
      newline_indent level ++ "}"
  end.

Definition json_of_location (l : Location) : json :=
  JObj [("source", JStr (loc_source l)); ("path", JStr (loc_path l))].

Definition json_of_group (g : DuplicateGroup) : json :=
  JObj [("hash", JStr (dup_hash g));
        ("locations", JArr (map json_of_location (dup_locations g)))].

Definition json_of_entry (e : LineageEntry) : json :=
  JObj [("version", JStr (le_version e)); ("path", JStr (le_path e));
        ("hash_match", JBool (le_hash_match e))].

Definition json_of_summary (s : Summary) : json :=
  JObj [("production_files", JNum (sm_production_files s));
        ("archive_versions", JNum (sm_archive_versions s));
        ("archive_files", JNum (sm_archive_files s));
        ("duplicates_found", JNum (sm_duplicates_found s));
        ("files_with_lineage", JNum (sm_files_with_lineage s));
        ("missing_components", JNum (sm_missing_components s))].

Definition json_of_report (r : Report) : json :=
  JObj [("timestamp", JStr (rp_timestamp r));
        ("summary", json_of_summary (rp_summary r));
        ("duplicates", JArr (map json_of_group (rp_duplicates r)));
        ("lineage_sample",
         JObj (map (fun item => (fst item, JArr (map json_of_entry (snd item))))
                   (rp_lineage_sample r)));
        ("missing", JArr (map JStr (rp_missing r)));
        ("critical_missing", JArr (map JStr (rp_critical_missing r)))].

(** The content written to [report.json]. *)
Definition report_json (r : Report) : string := dumps 0 (json_of_report r).

(** *** [analyze] and [main] *)

Section Analyze.

Variable fs : FileSystem.
Variable sha : list byte -> string.
Variable now : string.               (* [datetime.now().isoformat()] *)

(** The loop over [sorted(self.archive_dir.iterdir())], over the names still
    to visit. *)
Fixpoint scan_archives (archive_dir : Path) (names : list string)
    (archive : dict (dict FileInfo)) : option (dict (dict FileInfo)) :=
  match names with
  | [] => Some archive
  | child :: rest =>
      let version_dir := path_div archive_dir [child] in
      if fs_is_dir fs version_dir then
        let version := path_name version_dir in
        files <- scan_directory fs sha version_dir version_dir ;;
        scan_archives archive_dir rest (dict_set version files archive)
      else scan_archives archive_dir rest archive
  end.

(** The scanning half of [analyze]. *)
Definition scan_all (a : CrossReferenceAnalyzer)
  : option CrossReferenceAnalyzer :=
  files <- scan_directory fs sha (production_dir a) (production_dir a) ;;
  let a := set_production_files a files in
  if fs_exists fs (archive_dir a) then
    names <- fs_iterdir fs (archive_dir a) ;;
    archive <- scan_archives (archive_dir a) (sorted names)
                 (archive_files a) ;;
    Some (set_archive_files a archive)
  else Some a.

(** [analyze]: the analyzer as the call leaves it, and the report
    returned. *)
Definition analyze (a : CrossReferenceAnalyzer)
  : option (CrossReferenceAnalyzer * Report) :=
  a <- scan_all a ;;
  let a := _find_duplicates a in
  let a := _trace_lineage a in
  let a := _find_missing fs a in
  report <- _generate_report fs now a ;;
  Some (a, report).

(** The first two statements of [main] after the parsing: the analyzer is
    made and [analyze] called. *)
Definition run (production_dir archive_dir output_dir : Path)
  : option (CrossReferenceAnalyzer * Report) :=
  analyzer <- __init__ fs production_dir archive_dir output_dir ;;
  analyze analyzer.

(** [main], from the parsed arguments to the exit status of the process:
    that of [sys.exit], or 1 when an exception ends the run. *)
Definition main (production_dir archive_dir output_dir : Path) : nat :=
  match run production_dir archive_dir output_dir with
  | Some (_, report) =>
      match rp_critical_missing report with
      | [] => 0
      | _ :: _ => 1
      end
  | None => 1
  end.

(** What a run that returns has computed (see [run_returns]): every
    directory is scanned relative to itself. *)
Definition archive_step (archive_dir : Path) (archive : dict (dict FileInfo))
    (child : string) : dict (dict FileInfo) :=
  let version_dir := path_div archive_dir [child] in
  if fs_is_dir fs version_dir
  then dict_set (path_name version_dir) (scan_tree fs sha version_dir) archive
  else archive.

Definition scanned_archive (archive_dir : Path)
    (archive : dict (dict FileInfo)) : dict (dict FileInfo) :=
  if fs_exists fs archive_dir
  then fold_left (archive_step archive_dir)
         (sorted (children fs archive_dir)) archive
  else archive.

Definition scanned (a : CrossReferenceAnalyzer) : CrossReferenceAnalyzer :=
  set_archive_files
    (set_production_files a (scan_tree fs sha (production_dir a)))
    (scanned_archive (archive_dir a) (archive_files a)).

Definition analyzed (a : CrossReferenceAnalyzer) : CrossReferenceAnalyzer :=
  _find_missing fs (_trace_lineage (_find_duplicates (scanned a))).

(** Listing the archive root raises, or the scan of a version does. *)
Definition archive_raises (archive_dir : Path) : bool :=
  fs_exists fs archive_dir &&
  match fs_iterdir fs archive_dir with
  | None => true
  | Some names =>
      existsb (fun child =>
                 fs_is_dir fs (path_div archive_dir [child]) &&
                 scan_raises fs (path_div archive_dir [child])) names
  end.

(** Some step of [analyze] raises. *)
Definition analyze_raises (a : CrossReferenceAnalyzer) : bool :=
  scan_raises fs (production_dir a) ||
  archive_raises (archive_dir a) ||
  negb (fs_write fs (path_div (output_dir a) ["report.json"])) ||
  negb (fs_write fs (path_div (output_dir a) ["report.md"])).

(** Some step of the run raises. *)
Definition run_raises (production_dir archive_dir output_dir : Path) : bool :=
  negb (fs_mkdir fs output_dir) ||
  analyze_raises (fresh_analyzer production_dir archive_dir output_dir).

End Analyze.

(** ** Concrete file systems, for examples *)

Inductive Node : Type :=
| Dir
| File (mtime : Z) (content : option (list byte)).
                                         (* [None]: reading it fails *)

(** A listing gives every directory and file below the working directory by
    its components, in the order a traversal yields them. *)
Definition listing : Type := list (list string * Node).

Definition parts_eqb (p q : list string) : bool :=
  if list_eq_dec string_dec p q then true else false.

Definition find_node (l : listing) (p : Path) : option Node :=
  if anchored p then None
  else option_map snd (find (fun e => parts_eqb (fst e) (parts p)) l).

Definition node_is_dir (n : option Node) : bool :=
  match n with Some Dir => true | _ => false end.

Definition node_is_file (n : option Node) : bool :=
  match n with Some (File _ _) => true | _ => false end.

Definition node_read (n : option Node) : option (list byte) :=
  match n with Some (File _ c) => c | _ => None end.

Definition node_stat (n : option Node) : option stat_result :=
  match n with
  | Some Dir => Some (mkStat 4096 1704067200000000000)
  | Some (File mtime (Some bytes)) => Some (mkStat (List.length bytes) mtime)
  | Some (File mtime None) => Some (mkStat 0 mtime)
  | None => None
  end.

(** A stand-in for [datetime.fromtimestamp(t).isoformat()]: like it, it
    fails after the year 9999. *)
Definition timestamp_text (t : Z) : option string :=
  if ((0 <=? t) && (t <? 253402300800000000000))%Z
  then Some (String.append "@"
               (NilEmpty.string_of_uint (N.to_uint (Z.to_N t))))
  else None.

(** Some regular file of the listing is the path or above it: nothing can
    be created there. *)
Definition under_a_file (l : listing) (ps : list string) : bool :=
  existsb (fun e =>
             match snd e, strip_prefix (fst e) ps with
             | File _ _, Some _ => true
             | _, _ => false
             end) l.

Definition below (d : Path) (e : list string * Node) : list (list string) :=
  if anchored d then []
  else match strip_prefix (parts d) (fst e) with
       | Some (x :: r) => [x :: r]
       | _ => []
       end.

Definition child_of (d : Path) (e : list string * Node) : list string :=
  match below d e with
  | [[x]] => [x]
  | _ => []
  end.

Definition fs_of_listing (l : listing) : FileSystem :=
  {| fs_exists := fun p =>
       match parts p with
       | [] => negb (anchored p)
       | _ => match find_node l p with Some _ => true | None => false end
       end;
     fs_is_dir := fun p =>
       match parts p with
       | [] => negb (anchored p)
       | _ => node_is_dir (find_node l p)
       end;
     fs_is_file := fun p => node_is_file (find_node l p);
     fs_rglob := fun d => flat_map (below d) l;
     fs_iterdir := fun d =>
       if match parts d with
          | [] => negb (anchored d)
          | _ => node_is_dir (find_node l d)
          end
       then Some (flat_map (child_of d) l)
       else None;
     fs_read := fun p => node_read (find_node l p);
     fs_stat := fun p => node_stat (find_node l p);
     fs_isoformat := timestamp_text;
     fs_mkdir := fun p => negb (anchored p) && negb (under_a_file l (parts p));
     fs_write := fun p =>
       negb (anchored p) && negb (node_is_dir (find_node l p)) &&
       negb (under_a_file l (removelast (parts p))) |}.

(** A stand-in for SHA-256 in the examples: like it, never empty and equal
    on equal contents only. *)
Definition content_digest (bytes : list byte) : string :=
  String.append "sha:" (string_of_list_byte bytes).

Definition text (s : string) : Node :=
  File 1704067200000000000 (Some (list_byte_of_string s)).
Definition unreadable : Node := File 1704067200000000000 None.

(** A file whose modification time is in the year 10000. *)
Definition far_future (s : string) : Node :=
  File 253402300800000000000 (Some (list_byte_of_string s)).

Definition rel (ps : list string) : Path := mkPath false ps.

(** ** Vocabulary of the statements *)

(** Every scanned file with the label of its tree: [(label, (path, info))],
    the production tree first, then the archive trees as stored. *)
Definition corpus_entries (a : CrossReferenceAnalyzer)
  : list (string * (string * FileInfo)) :=
  map (pair "production") (production_files a) ++
  flat_map (fun item => map (pair (fst item)) (snd item)) (archive_files a).

(** The locations of the entries whose digest is [h], in corpus order. *)
Definition locations_with (h : string)
    (entries : list (string * (string * FileInfo))) : list Location :=
  map (fun e => mkLoc (fst e) (fst (snd e)))
      (filter (fun e => String.eqb (info_hash (snd (snd e))) h) entries).

(** The lineage entries one archive tree contributes to a production file:
    one for each file of the tree with the production file's name. *)
Definition same_name (prod_info : FileInfo) (item : string * FileInfo) : bool :=
  String.eqb (info_name (snd item)) (info_name prod_info).

Definition entries_in (prod_info : FileInfo) (version : string)
    (files : dict FileInfo) : list LineageEntry :=
  map (fun item =>
         mkEntry version (fst item)
           (String.eqb (info_hash prod_info) (info_hash (snd item))))
      (filter (same_name prod_info) files).

(** Some archive tree has a file with the name of [prod_info]. *)
Definition has_same_named (archive : dict (dict FileInfo))
    (prod_info : FileInfo) : bool :=
  existsb (fun item => existsb (same_name prod_info) (snd item)) archive.

(** The number of [LineageEntry] records in a lineage map. *)
Definition entry_count (lin : dict (list LineageEntry)) : nat :=
  list_sum (map (fun item => List.length (snd item)) lin).

Definition with_timestamp (t : string) (r : Report) : Report :=
  mkReport t (rp_summary r) (rp_duplicates r) (rp_lineage_sample r)
    (rp_missing r) (rp_critical_missing r).

(** Two file systems show the same tree at [root]: every query the program
    makes of a path at or below [root] has the same answer in both. *)
Definition same_tree (root : Path) (fs1 fs2 : FileSystem) : Prop :=
  forall rel : list string,
    let p := path_div root rel in
    fs_exists fs1 p = fs_exists fs2 p /\
    fs_is_dir fs1 p = fs_is_dir fs2 p /\
    fs_is_file fs1 p = fs_is_file fs2 p /\
    fs_rglob fs1 p = fs_rglob fs2 p /\
    fs_iterdir fs1 p = fs_iterdir fs2 p /\
    fs_read fs1 p = fs_read fs2 p /\
    fs_stat fs1 p = fs_stat fs2 p.

(** ** Example corpora *)

Definition prod_root : Path := rel ["prod"].
Definition arch_root : Path := rel ["arch"].
Definition out_root : Path := rel ["out"].

(** One production file with an upper-case suffix. *)
Definition corpus_readme : listing :=
  [ (["prod"], Dir); (["prod"; "README.MD"], text "notes") ].

(** A production file and its archived copy, neither of them readable. *)
Definition corpus_unreadable : listing :=
  [ (["prod"], Dir); (["prod"; "notes.txt"], unreadable);
    (["arch"], Dir); (["arch"; "v1"], Dir);
    (["arch"; "v1"; "notes.txt"], unreadable) ].

(** One archive version holding two files with the production file's
    name. *)
Definition corpus_two_in_version : listing :=
  [ (["prod"], Dir); (["prod"; "a.txt"], text "X");
    (["arch"], Dir); (["arch"; "v1"], Dir);
    (["arch"; "v1"; "x"], Dir); (["arch"; "v1"; "x"; "a.txt"], text "X");
    (["arch"; "v1"; "y"], Dir); (["arch"; "v1"; "y"; "a.txt"], text "Y") ].

(** One production file archived in the 21 versions [v10] .. [v30]. *)
Definition corpus_many_versions : listing :=
  [ (["prod"], Dir); (["prod"; "a.txt"], text "X"); (["arch"], Dir) ] ++
  flat_map (fun n =>
              let v := String.append "v" (str_of_nat n) in
              [ (["arch"; v], Dir); (["arch"; v; "a.txt"], text "X") ])
           (seq 10 21).

(** The scenario of the specification: [a.txt] in production, the same
    bytes in [v1], other bytes in [v2]; [core/src] and [security] exist. *)
Definition corpus_scenario : listing :=
  [ (["prod"], Dir); (["prod"; "a.txt"], text "X");
    (["prod"; "core"], Dir); (["prod"; "core"; "src"], Dir);
    (["prod"; "security"], Dir); (["prod"; "b.bin"], unreadable);
    (["arch"], Dir); (["arch"; "v2"], Dir); (["arch"; "v2"; "a.txt"], text "Y");
    (["arch"; "v1"], Dir); (["arch"; "v1"; "a.txt"], text "X") ].

(** A production tree checked out under a directory whose name holds an
    exclusion pattern. *)
Definition corpus_under_github : listing :=
  [ ([".github"], Dir); ([".github"; "prod"], Dir);
    ([".github"; "prod"; "a.txt"], text "X") ].

(** ** [_format_markdown] *)

(** The list [lines] the method builds. *)
Definition markdown_lines (report : Report) : list string :=
  ["# Cross-Reference Analysis Report"; "";
   String.append "**Generated:** " (rp_timestamp report); "";
   "## Summary"; ""] ++
  [String.append "- Production files: "
     (str_of_nat (sm_production_files (rp_summary report)));
   String.append "- Duplicates found: "
     (str_of_nat (sm_duplicates_found (rp_summary report)));
   String.append "- Missing components: "
     (str_of_nat (sm_missing_components (rp_summary report)));
   ""; "## Missing Components"; ""] ++
  match rp_missing report with
  | [] => ["*No missing components*"]
  | _ :: _ => map (fun item => String.append "- " item) (rp_missing report)
  end.

(** The content written to [report.md]. *)
Definition _format_markdown (report : Report) : string :=
  String.concat newline (markdown_lines report).

(** The order of [sorted]: [x <= y] on Python strings. *)
Definition str_le (x y : string) : Prop := String.leb x y = true.

(** [s.count(c)]. *)
Fixpoint count_char (c : ascii) (s : string) : nat :=
  match s with
  | EmptyString => 0
  | String a r => (if Ascii.eqb a c then 1 else 0) + count_char c r
  end.

(** A tree with generated files among the sources. *)
Definition corpus_with_noise : listing :=
  [ (["prod"], Dir); (["prod"; ".gitignore"], text "target");
    (["prod"; "lib.py"], text "code");
    (["prod"; "__pycache__"], Dir);
    (["prod"; "__pycache__"; "lib.cpython.pyc"], text "bytecode");
    (["prod"; "lib.pyc.bak"], text "old");
    (["arch"], Dir); (["arch"; "v2"], Dir); (["arch"; "notes.txt"], text "n");
    (["arch"; "v10"], Dir); (["arch"; "v10"; "lib.py"], text "code");
    (["arch"; "v2"; "lib.py"], text "older") ].

(** The scenario with a regular file where the output directory should
    be. *)
Definition corpus_output_is_file : listing :=
  corpus_scenario ++ [ (["out"], text "taken") ].

(** The scenario with a directory named [report.json] in the output
    directory. *)
Definition corpus_report_is_dir : listing :=
  corpus_scenario ++ [ (["out"], Dir); (["out"; "report.json"], Dir) ].

(** The scenario with a production file dated in the year 10000. *)
Definition corpus_far_future : listing :=
  corpus_scenario ++ [ (["prod"; "late.txt"], far_future "L") ].

(** A production tree whose archive root is a regular file. *)
Definition corpus_archive_is_file : listing :=
  [ (["prod"], Dir); (["prod"; "a.txt"], text "X");
    (["arch"], text "not a directory") ].

(** Every entry of the listing lies under a top-level name other than
    [x]. *)
Definition elsewhere (x : string) (l : listing) : bool :=
  forallb (fun e =>
             match fst e with
             | [] => false
             | y :: _ => negb (String.eqb y x)
             end) l.

(** The scenario with other files around the two trees, among them the
    reports of an earlier run. *)
Definition other_files : listing :=
  [ (["home"], Dir); (["home"; "todo.txt"], text "later") ].

Definition earlier_reports : listing :=
  [ (["out"], Dir); (["out"; "report.json"], text "{}");
    (["out"; "report.md"], text "# old") ].

Definition corpus_scenario_later : listing :=
  other_files ++ corpus_scenario ++ earlier_reports.

(** No production root; one archive version holding two copies of a
    file. *)
Definition corpus_archive_only : listing :=
  [ (["arch"], Dir); (["arch"; "v1"], Dir);
    (["arch"; "v1"; "a.txt"], text "X");
    (["arch"; "v1"; "b.txt"], text "X") ].

(** * Properties *)

(** ** Strings *)

Lemma append_assoc (a b c : string) :
  String.append (String.append a b) c = String.append a (String.append b c).
Proof. induction a as [|x a IH]; simpl; [reflexivity | now rewrite IH]. Qed.

Lemma append_nil_r (a : string) : String.append a "" = a.
Proof. induction a as [|x a IH]; simpl; [reflexivity | now rewrite IH]. Qed.

Lemma prefix_spec (p s : string) :
  String.prefix p s = true <-> exists r, s = String.append p r.
Proof.
  revert s; induction p as [|c p IH]; intros s.
  - destruct s; simpl; split; intros; eauto.
  - destruct s as [|d s]; simpl.
    + split; [discriminate | intros [r H]; discriminate].
    + destruct (ascii_dec c d) as [->|Hne].
      * rewrite IH. split; intros [r H]; exists r; congruence.
      * split; [discriminate | intros [r H]; congruence].
Qed.

Lemma contains_spec (p s : string) :
  contains p s = true <-> substring_of p s.
Proof.
  unfold substring_of. induction s as [|c s IH].
  - cbn [contains]. rewrite orb_false_r, prefix_spec. split.
    + intros [r H]. exists "", r. exact H.
    + intros [a [b H]]. destruct a; simpl in H; [eauto | discriminate].
  - cbn [contains]. rewrite orb_true_iff, prefix_spec, IH. split.
    + intros [[r H] | [a [b H]]].
      * exists "", r. exact H.
      * exists (String c a), b. simpl. now rewrite H.
    + intros [a [b H]]. destruct a as [|x a]; simpl in H.
      * left. eauto.
      * right. exists a, b. congruence.
Qed.

Lemma contains_false (p s : string) :
  contains p s = false <-> ~ substring_of p s.
Proof.
  rewrite <- contains_spec. destruct (contains p s); split; intros H;
    congruence.
Qed.

Lemma substring_of_append_r (p s t : string) :
  substring_of p s -> substring_of p (String.append s t).
Proof.
  intros [a [b ->]]. exists a, (String.append b t).
  now rewrite !append_assoc.
Qed.

Lemma substring_of_append_l (p s t : string) :
  substring_of p t -> substring_of p (String.append s t).
Proof.
  intros [a [b ->]]. exists (String.append s a), b.
  now rewrite !append_assoc.
Qed.

Lemma truthy_spec (s : string) : truthy s = true <-> s <> "".
Proof. destruct s; simpl; split; congruence. Qed.

(** ** Dicts *)

Section DictFacts.

Context {V : Type}.
Implicit Types (d : dict V) (k : string) (v : V).

Lemma dict_get_In k v d : dict_get k d = Some v -> In (k, v) d.
Proof.
  induction d as [|[k' v'] d IH]; simpl; [discriminate|].
  destruct (String.eqb_spec k k') as [->|Hne].
  - intros [= ->]. now left.
  - intros H. right. auto.
Qed.

Lemma dict_get_None k d : dict_get k d = None <-> ~ In k (keys d).
Proof.
  induction d as [|[k' v'] d IH]; simpl; [tauto|].
  destruct (String.eqb_spec k k') as [->|Hne].
  - split; [discriminate | intros H; exfalso; auto].
  - rewrite IH. split; intros H; [intros [E|E]; [congruence|auto] | auto].
Qed.

Lemma In_dict_get k v d :
  NoDup (keys d) -> In (k, v) d -> dict_get k d = Some v.
Proof.
  induction d as [|[k' v'] d IH]; simpl; [tauto|].
  intros Hnd [E|Hin]; inversion Hnd as [|? ? Hk Hd]; subst.
  - inversion E; subst. now rewrite String.eqb_refl.
  - destruct (String.eqb_spec k k') as [->|Hne]; [|auto].
    exfalso. apply Hk. apply (in_map fst) in Hin. exact Hin.
Qed.

Lemma keys_dict_set k v d :
  keys (dict_set k v d) = if in_dec string_dec k (keys d) then keys d
                          else keys d ++ [k].
Proof.
  induction d as [|[k' v'] d IH]; simpl; [reflexivity|].
  destruct (String.eqb_spec k k') as [->|Hne].
  - simpl. destruct (string_dec k' k'); [reflexivity | congruence].
  - simpl. rewrite IH. destruct (string_dec k' k) as [E|N]; [congruence|].
    destruct (in_dec string_dec k (keys d)); reflexivity.
Qed.

Lemma In_keys_dict_set k v d k0 :
  In k0 (keys (dict_set k v d)) <-> k0 = k \/ In k0 (keys d).
Proof.
  rewrite keys_dict_set. destruct (in_dec string_dec k (keys d)) as [Hin|Hn].
  - split; [auto | intros [->|H]; auto].
  - rewrite in_app_iff. simpl. intuition.
Qed.

Lemma NoDup_keys_dict_set k v d :
  NoDup (keys d) -> NoDup (keys (dict_set k v d)).
Proof.
  intros Hnd. rewrite keys_dict_set.
  destruct (in_dec string_dec k (keys d)) as [Hin|Hn]; [exact Hnd|].
  apply NoDup_app; [exact Hnd | repeat constructor; auto |].
  intros x Hx [<-|[]]. contradiction.
Qed.

Lemma dict_get_set k v d k0 :
  dict_get k0 (dict_set k v d) = if String.eqb k0 k then Some v
                                 else dict_get k0 d.
Proof.
  induction d as [|[k' v'] d IH]; simpl.
  - destruct (String.eqb k0 k); reflexivity.
  - destruct (String.eqb_spec k k') as [->|Hne]; simpl.
    + destruct (String.eqb k0 k'); reflexivity.
    + rewrite IH. destruct (String.eqb_spec k0 k') as [->|Hne'];
        [|reflexivity].
      destruct (String.eqb_spec k' k); congruence.
Qed.

Lemma In_dict_set k v d k0 v0 :
  In (k0, v0) (dict_set k v d) ->
  (k0 = k /\ v0 = v) \/ In (k0, v0) d.
Proof.
  induction d as [|[k' v'] d IH]; simpl.
  - intros [[= <- <-]|[]]. auto.
  - destruct (String.eqb_spec k k') as [->|Hne]; simpl.
    + intros [[= <- <-]|H]; auto.
    + intros [H|H]; [auto|]. apply IH in H. tauto.
Qed.

Lemma length_dict_set k v d :
  List.length (dict_set k v d) <= S (List.length d).
Proof.
  induction d as [|[k' v'] d IH]; simpl; [lia|].
  destruct (String.eqb k k'); simpl; lia.
Qed.

End DictFacts.

Lemma length_dict_of_items_acc {V} (items : list (string * V)) (d : dict V) :
  List.length
    (fold_left (fun d item => dict_set (fst item) (snd item) d) items d)
  <= List.length d + List.length items.
Proof.
  revert d; induction items as [|x items IH]; intros d; simpl; [lia|].
  specialize (IH (dict_set (fst x) (snd x) d)).
  pose proof (length_dict_set (fst x) (snd x) d). lia.
Qed.

Lemma length_dict_of_items {V} (items : list (string * V)) :
  List.length (dict_of_items items) <= List.length items.
Proof. apply (length_dict_of_items_acc items []). Qed.

(** ** Paths *)

Lemma strip_prefix_app (p r : list string) : strip_prefix p (p ++ r) = Some r.
Proof.
  induction p as [|x p IH]; simpl; [reflexivity|].
  now rewrite String.eqb_refl.
Qed.

Lemma relative_to_div (d : Path) (rel : list string) :
  relative_to (path_div d rel) d = Some (mkPath false rel).
Proof.
  unfold relative_to, path_div; simpl.
  rewrite Bool.eqb_reflx, strip_prefix_app. reflexivity.
Qed.

Lemma concat_app (sep : string) (ps qs : list string) :
  ps <> [] -> qs <> [] ->
  String.concat sep (ps ++ qs) =
  String.append (String.concat sep ps)
    (String.append sep (String.concat sep qs)).
Proof.
  intros Hp Hq. induction ps as [|x ps IH]; [congruence|].
  destruct ps as [|y ps].
  - destruct qs; [congruence | reflexivity].
  - change (String.concat sep ((x :: y :: ps) ++ qs))
      with (String.append x
              (String.append sep (String.concat sep ((y :: ps) ++ qs)))).
    rewrite IH by discriminate.
    change (String.concat sep (x :: y :: ps))
      with (String.append x (String.append sep (String.concat sep (y :: ps)))).
    now rewrite !append_assoc.
Qed.

Lemma path_str_nonempty (anc : bool) (ps : list string) :
  ps <> [] ->
  path_str (mkPath anc ps) =
  String.append (if anc then "/" else "") (String.concat "/" ps).
Proof. intros H. destruct anc, ps; try congruence; reflexivity. Qed.

(** The string of a path below [d] starts with the string of [d], unless [d]
    is the working directory or the root. *)
Lemma path_str_div (d : Path) (rel : list string) :
  parts d <> [] ->
  exists t, path_str (path_div d rel) = String.append (path_str d) t.
Proof.
  intros Hd. destruct d as [anc ps]; simpl in Hd.
  destruct rel as [|r rel]; unfold path_div; simpl anchored; simpl parts.
  - exists "". now rewrite app_nil_r, append_nil_r.
  - exists (String.append "/" (String.concat "/" (r :: rel))).
    rewrite !path_str_nonempty; auto.
    + rewrite (@concat_app "/" ps (r :: rel)) by (auto; discriminate).
      now rewrite !append_assoc.
    + destruct ps; discriminate.
Qed.

Lemma no_pattern_in_bare_root (d : Path) (pat : string) :
  parts d = [] -> In pat skip_patterns -> contains pat (path_str d) = false.
Proof.
  intros Hd Hin. destruct d as [[|] ps]; simpl in Hd; subst ps;
    simpl in Hin; intuition (subst; reflexivity).
Qed.

Lemma pattern_in_root_in_descendant (d : Path) (rel : list string)
    (pat : string) :
  In pat skip_patterns ->
  substring_of pat (path_str d) ->
  substring_of pat (path_str (path_div d rel)).
Proof.
  intros Hin Hsub. destruct (parts d) eqn:E.
  - apply contains_spec in Hsub.
    rewrite (no_pattern_in_bare_root d E Hin) in Hsub. discriminate.
  - destruct (@path_str_div d rel) as [t ->]; [congruence|].
    now apply substring_of_append_r.
Qed.

(** ** The scanner *)

Lemma should_skip_spec (filepath : Path) :
  _should_skip filepath = true <->
  exists pat, In pat skip_patterns /\ substring_of pat (path_str filepath).
Proof.
  unfold _should_skip. rewrite existsb_exists.
  split; intros [pat [Hin H]]; exists pat; split; auto;
    now apply contains_spec.
Qed.

Section ScannerFacts.

Variable fs : FileSystem.
Variable sha : list byte -> string.

Lemma get_file_info_div (d : Path) (rel : list string) :
  get_file_info fs sha (path_div d rel) d =
  if undatable fs (path_div d rel) then None else Some (record_at fs sha d rel).
Proof.
  unfold get_file_info, undatable, record_at, size_seen, modified_seen.
  rewrite relative_to_div. cbn [bind].
  destruct (fs_stat fs (path_div d rel)) as [st|]; cbn [bind];
    [|reflexivity].
  destruct (fs_isoformat fs (st_mtime st)); reflexivity.
Qed.

Lemma get_file_info_inv (filepath base_dir : Path) (info : FileInfo) :
  get_file_info fs sha filepath base_dir = Some info ->
  exists relative st modified,
    relative_to filepath base_dir = Some relative /\
    fs_stat fs filepath = Some st /\
    fs_isoformat fs (st_mtime st) = Some modified /\
    info = mkInfo (path_str relative) (path_name filepath) (st_size st)
             (compute_file_hash fs sha filepath) (path_suffix filepath)
             modified.
Proof.
  unfold get_file_info.
  destruct (relative_to filepath base_dir) as [relative|]; [|discriminate].
  destruct (fs_stat fs filepath) as [st|]; [|discriminate].
  cbn [bind].
  destruct (fs_isoformat fs (st_mtime st)) as [modified|] eqn:M;
    [|discriminate].
  cbn [bind]. intros [= <-]. exists relative, st, modified. auto.
Qed.

Lemma scan_loop_fold (d : Path) (rels : list (list string))
    (files : dict FileInfo) :
  scan_loop fs sha d d rels files =
  if existsb (fun rel => kept fs d rel && undatable fs (path_div d rel)) rels
  then None
  else Some (fold_left (scan_step fs sha d) rels files).
Proof.
  revert files; induction rels as [|rel rels IH]; intros files;
    cbn [scan_loop existsb fold_left]; [reflexivity|].
  unfold scan_step at 2. fold (kept fs d rel).
  destruct (kept fs d rel); cbn [andb orb]; [|apply IH].
  rewrite get_file_info_div.
  destruct (undatable fs (path_div d rel)); cbn [bind orb]; [reflexivity|apply IH].
Qed.

(** Scanning a directory relative to itself raises only for a file that
    cannot be [stat]-ed or dated; otherwise it gives [scan_tree]. *)
Lemma scan_directory_self (d : Path) :
  scan_directory fs sha d d =
  if scan_raises fs d then None else Some (scan_tree fs sha d).
Proof.
  unfold scan_directory, scan_tree, scan_raises.
  destruct (fs_exists fs d); cbn [negb andb]; [apply scan_loop_fold|].
  reflexivity.
Qed.

Lemma scan_directory_returns (d : Path) :
  scan_raises fs d = false ->
  scan_directory fs sha d d = Some (scan_tree fs sha d).
Proof. intros H. now rewrite scan_directory_self, H. Qed.

Lemma scan_fold_keys (d : Path) (rels : list (list string))
    (files : dict FileInfo) (key : string) :
  In key (keys (fold_left (scan_step fs sha d) rels files)) <->
  In key (keys files) \/
  exists rel, In rel rels /\ kept fs d rel = true /\
              key = path_str (mkPath false rel).
Proof.
  revert files; induction rels as [|rel rels IH]; intros files; simpl.
  - split; [auto | intros [H|[rel [[] _]]]; exact H].
  - rewrite IH. unfold scan_step at 1.
    destruct (kept fs d rel) eqn:K.
    + rewrite In_keys_dict_set. split.
      * intros [[->|H]|[r [H1 H2]]]; eauto 6.
      * intros [H|[r [[<-|H1] [H2 H3]]]]; eauto 6.
    + split.
      * intros [H|[r [H1 H2]]]; eauto 6.
      * intros [H|[r [[<-|H1] [H2 H3]]]]; [auto | congruence | eauto 6].
Qed.

Lemma scan_fold_In (d : Path) (rels : list (list string))
    (files : dict FileInfo) (key : string) (info : FileInfo) :
  In (key, info) (fold_left (scan_step fs sha d) rels files) ->
  In (key, info) files \/
  exists rel, In rel rels /\ kept fs d rel = true /\
              key = path_str (mkPath false rel) /\ info = record_at fs sha d rel.
Proof.
  revert files; induction rels as [|rel rels IH]; intros files; simpl;
    [auto|].
  intros H. apply IH in H. destruct H as [H|[r [H1 H2]]]; [|eauto 6].
  unfold scan_step in H. destruct (kept fs d rel) eqn:K; [|auto].
  apply In_dict_set in H. destruct H as [[-> ->]|H]; [|auto].
  right. exists rel. auto.
Qed.

Lemma scan_fold_NoDup (d : Path) (rels : list (list string))
    (files : dict FileInfo) :
  NoDup (keys files) -> NoDup (keys (fold_left (scan_step fs sha d) rels files)).
Proof.
  revert files; induction rels as [|rel rels IH]; intros files H; simpl;
    [exact H|].
  apply IH. unfold scan_step. destruct (kept fs d rel); [|exact H].
  now apply NoDup_keys_dict_set.
Qed.

Lemma scan_tree_NoDup (d : Path) : NoDup (keys (scan_tree fs sha d)).
Proof.
  unfold scan_tree. destruct (negb (fs_exists fs d)); [constructor|].
  apply scan_fold_NoDup. constructor.
Qed.

Lemma scan_tree_In (d : Path) (key : string) (info : FileInfo) :
  In (key, info) (scan_tree fs sha d) ->
  exists rel, In rel (fs_rglob fs d) /\ kept fs d rel = true /\
              key = path_str (mkPath false rel) /\ info = record_at fs sha d rel.
Proof.
  unfold scan_tree. destruct (negb (fs_exists fs d)); [intros []|].
  intros H. apply scan_fold_In in H. destruct H as [[]|H]. exact H.
Qed.

End ScannerFacts.

(** ** [sorted] permutes *)

Lemma insert_sorted_perm (x : string) (l : list string) :
  Permutation (insert_sorted x l) (x :: l).
Proof.
  induction l as [|y l IH]; simpl; [reflexivity|].
  destruct (String.leb x y); [reflexivity|].
  rewrite IH. apply perm_swap.
Qed.

Lemma sorted_perm (l : list string) : Permutation (sorted l) l.
Proof.
  induction l as [|x l IH]; simpl; [constructor|].
  rewrite insert_sorted_perm. now constructor.
Qed.

Lemma In_sorted (x : string) (l : list string) : In x (sorted l) <-> In x l.
Proof.
  split; apply Permutation_in; [apply sorted_perm|].
  symmetry. apply sorted_perm.
Qed.

Lemma NoDup_sorted (l : list string) : NoDup l -> NoDup (sorted l).
Proof. apply Permutation_NoDup. symmetry. apply sorted_perm. Qed.

(** ** What a run returns, and when it raises *)

Section AnalyzeFacts.

Variable fs : FileSystem.
Variable sha : list byte -> string.

Lemma scan_archives_fold (archive_dir : Path) (names : list string)
    (archive : dict (dict FileInfo)) :
  scan_archives fs sha archive_dir names archive =
  if existsb (fun child =>
                fs_is_dir fs (path_div archive_dir [child]) &&
                scan_raises fs (path_div archive_dir [child])) names
  then None
  else Some (fold_left (archive_step fs sha archive_dir) names archive).
Proof.
  revert archive; induction names as [|child names IH]; intros archive;
    cbn [scan_archives existsb fold_left]; [reflexivity|].
  unfold archive_step at 2.
  destruct (fs_is_dir fs (path_div archive_dir [child])); cbn [andb orb];
    [|apply IH].
  rewrite scan_directory_self.
  destruct (scan_raises fs (path_div archive_dir [child])); cbn [bind orb];
    [reflexivity|apply IH].
Qed.

Lemma existsb_perm {A : Type} (f : A -> bool) (l l' : list A) :
  Permutation l l' -> existsb f l = existsb f l'.
Proof.
  induction 1 as [|x l l' _ IH|x y l|l l' l'' _ IH1 _ IH2]; cbn [existsb].
  - reflexivity.
  - now rewrite IH.
  - destruct (f x), (f y); reflexivity.
  - now rewrite IH1.
Qed.

Lemma scan_all_spec (a : CrossReferenceAnalyzer) :
  scan_all fs sha a =
  if scan_raises fs (production_dir a) || archive_raises fs (archive_dir a)
  then None
  else Some (scanned fs sha a).
Proof.
  unfold scan_all, scanned, scanned_archive, archive_raises, children.
  rewrite scan_directory_self.
  destruct (scan_raises fs (production_dir a)); cbn [bind orb];
    [reflexivity|].
  cbn [set_production_files archive_dir archive_files].
  destruct (fs_exists fs (archive_dir a)); cbn [andb];
    [|destruct a; reflexivity].
  destruct (fs_iterdir fs (archive_dir a)) as [names|]; cbn [bind];
    [|reflexivity].
  rewrite scan_archives_fold, (existsb_perm _ (sorted_perm names)).
  destruct (existsb _ names); reflexivity.
Qed.

Lemma analyzed_output_dir (a : CrossReferenceAnalyzer) :
  output_dir (analyzed fs sha a) = output_dir a.
Proof. destruct a; reflexivity. Qed.

Lemma analyze_spec (now : string) (a : CrossReferenceAnalyzer) :
  analyze fs sha now a =
  if analyze_raises fs a then None
  else Some (analyzed fs sha a, report_of now (analyzed fs sha a)).
Proof.
  unfold analyze, analyze_raises. rewrite scan_all_spec.
  destruct (scan_raises fs (production_dir a) ||
            archive_raises fs (archive_dir a)); cbn [bind orb];
    [reflexivity|].
  cbv zeta.
  change (_find_missing fs (_trace_lineage (_find_duplicates
            (scanned fs sha a)))) with (analyzed fs sha a).
  unfold _generate_report.
  rewrite analyzed_output_dir.
  destruct (fs_write fs (path_div (output_dir a) ["report.json"]));
    cbn [negb orb bind]; [|reflexivity].
  destruct (fs_write fs (path_div (output_dir a) ["report.md"]));
    reflexivity.
Qed.

Lemma analyze_returns (now : string) (a : CrossReferenceAnalyzer) :
  analyze_raises fs a = false ->
  analyze fs sha now a =
  Some (analyzed fs sha a, report_of now (analyzed fs sha a)).
Proof. intros H. now rewrite analyze_spec, H. Qed.

(** A run either raises or returns what [analyzed] and [report_of]
    give. *)
Lemma run_spec (now : string) (prod arch out : Path) :
  run fs sha now prod arch out =
  if run_raises fs prod arch out then None
  else Some (analyzed fs sha (fresh_analyzer prod arch out),
             report_of now (analyzed fs sha (fresh_analyzer prod arch out))).
Proof.
  unfold run, run_raises, __init__.
  destruct (fs_mkdir fs out); cbn [negb orb bind]; [|reflexivity].
  apply analyze_spec.
Qed.

Lemma run_raises_false (prod arch out : Path) :
    run_raises fs prod arch out = false ->
  fs_mkdir fs out = true /\
  analyze_raises fs (fresh_analyzer prod arch out) = false.
Proof.
  unfold run_raises. intros H. apply orb_false_iff in H.
  destruct H as [H1 H2]. apply negb_false_iff in H1. auto.
Qed.

Lemma analyze_raises_analyzed (a : CrossReferenceAnalyzer) :
  analyze_raises fs (analyzed fs sha a) = analyze_raises fs a.
Proof. reflexivity. Qed.

Lemma run_returns (now : string) (prod arch out : Path) :
    run_raises fs prod arch out = false ->
  run fs sha now prod arch out =
  Some (analyzed fs sha (fresh_analyzer prod arch out),
        report_of now (analyzed fs sha (fresh_analyzer prod arch out))).
Proof. intros H. now rewrite run_spec, H. Qed.

End AnalyzeFacts.

(** ** Claims about the scanner *)


(** ** The extension of a file record *)

Lemma length_append (a b : string) :
  String.length (String.append a b) = String.length a + String.length b.
Proof. induction a as [|x a IH]; simpl; [reflexivity | now rewrite IH]. Qed.

Lemma str_drop_append (a b : string) :
  str_drop (String.length a) (String.append a b) = b.
Proof. induction a as [|x a IH]; simpl; [now destruct b | exact IH]. Qed.

Lemma rfind_None (c : ascii) (s : string) :
  rfind c s = None -> contains (String c "") s = false.
Proof.
  induction s as [|a s IH]; [reflexivity|].
  cbn [rfind contains]. destruct (rfind c s); [discriminate|].
  destruct (Ascii.eqb_spec a c) as [->|Hne]; [discriminate|].
  intros _. rewrite IH by reflexivity. rewrite orb_false_r.
  simpl. destruct (ascii_dec c a); [congruence | reflexivity].
Qed.

Lemma rfind_Some (c : ascii) (s : string) (i : nat) :
  rfind c s = Some i ->
  exists pre rest,
    s = String.append pre (String c rest) /\
    String.length pre = i /\ rfind c rest = None.
Proof.
  revert i; induction s as [|a s IH]; intros i; [discriminate|].
  cbn [rfind]. destruct (rfind c s) as [j|] eqn:E.
  - intros [= <-]. destruct (IH j eq_refl) as [pre [rest [-> [Hl Hr]]]].
    exists (String a pre), rest. simpl. auto.
  - destruct (Ascii.eqb_spec a c) as [->|Hne]; [|discriminate].
    intros [= <-]. exists "", s. auto.
Qed.

(** What [PurePath.suffix] returns: nothing, or the last dot of the name and
    what follows it, when the dot is neither the first nor the last
    character. The characters are those of the name, unchanged. *)
Lemma suffix_of_name_spec (name : string) :
  suffix_of_name name = "" \/
  exists stem rest,
    name = String.append stem (String "." rest) /\
    suffix_of_name name = String "." rest /\
    stem <> "" /\ rest <> "" /\ contains "." rest = false.
Proof.
  unfold suffix_of_name. destruct (rfind "." name) as [i|] eqn:E; [|now left].
  destruct ((0 <? i) && (i <? String.length name - 1))%nat eqn:C; [|now left].
  right. destruct (rfind_Some _ _ E) as [pre [rest [-> [Hl Hr]]]].
  apply andb_true_iff in C. destruct C as [C1 C2].
  apply Nat.ltb_lt in C1, C2.
  rewrite length_append in C2. simpl in C2.
  exists pre, rest. subst i. rewrite str_drop_append.
  repeat split.
  - intros ->. simpl in C1. lia.
  - intros ->. simpl in C2. lia.
  - now apply rfind_None.
Qed.

(** C9, as the code has it. The [extension] of a file record is the suffix
    of the file's name with its characters as they are in the name, upper
    case kept: either empty, or the last dot of the name with the non-empty,
    dot-free text after it, the dot not being the first character. *)
Theorem C9_extension_is_suffix_as_spelled :
  forall (fs : FileSystem) (sha : list byte -> string)
         (filepath base_dir : Path) (info : FileInfo),
    get_file_info fs sha filepath base_dir = Some info ->
    info_name info = path_name filepath /\
    info_extension info = suffix_of_name (info_name info) /\
    (info_extension info = "" \/
     exists stem rest,
       info_name info = String.append stem (info_extension info) /\
       info_extension info = String "." rest /\
       stem <> "" /\ rest <> "" /\ contains "." rest = false).
Proof.
  intros fs sha filepath base_dir info H.
  apply get_file_info_inv in H.
  destruct H as [relative [st [modified [_ [_ [_ ->]]]]]].
  cbn [info_name info_extension]. split; [reflexivity|].
  split; [reflexivity|]. unfold path_suffix.
  destruct (suffix_of_name_spec (path_name filepath))
    as [E|[stem [rest [E1 [E2 H]]]]]; [now left|].
  right. exists stem, rest. rewrite E2. rewrite <- E1. tauto.
Qed.

(** ** Duplicate groups *)

Lemma fold_labelled (label : string) (files : dict FileInfo)
    (acc : dict (list (string * string))) :
  fold_left (fun acc e => add_location (fst e) acc (snd e))
    (map (pair label) files) acc =
  fold_left (add_location label) files acc.
Proof. revert acc; induction files as [|x l IH]; intros acc; simpl; auto. Qed.

Lemma hash_to_files_flat (a : CrossReferenceAnalyzer) :
  hash_to_files a =
  fold_left (fun acc e => add_location (fst e) acc (snd e))
    (corpus_entries a) [].
Proof.
  unfold hash_to_files, corpus_entries.
  rewrite fold_left_app, fold_labelled.
  generalize (fold_left (add_location "production") (production_files a) []).
  induction (archive_files a) as [|[version files] archive IH]; intros acc;
    simpl; [reflexivity|].
  rewrite fold_left_app, fold_labelled. apply IH.
Qed.

Lemma lookup_dict_append {V : Type} (k h : string) (x : V)
    (d : dict (list V)) :
  dict_get_default [] h (dict_append k x d) =
  dict_get_default [] h d ++ (if String.eqb h k then [x] else []).
Proof.
  unfold dict_append, dict_get_default. rewrite dict_get_set.
  destruct (String.eqb_spec h k) as [->|Hne]; [reflexivity|].
  now rewrite app_nil_r.
Qed.

Section HashToFiles.

Let step := fun (acc : dict (list (string * string)))
                (e : string * (string * FileInfo)) =>
              add_location (fst e) acc (snd e).

Lemma step_lookup (h : string) (e : string * (string * FileInfo))
    (acc : dict (list (string * string))) :
  dict_get_default [] h (step acc e) =
  dict_get_default [] h acc ++
  (if truthy (info_hash (snd (snd e))) &&
      String.eqb (info_hash (snd (snd e))) h
   then [(fst e, fst (snd e))] else []).
Proof.
  destruct e as [label [path info]]; unfold step; simpl.
  destruct (truthy (info_hash info)); simpl; [|now rewrite app_nil_r].
  rewrite lookup_dict_append. now rewrite (String.eqb_sym h).
Qed.

Lemma fold_lookup (h : string) (entries : list (string * (string * FileInfo)))
    (acc : dict (list (string * string))) :
  dict_get_default [] h (fold_left step entries acc) =
  dict_get_default [] h acc ++
  map (fun e => (fst e, fst (snd e)))
      (filter (fun e => truthy (info_hash (snd (snd e))) &&
                        String.eqb (info_hash (snd (snd e))) h) entries).
Proof.
  revert acc; induction entries as [|e entries IH]; intros acc; simpl.
  - now rewrite app_nil_r.
  - rewrite IH, step_lookup.
    destruct (truthy (info_hash (snd (snd e))) &&
              String.eqb (info_hash (snd (snd e))) h); simpl.
    + now rewrite <- app_assoc.
    + now rewrite app_nil_r.
Qed.

Lemma fold_keys (h : string) (entries : list (string * (string * FileInfo)))
    (acc : dict (list (string * string))) :
  In h (keys (fold_left step entries acc)) -> In h (keys acc) \/ h <> "".
Proof.
  revert acc; induction entries as [|e entries IH]; intros acc; simpl;
    [auto|].
  intros H. apply IH in H. destruct H as [H|H]; [|auto].
  destruct e as [label [path info]]; unfold step in H; simpl in H.
  destruct (truthy (info_hash info)) eqn:T; [|auto].
  unfold dict_append in H. apply In_keys_dict_set in H.
  destruct H as [->|H]; [|auto]. right. now apply truthy_spec.
Qed.

Lemma fold_keys_NoDup (entries : list (string * (string * FileInfo)))
    (acc : dict (list (string * string))) :
  NoDup (keys acc) -> NoDup (keys (fold_left step entries acc)).
Proof.
  revert acc; induction entries as [|e entries IH]; intros acc H; simpl;
    [exact H|].
  apply IH. destruct e as [label [path info]]; unfold step; simpl.
  destruct (truthy (info_hash info)); [|exact H].
  now apply NoDup_keys_dict_set.
Qed.

(** What [hash_to_files] holds: under each digest, never the empty one, the
    locations of all the files with that digest. *)
Lemma hash_to_files_item (a : CrossReferenceAnalyzer) (h : string)
    (locs : list (string * string)) :
  In (h, locs) (hash_to_files a) ->
  h <> "" /\
  map (fun loc => mkLoc (fst loc) (snd loc)) locs =
  locations_with h (corpus_entries a).
Proof.
  rewrite hash_to_files_flat. fold step. intros Hin.
  assert (Hne : h <> "").
  { apply (in_map fst) in Hin. apply fold_keys in Hin.
    destruct Hin as [[]|H]; exact H. }
  split; [exact Hne|].
  apply In_dict_get in Hin; [|apply fold_keys_NoDup; constructor].
  pose proof (fold_lookup h (corpus_entries a) []) as L.
  unfold dict_get_default at 1 in L. rewrite Hin in L. simpl in L.
  rewrite L, map_map. unfold locations_with. simpl. f_equal.
  apply filter_ext. intros e.
  destruct (String.eqb_spec (info_hash (snd (snd e))) h) as [E|_];
    [|apply andb_false_r].
  rewrite andb_true_r. apply truthy_spec. congruence.
Qed.

End HashToFiles.

Lemma fold_add_group (items : list (string * list (string * string)))
    (dups : list DuplicateGroup) (g : DuplicateGroup) :
  In g (fold_left add_group items dups) ->
  In g dups \/
  exists h locs,
    In (h, locs) items /\ 2 <= List.length locs /\
    g = mkGroup (str_take 16 h)
                (map (fun loc => mkLoc (fst loc) (snd loc)) locs).
Proof.
  revert dups; induction items as [|[h locs] items IH]; intros dups; simpl;
    [auto|].
  intros H. apply IH in H. destruct H as [H|[h' [locs' [H1 H2]]]].
  - destruct (1 <? List.length locs)%nat eqn:L; [|auto].
    apply in_app_iff in H. destruct H as [H|[<-|[]]]; [auto|].
    right. exists h, locs. apply Nat.ltb_lt in L. auto.
  - right. exists h', locs'. auto.
Qed.

Lemma In_sample {A : Type} (n : nat) (l : list A) (x : A) :
  In x (firstn n l) -> In x l.
Proof.
  intros H. rewrite <- (firstn_skipn n l). apply in_or_app. now left.
Qed.

Lemma analyzed_duplicates (fs : FileSystem) (sha : list byte -> string)
    (prod arch out : Path) :
  let a := analyzed fs sha (fresh_analyzer prod arch out) in
  duplicates a =
  fold_left add_group (hash_to_files (scanned fs sha (fresh_analyzer prod arch out)))
    [] /\
  corpus_entries a = corpus_entries (scanned fs sha (fresh_analyzer prod arch out)).
Proof. split; reflexivity. Qed.

(** C4. A file whose content cannot be read gets the empty digest, and no
    duplicate group lists it: every group, in the analyzer and in the
    report, has at least two locations, stands for one non-empty digest and
    lists exactly the scanned files with that digest; a location at which
    only empty-digest files were scanned is in no group.
    Stated of a run in which nothing raises; such a run returns. *)
Theorem C4_unreadable_files_in_no_duplicate_group :
  forall (fs : FileSystem) (sha : list byte -> string) (now : string)
         (prod arch out : Path),
    (forall filepath,
        fs_read fs filepath = None ->
        compute_file_hash fs sha filepath = "" /\
        forall base_dir info,
          get_file_info fs sha filepath base_dir = Some info ->
          info_hash info = "") /\
    (run_raises fs prod arch out = false ->
     exists a r,
      run fs sha now prod arch out = Some (a, r) /\
      (forall g, In g (rp_duplicates r) -> In g (duplicates a)) /\
      forall g,
        In g (duplicates a) ->
        2 <= List.length (dup_locations g) /\
        (exists h,
            h <> "" /\ dup_hash g = str_take 16 h /\
            dup_locations g = locations_with h (corpus_entries a)) /\
        (forall source path,
            (forall info,
                In (source, (path, info)) (corpus_entries a) ->
                info_hash info = "") ->
            ~ In (mkLoc source path) (dup_locations g))).
Proof.
  intros fs sha now prod arch out. split.
  - intros filepath Hread.
    assert (E : compute_file_hash fs sha filepath = "")
      by (unfold compute_file_hash; now rewrite Hread).
    split; [exact E|]. intros base_dir info H.
    apply get_file_info_inv in H.
    destruct H as [relative [st [modified [_ [_ [_ ->]]]]]]. exact E.
  - intros Hok. exists (analyzed fs sha (fresh_analyzer prod arch out)).
    exists (report_of now (analyzed fs sha (fresh_analyzer prod arch out))).
    split; [now apply run_returns|].
    split; [intros g Hg; exact (In_sample 50 _ g Hg)|].
    intros g Hg.
    destruct (analyzed_duplicates fs sha prod arch out) as [Ed Ec].
    rewrite Ed in Hg. rewrite Ec. clear Ed Ec.
    apply fold_add_group in Hg.
    destruct Hg as [[]|[h [locs [Hin [Hlen ->]]]]].
    apply hash_to_files_item in Hin. destruct Hin as [Hne Hlocs].
    simpl. split; [now rewrite length_map|].
    split; [exists h; auto|].
    intros source path Hempty Hloc. rewrite Hlocs in Hloc.
    unfold locations_with in Hloc. apply in_map_iff in Hloc.
    destruct Hloc as [[label [p info]] [E Hf]]. simpl in E.
    injection E as -> ->. apply filter_In in Hf. destruct Hf as [Hf He].
    simpl in He. apply String.eqb_eq in He.
    apply Hempty in Hf. congruence.
Qed.

(** ** Lineage *)

Lemma fold_add_entry (prod_info : FileInfo) (version : string)
    (files : dict FileInfo) (acc : list LineageEntry) :
  fold_left (add_entry prod_info version) files acc =
  acc ++ entries_in prod_info version files.
Proof.
  revert acc; induction files as [|[arch_path arch_info] files IH];
    intros acc; simpl.
  - now rewrite app_nil_r.
  - rewrite IH. unfold entries_in, same_name; simpl.
    destruct (String.eqb (info_name arch_info) (info_name prod_info)); simpl;
      [now rewrite <- app_assoc | reflexivity].
Qed.

(** The list built for one production file: for each version in sorted
    order, one entry for each same-named file of that version's tree. *)
Lemma lineage_of_flat (archive : dict (dict FileInfo)) (prod_info : FileInfo) :
  lineage_of archive prod_info =
  flat_map (fun version =>
              entries_in prod_info version (dict_get_default [] version archive))
           (sorted (keys archive)).
Proof.
  unfold lineage_of.
  enough (G : forall versions acc,
             fold_left (add_version_entries archive prod_info) versions acc =
             acc ++ flat_map
                      (fun version =>
                         entries_in prod_info version
                           (dict_get_default [] version archive)) versions)
    by apply (G _ []).
  induction versions as [|v versions IH]; intros acc; simpl.
  - now rewrite app_nil_r.
  - rewrite IH. unfold add_version_entries. rewrite fold_add_entry.
    now rewrite <- app_assoc.
Qed.

Lemma entries_in_version (prod_info : FileInfo) (version : string)
    (files : dict FileInfo) (e : LineageEntry) :
  In e (entries_in prod_info version files) -> le_version e = version.
Proof.
  unfold entries_in. rewrite in_map_iff. now intros [item [<- _]].
Qed.

Lemma filter_all {A : Type} (f : A -> bool) (l : list A) :
  (forall x, In x l -> f x = true) -> filter f l = l.
Proof.
  induction l as [|x l IH]; intros H; simpl; [reflexivity|].
  rewrite (H x) by now left. f_equal. apply IH. intros y Hy. apply H.
  now right.
Qed.

Lemma filter_none {A : Type} (f : A -> bool) (l : list A) :
  (forall x, In x l -> f x = false) -> filter f l = [].
Proof.
  induction l as [|x l IH]; intros H; simpl; [reflexivity|].
  rewrite (H x) by now left. apply IH. intros y Hy. apply H. now right.
Qed.

(** The entries of one version within the list of a production file. *)
Lemma lineage_of_version (archive : dict (dict FileInfo))
    (prod_info : FileInfo) (version : string) :
  NoDup (keys archive) ->
  filter (fun e => String.eqb (le_version e) version)
         (lineage_of archive prod_info) =
  entries_in prod_info version (dict_get_default [] version archive).
Proof.
  intros Hnd. rewrite lineage_of_flat.
  assert (Hout : ~ In version (keys archive) ->
                 entries_in prod_info version
                   (dict_get_default [] version archive) = []).
  { intros Hn. unfold dict_get_default.
    destruct (dict_get _ _) eqn:E; [|reflexivity].
    apply dict_get_In in E. apply (in_map fst) in E. contradiction. }
  rewrite <- In_sorted in Hout. apply NoDup_sorted in Hnd.
  induction (sorted (keys archive)) as [|v vs IH]; simpl.
  - symmetry. apply Hout. intros [].
  - rewrite filter_app. inversion Hnd as [|? ? Hv Hvs]; subst.
    destruct (String.eqb_spec v version) as [->|Hne].
    + rewrite filter_all.
      2:{ intros e He. apply entries_in_version in He. subst.
          apply String.eqb_refl. }
      rewrite filter_none; [apply app_nil_r|].
      intros e He. apply in_flat_map in He. destruct He as [v' [Hv' He]].
      apply entries_in_version in He.
      apply String.eqb_neq. intros E. apply Hv. congruence.
    + rewrite filter_none.
      2:{ intros e He. apply entries_in_version in He. subst.
          now apply String.eqb_neq. }
      simpl. apply IH; [exact Hvs|]. intros Hn. apply Hout.
      intros [E|E]; [congruence | contradiction].
Qed.

Lemma dict_set_fresh {V : Type} (k : string) (v : V) (d : dict V) :
  ~ In k (keys d) -> dict_set k v d = d ++ [(k, v)].
Proof.
  induction d as [|[k' v'] d IH]; simpl; [reflexivity|].
  intros Hn. destruct (String.eqb_spec k k') as [->|Hne].
  - exfalso. auto.
  - f_equal. apply IH. auto.
Qed.

(** The lineage map after [_trace_lineage], when it starts empty and the
    production paths are distinct: the production files with a non-empty
    list, in order, each with its list. *)
Lemma fold_trace_one (archive : dict (dict FileInfo))
    (files : dict FileInfo) (lin : dict (list LineageEntry)) :
  NoDup (keys lin ++ keys files) ->
  fold_left (trace_one archive) files lin =
  lin ++ map (fun item => (fst item, lineage_of archive (snd item)))
             (filter (fun item =>
                        negb (Nat.eqb (List.length
                                         (lineage_of archive (snd item))) 0))
                     files).
Proof.
  revert lin; induction files as [|[p info] files IH]; intros lin Hnd.
  - simpl. now rewrite app_nil_r.
  - assert (Hp : ~ In p (keys lin)).
    { intros Hin. apply NoDup_remove_2 in Hnd. apply Hnd.
      apply in_or_app. now left. }
    cbn [fold_left filter snd]. unfold trace_one at 2.
    destruct (lineage_of archive info) as [|e l] eqn:E;
      cbn [List.length Nat.eqb negb map fst snd].
    + apply IH. now apply NoDup_remove_1 in Hnd.
    + rewrite dict_set_fresh by exact Hp. rewrite IH.
      * rewrite E. now rewrite <- app_assoc.
      * unfold keys in *. rewrite map_app. simpl. rewrite <- app_assoc.
        exact Hnd.
Qed.

(** ** The state [analyze] leaves *)

Lemma NoDup_keys_unique {V : Type} (d : dict V) (k : string) (v v' : V) :
  NoDup (keys d) -> In (k, v) d -> In (k, v') d -> v = v'.
Proof.
  intros Hnd H H'. apply (In_dict_get _ _ _ Hnd) in H.
  apply (In_dict_get _ _ _ Hnd) in H'. congruence.
Qed.

Lemma NoDup_keys_filter {V : Type} (c : string * V -> bool) (d : dict V) :
  NoDup (keys d) -> NoDup (keys (filter c d)).
Proof.
  induction d as [|x d IH]; simpl; [auto|].
  intros Hnd. inversion Hnd as [|? ? Hx Hd]; subst.
  destruct (c x); simpl; [|auto]. constructor; [|auto].
  intros Hin. apply Hx. unfold keys in *. apply in_map_iff in Hin.
  destruct Hin as [y [E Hy]]. apply filter_In in Hy.
  apply in_map_iff. exists y. tauto.
Qed.

Lemma NoDup_sample {A : Type} (n : nat) (l : list A) :
  NoDup l -> NoDup (firstn n l).
Proof.
  intros H. rewrite <- (firstn_skipn n l) in H.
  now apply NoDup_app_remove_r in H.
Qed.

Lemma dict_of_items_NoDup {V : Type} (items : list (string * V)) :
  NoDup (keys items) -> dict_of_items items = items.
Proof.
  unfold dict_of_items.
  enough (G : forall d : dict V,
             NoDup (keys d ++ keys items) ->
             fold_left (fun d item => dict_set (fst item) (snd item) d)
               items d = d ++ items)
    by (intros H; apply (G [] H)).
  induction items as [|[k v] items IH]; intros d Hnd; simpl.
  - now rewrite app_nil_r.
  - rewrite dict_set_fresh.
    + rewrite IH; [now rewrite <- app_assoc|].
      unfold keys in *. rewrite map_app. simpl. now rewrite <- app_assoc.
    + intros Hin. apply NoDup_remove_2 in Hnd. apply Hnd.
      apply in_or_app. now left.
Qed.

Section AnalyzedState.

Variable fs : FileSystem.
Variable sha : list byte -> string.
Variables prod arch out : Path.

Let a := analyzed fs sha (fresh_analyzer prod arch out).

Lemma analyzed_production_NoDup : NoDup (keys (production_files a)).
Proof. apply scan_tree_NoDup. Qed.

Lemma analyzed_archive_NoDup : NoDup (keys (archive_files a)).
Proof.
  unfold a, analyzed, scanned, scanned_archive; simpl.
  destruct (fs_exists fs arch); [|constructor].
  generalize (sorted (children fs arch)).
  assert (H0 : NoDup (keys (@nil (string * dict FileInfo)))) by constructor.
  revert H0. generalize (@nil (string * dict FileInfo)).
  intros acc H0 names. revert acc H0.
  induction names as [|child names IH]; intros acc H; simpl; [exact H|].
  apply IH. unfold archive_step.
  destruct (fs_is_dir fs (path_div arch [child])); [|exact H].
  now apply NoDup_keys_dict_set.
Qed.

(** The lineage map: the production files with a non-empty list, in scan
    order, each with its whole list. *)
Lemma analyzed_lineage :
  lineage a =
  map (fun item => (fst item, lineage_of (archive_files a) (snd item)))
      (filter (fun item =>
                 negb (Nat.eqb (List.length
                                  (lineage_of (archive_files a) (snd item))) 0))
              (production_files a)).
Proof.
  unfold a, analyzed. cbn [_find_missing _trace_lineage _find_duplicates
    lineage archive_files production_files set_missing set_lineage
    set_duplicates].
  rewrite fold_trace_one; [reflexivity|]. apply analyzed_production_NoDup.
Qed.

Lemma analyzed_lineage_keys_NoDup : NoDup (keys (lineage a)).
Proof.
  rewrite analyzed_lineage. unfold keys. rewrite map_map. simpl.
  apply NoDup_keys_filter. apply analyzed_production_NoDup.
Qed.

Lemma analyzed_lineage_In (prod_path : string) (l : list LineageEntry) :
  In (prod_path, l) (lineage a) ->
  l <> [] /\
  exists info, In (prod_path, info) (production_files a) /\
               l = lineage_of (archive_files a) info.
Proof.
  rewrite analyzed_lineage, in_map_iff.
  intros [[p info] [E H]]. simpl in E. injection E as -> <-.
  apply filter_In in H. destruct H as [H C]. simpl in C.
  split; [|eauto]. intros E. rewrite E in C. discriminate.
Qed.

Lemma analyzed_lineage_lookup (prod_path : string) (info : FileInfo) :
  In (prod_path, info) (production_files a) ->
  dict_get_default [] prod_path (lineage a) =
  lineage_of (archive_files a) info.
Proof.
  intros Hin. unfold dict_get_default.
  destruct (dict_get prod_path (lineage a)) as [l|] eqn:E.
  - apply dict_get_In, analyzed_lineage_In in E.
    destruct E as [_ [info' [Hin' ->]]]. f_equal.
    exact (NoDup_keys_unique _ _ _ _ analyzed_production_NoDup Hin' Hin).
  - destruct (lineage_of (archive_files a) info) as [|e l] eqn:L;
      [reflexivity|].
    exfalso. apply dict_get_None in E. apply E.
    rewrite analyzed_lineage. unfold keys. rewrite map_map. cbn [fst].
    apply in_map_iff. exists (prod_path, info). split; [reflexivity|].
    apply filter_In. split; [exact Hin|]. cbn [snd]. now rewrite L.
Qed.

End AnalyzedState.

Lemma lineage_of_nonempty (archive : dict (dict FileInfo))
    (prod_info : FileInfo) :
  NoDup (keys archive) ->
  negb (Nat.eqb (List.length (lineage_of archive prod_info)) 0) =
  has_same_named archive prod_info.
Proof.
  intros Hnd. rewrite lineage_of_flat.
  destruct (has_same_named archive prod_info) eqn:H.
  - unfold has_same_named in H. apply existsb_exists in H.
    destruct H as [[v files] [Hin H]]. simpl in H.
    apply existsb_exists in H. destruct H as [item [Hitem Hsame]].
    assert (Hv : In v (sorted (keys archive))).
    { apply In_sorted. apply (in_map fst) in Hin. exact Hin. }
    apply (In_dict_get _ _ _ Hnd) in Hin.
    match goal with |- negb (Nat.eqb (List.length ?lst) 0) = true =>
      destruct lst as [|e l] eqn:E; [|reflexivity] end.
    exfalso.
    assert (Hin' : In (mkEntry v (fst item)
                         (String.eqb (info_hash prod_info)
                                     (info_hash (snd item))))
                      (@nil LineageEntry)); [|destruct Hin'].
    rewrite <- E. apply in_flat_map. exists v. split; [exact Hv|].
    unfold dict_get_default. rewrite Hin. unfold entries_in.
    apply in_map_iff. exists item. split; [reflexivity|].
    apply filter_In. auto.
  - match goal with |- negb (Nat.eqb (List.length ?lst) 0) = false =>
      destruct lst as [|e l] eqn:E; [reflexivity|] end.
    exfalso. assert (He : In e (e :: l)) by now left.
    rewrite <- E in He. apply in_flat_map in He.
    destruct He as [v [Hv He]]. unfold entries_in in He.
    apply in_map_iff in He. destruct He as [item [_ Hitem]].
    apply filter_In in Hitem. destruct Hitem as [Hitem Hsame].
    unfold dict_get_default in Hitem.
    destruct (dict_get v archive) as [files|] eqn:G; [|destruct Hitem].
    apply dict_get_In in G.
    assert (T : has_same_named archive prod_info = true).
    { unfold has_same_named. apply existsb_exists. exists (v, files).
      split; [exact G|]. simpl. apply existsb_exists. eauto. }
    congruence.
Qed.

(** ** Claims about the lineage tracer *)

Lemma keys_dict_of_items {V : Type} (items : list (string * V)) (k : string) :
  In k (keys (dict_of_items items)) -> In k (keys items).
Proof.
  unfold dict_of_items.
  enough (G : forall d : dict V,
             In k (keys (fold_left
                           (fun d item => dict_set (fst item) (snd item) d)
                           items d)) ->
             In k (keys d) \/ In k (keys items)).
  { intros H. apply G in H. destruct H as [[]|H]; exact H. }
  induction items as [|[k' v] items IH]; intros d H; simpl in *; [auto|].
  apply IH in H. destruct H as [H|H]; [|auto].
  apply In_keys_dict_set in H. destruct H as [->|H]; auto.
Qed.

(** C2, on the code. A production file and its archived namesake that both
    failed to be read have the empty digest, and the entry recorded for them
    has [hash_match] true: [_trace_lineage] compares the digests without the
    test for an empty digest that [_find_duplicates] makes. *)
Theorem C2_empty_digests_recorded_as_match :
  exists a r,
    run (fs_of_listing corpus_unreadable) content_digest
      "2024-01-01T00:00:00" prod_root arch_root out_root
    = Some (a, r) /\
    option_map info_hash (dict_get "notes.txt" (production_files a))
    = Some "" /\
    option_map info_hash
      (dict_get "notes.txt" (dict_get_default [] "v1" (archive_files a)))
    = Some "" /\
    duplicates a = [] /\
    dict_get "notes.txt" (lineage a) = Some [mkEntry "v1" "notes.txt" true].
Proof.
  eexists. eexists. split; [vm_compute; reflexivity|].
  repeat split; reflexivity.
Qed.

(** C3, refuted as stated: a version that holds two files named [a.txt]
    gives the production file [a.txt] two entries for that version. *)
Lemma C3_two_entries_for_one_version :
  exists a r l,
    run (fs_of_listing corpus_two_in_version) content_digest
      "2024-01-01T00:00:00" prod_root arch_root out_root
    = Some (a, r) /\
    dict_get "a.txt" (lineage a) = Some l /\
    l = [mkEntry "v1" "x/a.txt" true; mkEntry "v1" "y/a.txt" false] /\
    List.length (filter (fun e => String.eqb (le_version e) "v1") l) = 2.
Proof.
  eexists. eexists. eexists. split; [vm_compute; reflexivity|].
  repeat split; reflexivity.
Qed.

(** C3, as the code has it. The list recorded for a production file holds,
    for every archive version, one entry for each file of that version's
    tree that has the production file's name, in the order of the scan: as
    many entries for a (production path, version) pair as the version has
    such files, none dropped and none replaced.
    Stated of a run in which nothing raises; such a run returns. *)
Theorem C3_one_entry_per_same_named_file :
  forall (fs : FileSystem) (sha : list byte -> string) (now : string)
         (prod arch out : Path),
    run_raises fs prod arch out = false ->
    exists a r,
    run fs sha now prod arch out = Some (a, r) /\
    forall prod_path info version,
      In (prod_path, info) (production_files a) ->
      filter (fun e => String.eqb (le_version e) version)
             (dict_get_default [] prod_path (lineage a)) =
      map (fun item =>
             mkEntry version (fst item)
               (String.eqb (info_hash info) (info_hash (snd item))))
          (filter (fun item =>
                     String.eqb (info_name (snd item)) (info_name info))
                  (dict_get_default [] version (archive_files a))).
Proof.
  intros fs sha now prod arch out Hok.
  exists (analyzed fs sha (fresh_analyzer prod arch out)).
  exists (report_of now (analyzed fs sha (fresh_analyzer prod arch out))).
  split; [now apply run_returns|].
  intros prod_path info version Hin.
  rewrite (analyzed_lineage_lookup _ _ _ _ _ _ _ Hin).
  apply lineage_of_version. apply analyzed_archive_NoDup.
Qed.

(** C6. A production file that has no same-named file in any archive
    version gets no entry: its path is not a key of the lineage map, in the
    analyzer and in the report's sample; no key of the map holds an empty
    list; and the files-with-lineage count is the number of production files
    that do have a same-named file in some version.
    Stated of a run in which nothing raises; such a run returns. *)
Theorem C6_no_match_no_lineage_key :
  forall (fs : FileSystem) (sha : list byte -> string) (now : string)
         (prod arch out : Path),
    run_raises fs prod arch out = false ->
    exists a r,
    run fs sha now prod arch out = Some (a, r) /\
    (forall prod_path info,
        In (prod_path, info) (production_files a) ->
        (forall version files arch_path arch_info,
            In (version, files) (archive_files a) ->
            In (arch_path, arch_info) files ->
            info_name arch_info <> info_name info) ->
        dict_get prod_path (lineage a) = None /\
        ~ In prod_path (keys (lineage a)) /\
        dict_get prod_path (rp_lineage_sample r) = None) /\
    (forall prod_path l, In (prod_path, l) (lineage a) -> l <> []) /\
    sm_files_with_lineage (rp_summary r) =
    List.length
      (filter (fun item => has_same_named (archive_files a) (snd item))
              (production_files a)).
Proof.
  intros fs sha now prod arch out Hok.
  set (a := analyzed fs sha (fresh_analyzer prod arch out)).
  exists a, (report_of now a).
  split; [now apply run_returns|]. split; [|split].
  - intros prod_path info Hin Hnone.
    assert (Hno : has_same_named (archive_files a) info = false).
    { destruct (has_same_named (archive_files a) info) eqn:H; [|reflexivity].
      exfalso. unfold has_same_named in H. apply existsb_exists in H.
      destruct H as [[v files] [Hv H]]. simpl in H.
      apply existsb_exists in H. destruct H as [[p i] [Hp Hs]].
      unfold same_name in Hs. simpl in Hs. apply String.eqb_eq in Hs.
      exact (Hnone v files p i Hv Hp Hs). }
    assert (Hk : ~ In prod_path (keys (lineage a))).
    { intros Hk. unfold keys in Hk. apply in_map_iff in Hk.
      destruct Hk as [[p l] [E Hl]]. simpl in E. subst p.
      apply analyzed_lineage_In in Hl.
      destruct Hl as [Hne [info' [Hin' ->]]].
      assert (info' = info)
        by exact (NoDup_keys_unique _ _ _ _
                    (analyzed_production_NoDup fs sha prod arch out) Hin' Hin).
      subst info'.
      pose proof (@lineage_of_nonempty (archive_files a) info
                    (analyzed_archive_NoDup fs sha prod arch out)) as L.
      rewrite Hno in L. fold a in Hne.
      destruct (lineage_of (archive_files a) info); [congruence|discriminate]. }
    split; [now apply dict_get_None|]. split; [exact Hk|].
    apply dict_get_None. intros Hs. apply Hk.
    apply keys_dict_of_items in Hs. unfold keys in *.
    rewrite <- firstn_map in Hs. exact (In_sample 20 _ _ Hs).
  - intros prod_path l Hl. now apply analyzed_lineage_In in Hl.
  - cbn [report_of rp_summary sm_files_with_lineage].
    unfold a. rewrite analyzed_lineage. fold a. rewrite length_map.
    f_equal. apply filter_ext. intros item.
    apply lineage_of_nonempty. apply analyzed_archive_NoDup.
Qed.

(** ** Claims about the report and the exit status *)

Lemma fold_check_expected (fs : FileSystem) (production_dir : Path)
    (kind : string) (names acc : list string) :
  fold_left (check_expected fs production_dir kind) names acc =
  acc ++ map (String.append kind)
             (filter (fun name =>
                        negb (fs_exists fs (path_div_str production_dir name)))
                     names).
Proof.
  revert acc; induction names as [|name names IH]; intros acc; simpl.
  - now rewrite app_nil_r.
  - rewrite IH. unfold check_expected.
    destruct (negb (fs_exists fs (path_div_str production_dir name))); simpl;
      [now rewrite <- app_assoc | reflexivity].
Qed.

Lemma filter_map_filter {A B : Type} (p : B -> bool) (f : A -> B)
    (c : A -> bool) (l : list A) :
  filter p (map f (filter c l)) =
  map f (filter (fun x => p (f x) && c x) l).
Proof.
  induction l as [|x l IH]; simpl; [reflexivity|].
  destruct (c x); simpl.
  - destruct (p (f x)); simpl; [now rewrite IH | exact IH].
  - rewrite andb_false_r. exact IH.
Qed.

(** The critical items of a fresh run: [core/src] and [security], when
    absent, and nothing else. *)
Lemma critical_missing_fresh (fs : FileSystem) (a : CrossReferenceAnalyzer) :
  missing a = [] ->
  filter is_critical (missing (_find_missing fs a)) =
  (if fs_exists fs (path_div (production_dir a) ["core"; "src"])
   then [] else ["directory: core/src"]) ++
  (if fs_exists fs (path_div (production_dir a) ["security"])
   then [] else ["directory: security"]).
Proof.
  intros E. unfold _find_missing. cbn [missing set_missing]. rewrite E.
  rewrite !fold_check_expected. cbn [app]. rewrite filter_app.
  rewrite !filter_map_filter. unfold expected_dirs, expected_files.
  change (path_div (production_dir a) ["core"; "src"])
    with (path_div_str (production_dir a) "core/src").
  change (path_div (production_dir a) ["security"])
    with (path_div_str (production_dir a) "security").
  cbn [filter].
  change (is_critical "directory: core/src") with true.
  change (is_critical "directory: services") with false.
  change (is_critical "directory: tests") with false.
  change (is_critical "directory: docs") with false.
  change (is_critical "directory: deploy") with false.
  change (is_critical "directory: security") with true.
  change (is_critical "directory: dashboards") with false.
  change (is_critical "directory: alerts") with false.
  change (is_critical "directory: slo") with false.
  change (is_critical "file: Cargo.toml") with false.
  change (is_critical "file: README.md") with false.
  change (is_critical "file: CHANGELOG.md") with false.
  change (is_critical "file: .todo") with false.
  cbn [andb].
  destruct (fs_exists fs (path_div_str (production_dir a) "core/src"));
    destruct (fs_exists fs (path_div_str (production_dir a) "security"));
    reflexivity.
Qed.

Lemma is_critical_spec (m : string) :
  is_critical m = true <-> substring_of "core" m \/ substring_of "security" m.
Proof.
  unfold is_critical. now rewrite orb_true_iff, !contains_spec.
Qed.

Lemma filter_nil_iff {A : Type} (f : A -> bool) (l : list A) :
  filter f l = [] <-> forall x, In x l -> f x = false.
Proof.
  split.
  - intros E x Hx. destruct (f x) eqn:F; [|reflexivity].
    assert (H : In x (filter f l)) by (apply filter_In; auto).
    rewrite E in H. destruct H.
  - apply filter_none.
Qed.




(** C8, refuted as stated: with one production file archived in 21
    versions, the lineage sample of the report holds 21 lineage entries. *)
Lemma C8_sample_with_21_entries :
  exists a r,
    run (fs_of_listing corpus_many_versions) content_digest
      "2024-01-01T00:00:00" prod_root arch_root out_root
    = Some (a, r) /\
    List.length (rp_lineage_sample r) = 1 /\
    entry_count (rp_lineage_sample r) = 21.
Proof.
  eexists. eexists. split; [vm_compute; reflexivity|].
  split; vm_compute; reflexivity.
Qed.

Lemma length_archive_files (archive : dict (dict FileInfo)) :
  list_sum (map (fun f => List.length f) (values archive)) =
  List.length (flat_map snd archive).
Proof.
  unfold values. rewrite map_map, length_flat_map. reflexivity.
Qed.

(** C8, as the code has it. The report embeds the first 50 duplicate groups
    and the first 20 production paths of the lineage map, each path with its
    whole list of entries, however long; the counts of the summary are the
    sizes of the full collections, truncated samples or not.
    Stated of a run in which nothing raises; such a run returns. *)
Theorem C8_samples_capped_counts_exact :
  forall (fs : FileSystem) (sha : list byte -> string) (now : string)
         (prod arch out : Path),
    run_raises fs prod arch out = false ->
    exists a r,
    run fs sha now prod arch out = Some (a, r) /\
    (rp_duplicates r = firstn 50 (duplicates a) /\
     List.length (rp_duplicates r) <= 50) /\
    (rp_lineage_sample r = firstn 20 (lineage a) /\
     List.length (rp_lineage_sample r) <= 20 /\
     forall prod_path l,
       In (prod_path, l) (rp_lineage_sample r) ->
       dict_get prod_path (lineage a) = Some l) /\
    rp_missing r = missing a /\
    sm_production_files (rp_summary r) = List.length (production_files a) /\
    sm_archive_versions (rp_summary r) = List.length (archive_files a) /\
    sm_archive_files (rp_summary r) =
      List.length (flat_map snd (archive_files a)) /\
    sm_duplicates_found (rp_summary r) = List.length (duplicates a) /\
    sm_files_with_lineage (rp_summary r) = List.length (lineage a) /\
    sm_missing_components (rp_summary r) = List.length (missing a).
Proof.
  intros fs sha now prod arch out Hok.
  set (a := analyzed fs sha (fresh_analyzer prod arch out)).
  exists a, (report_of now a).
  split; [now apply run_returns|].
  assert (Hnd : NoDup (keys (lineage a)))
    by apply analyzed_lineage_keys_NoDup.
  assert (Hs : dict_of_items (firstn 20 (lineage a)) = firstn 20 (lineage a)).
  { apply dict_of_items_NoDup. unfold keys in *. rewrite <- firstn_map.
    now apply NoDup_sample. }
  cbn [report_of rp_duplicates rp_lineage_sample rp_missing rp_summary
       sm_production_files sm_archive_versions sm_archive_files
       sm_duplicates_found sm_files_with_lineage sm_missing_components].
  rewrite Hs, length_archive_files.
  repeat split; try reflexivity; try apply firstn_le_length.
  intros prod_path l Hl. apply (In_dict_get _ _ _ Hnd).
  exact (In_sample 20 _ _ Hl).
Qed.

(** ** The claims on the example corpora *)

(** C9, refuted as stated: the record of [README.MD] has the extension
    [.MD], which is not the lower-case suffix. *)
Lemma C9_extension_keeps_upper_case :
  exists info,
    get_file_info (fs_of_listing corpus_readme) content_digest
      (rel ["prod"; "README.MD"]) prod_root = Some info /\
    info_name info = "README.MD" /\
    info_extension info = ".MD" /\
    spec_extension (info_name info) = ".md" /\
    info_extension info <> spec_extension (info_name info).
Proof.
  eexists. split; [reflexivity|]. repeat split. vm_compute. discriminate.
Qed.

(** The record of [README.MD]: its extension is the suffix of its name. *)
Lemma C9_extension_witness :
  get_file_info (fs_of_listing corpus_readme) content_digest
    (rel ["prod"; "README.MD"]) prod_root
  = Some (record_at (fs_of_listing corpus_readme) content_digest prod_root
            ["README.MD"]) /\
  info_extension (record_at (fs_of_listing corpus_readme) content_digest
                    prod_root ["README.MD"])
  = suffix_of_name "README.MD".
Proof.
  split; [reflexivity|].
  apply (@C9_extension_is_suffix_as_spelled
           (fs_of_listing corpus_readme) content_digest
           (rel ["prod"; "README.MD"]) prod_root
           (record_at (fs_of_listing corpus_readme) content_digest prod_root
              ["README.MD"]) eq_refl).
Defined.

(** The scenario of the specification, run through the model: the lineage
    of [a.txt] matches in [v1] and not in [v2], one duplicate group covers
    production and [v1], and the exit status is 0. *)
Example scenario_run :
  exists a r,
    run (fs_of_listing corpus_scenario) content_digest
      "2024-01-01T00:00:00" prod_root arch_root out_root
    = Some (a, r) /\
    keys (archive_files a) = ["v1"; "v2"] /\
    lineage a = [("a.txt", [mkEntry "v1" "a.txt" true;
                            mkEntry "v2" "a.txt" false])] /\
    duplicates a = [mkGroup "sha:X" [mkLoc "production" "a.txt";
                                     mkLoc "v1" "a.txt"]] /\
    rp_critical_missing r = [] /\
    main (fs_of_listing corpus_scenario) content_digest
      "2024-01-01T00:00:00" prod_root arch_root out_root = 0.
Proof.
  eexists. eexists. split; [vm_compute; reflexivity|].
  repeat split; reflexivity.
Qed.

(** The runs that an exception ends, each with status 1: a regular file
    stands where the output directory is to be made; a directory stands
    where [report.json] is to be written; a scanned file is dated in the
    year 10000; the archive root is a regular file. *)
Example raising_runs :
  (run (fs_of_listing corpus_output_is_file) content_digest
     "2024-01-01T00:00:00" prod_root arch_root out_root = None /\
   main (fs_of_listing corpus_output_is_file) content_digest
     "2024-01-01T00:00:00" prod_root arch_root out_root = 1) /\
  (run (fs_of_listing corpus_report_is_dir) content_digest
     "2024-01-01T00:00:00" prod_root arch_root out_root = None /\
   main (fs_of_listing corpus_report_is_dir) content_digest
     "2024-01-01T00:00:00" prod_root arch_root out_root = 1) /\
  (run (fs_of_listing corpus_far_future) content_digest
     "2024-01-01T00:00:00" prod_root arch_root out_root = None /\
   main (fs_of_listing corpus_far_future) content_digest
     "2024-01-01T00:00:00" prod_root arch_root out_root = 1) /\
  (run (fs_of_listing corpus_archive_is_file) content_digest
     "2024-01-01T00:00:00" prod_root arch_root out_root = None /\
   main (fs_of_listing corpus_archive_is_file) content_digest
     "2024-01-01T00:00:00" prod_root arch_root out_root = 1).
Proof. repeat split; vm_compute; reflexivity. Qed.

(** An empty production tree and no archive root: both critical items are
    missing and the exit status is 1. *)
Example empty_run :
  exists a r,
    run (fs_of_listing []) content_digest "2024-01-01T00:00:00"
      prod_root arch_root out_root = Some (a, r) /\
    production_files a = [] /\ archive_files a = [] /\
    sm_missing_components (rp_summary r) = 13 /\
    rp_critical_missing r = ["directory: core/src"; "directory: security"] /\
    main (fs_of_listing []) content_digest "2024-01-01T00:00:00"
      prod_root arch_root out_root = 1.
Proof.
  eexists. eexists. split; [vm_compute; reflexivity|].
  repeat split; reflexivity.
Qed.

(** The two files named [a.txt] of version [v1] both have their entry. *)
Lemma C3_entries_of_version_witness :
  exists a r,
    run (fs_of_listing corpus_two_in_version) content_digest
      "2024-01-01T00:00:00" prod_root arch_root out_root
    = Some (a, r) /\
    filter (fun e => String.eqb (le_version e) "v1")
           (dict_get_default [] "a.txt" (lineage a))
    = [mkEntry "v1" "x/a.txt" true; mkEntry "v1" "y/a.txt" false].
Proof.
  destruct (C3_one_entry_per_same_named_file
              (fs_of_listing corpus_two_in_version) content_digest
              "2024-01-01T00:00:00" prod_root arch_root out_root eq_refl)
    as [a [r [Ha H]]].
  exists a, r. split; [exact Ha|].
  rewrite run_returns in Ha by reflexivity. injection Ha as <- <-.
  rewrite (H "a.txt"
             (record_at (fs_of_listing corpus_two_in_version) content_digest
                prod_root ["a.txt"]) "v1").
  - reflexivity.
  - vm_compute. left. reflexivity.
Defined.

(** In the scenario, [b.bin] cannot be read: its digest is empty and the one
    duplicate group does not list it. *)
Lemma C4_unreadable_location_witness :
  fs_read (fs_of_listing corpus_scenario) (rel ["prod"; "b.bin"]) = None /\
  compute_file_hash (fs_of_listing corpus_scenario) content_digest
    (rel ["prod"; "b.bin"]) = "" /\
  exists a r,
    run (fs_of_listing corpus_scenario) content_digest
      "2024-01-01T00:00:00" prod_root arch_root out_root
    = Some (a, r) /\
    In "b.bin" (keys (production_files a)) /\
    List.length (duplicates a) = 1 /\
    forall g, In g (duplicates a) ->
              2 <= List.length (dup_locations g) /\
              ~ In (mkLoc "production" "b.bin") (dup_locations g).
Proof.
  destruct (C4_unreadable_files_in_no_duplicate_group
              (fs_of_listing corpus_scenario) content_digest
              "2024-01-01T00:00:00" prod_root arch_root out_root)
    as [Hread Hrun].
  destruct (Hrun eq_refl) as [a [r [Ha [_ H]]]].
  split; [reflexivity|].
  split; [exact (proj1 (Hread (rel ["prod"; "b.bin"]) eq_refl))|].
  exists a, r. split; [exact Ha|].
  rewrite run_returns in Ha by reflexivity. injection Ha as <- <-.
  split; [vm_compute; tauto|]. split; [reflexivity|].
  intros g Hg. destruct (H g Hg) as [Hlen [_ Hno]].
  split; [exact Hlen|]. apply Hno. intros info Hin.
  vm_compute in Hin.
  repeat (destruct Hin as [Hin|Hin]; [inversion Hin; reflexivity|]);
    try discriminate; now destruct Hin.
Defined.

(** In the scenario, [b.bin] has no namesake in the archive: it is scanned,
    it is no key of the lineage map, and one file of the two has lineage. *)
Lemma C6_unmatched_file_witness :
  exists a r,
    run (fs_of_listing corpus_scenario) content_digest
      "2024-01-01T00:00:00" prod_root arch_root out_root
    = Some (a, r) /\
    In "b.bin" (keys (production_files a)) /\
    dict_get "b.bin" (lineage a) = None /\
    dict_get "b.bin" (rp_lineage_sample r) = None /\
    sm_production_files (rp_summary r) = 2 /\
    sm_files_with_lineage (rp_summary r) = 1.
Proof.
  destruct (C6_no_match_no_lineage_key
              (fs_of_listing corpus_scenario) content_digest
              "2024-01-01T00:00:00" prod_root arch_root out_root eq_refl)
    as [a [r [Ha [H _]]]].
  exists a, r. split; [exact Ha|].
  rewrite run_returns in Ha by reflexivity. injection Ha as <- <-.
  split; [vm_compute; tauto|].
  destruct (H "b.bin"
              (record_at (fs_of_listing corpus_scenario) content_digest
                 prod_root ["b.bin"])) as [H1 [_ H3]].
  - vm_compute. right. left. reflexivity.
  - intros version files arch_path arch_info Hv Hf E.
    vm_compute in Hv.
    destruct Hv as [Hv|[Hv|[]]]; inversion Hv; subst; clear Hv;
      destruct Hf as [Hf|[]]; inversion Hf; subst; discriminate.
  - split; [exact H1|]. split; [exact H3|]. split; reflexivity.
Defined.


(** With 21 versions of one file, the samples stay within their bounds and
    the one sampled path still carries its 21 entries. *)
Lemma C8_sample_is_prefix_witness :
  exists a r,
    run (fs_of_listing corpus_many_versions) content_digest
      "2024-01-01T00:00:00" prod_root arch_root out_root
    = Some (a, r) /\
    List.length (rp_duplicates r) <= 50 /\
    List.length (rp_lineage_sample r) <= 20 /\
    sm_archive_versions (rp_summary r) = 21 /\
    option_map (fun l => List.length l) (dict_get "a.txt" (lineage a))
    = Some 21.
Proof.
  destruct (C8_samples_capped_counts_exact
              (fs_of_listing corpus_many_versions) content_digest
              "2024-01-01T00:00:00" prod_root arch_root out_root eq_refl)
    as [a [r [Ha [[_ Hd] [[Es [Hl Hin]] _]]]]].
  exists a, r. split; [exact Ha|]. split; [exact Hd|]. split; [exact Hl|].
  rewrite run_returns in Ha by reflexivity. injection Ha as <- <-.
  split; [vm_compute; reflexivity|].
  rewrite (Hin "a.txt"
             (lineage_of
                (archive_files
                   (analyzed (fs_of_listing corpus_many_versions)
                      content_digest
                      (fresh_analyzer prod_root arch_root out_root)))
                (record_at (fs_of_listing corpus_many_versions)
                   content_digest prod_root ["a.txt"]))).
  - vm_compute. reflexivity.
  - vm_compute. left. reflexivity.
Defined.

(** * Further properties of the program *)

(** ** Scanning relative to any base *)

Lemma undatable_spec (fs : FileSystem) (p : Path) :
  undatable fs p = true <->
  fs_stat fs p = None \/
  exists st, fs_stat fs p = Some st /\ fs_isoformat fs (st_mtime st) = None.
Proof.
  unfold undatable. destruct (fs_stat fs p) as [st|].
  - destruct (fs_isoformat fs (st_mtime st)) eqn:M; split.
    + discriminate.
    + intros [H|[st' [[= <-] H]]]; congruence.
    + intros _. right. exists st. auto.
    + reflexivity.
  - split; [now left | reflexivity].
Qed.

Lemma get_file_info_None (fs : FileSystem) (sha : list byte -> string)
    (filepath base_dir : Path) :
  get_file_info fs sha filepath base_dir = None <->
  relative_to filepath base_dir = None \/ undatable fs filepath = true.
Proof.
  unfold get_file_info, undatable.
  destruct (relative_to filepath base_dir); cbn [bind];
    [|split; [now left | reflexivity]].
  destruct (fs_stat fs filepath) as [st|]; cbn [bind];
    [|split; [now right | reflexivity]].
  destruct (fs_isoformat fs (st_mtime st)); cbn [bind]; split;
    try discriminate; try (now right); try reflexivity.
  intros [H|H]; discriminate.
Qed.

Lemma get_file_info_path (fs : FileSystem) (sha : list byte -> string)
    (filepath base_dir : Path) (info : FileInfo) :
  get_file_info fs sha filepath base_dir = Some info ->
  exists relative,
    relative_to filepath base_dir = Some relative /\
    info_path info = path_str relative /\
    info_name info = path_name filepath /\
    info_hash info = compute_file_hash fs sha filepath /\
    info_size info = size_seen fs filepath.
Proof.
  intros H. apply get_file_info_inv in H.
  destruct H as [relative [st [modified [R [S [_ ->]]]]]].
  exists relative. unfold size_seen. rewrite S. cbn. auto.
Qed.

Lemma strip_prefix_Some (pre l rest : list string) :
  strip_prefix pre l = Some rest -> l = pre ++ rest.
Proof.
  revert l; induction pre as [|x pre IH]; intros l; simpl.
  - now intros [= ->].
  - destruct l as [|y l]; [discriminate|].
    destruct (String.eqb_spec x y) as [->|Hne]; [|discriminate].
    intros H. apply IH in H. now rewrite H.
Qed.

Lemma relative_to_Some (p base r : Path) :
  relative_to p base = Some r ->
  anchored r = false /\ anchored p = anchored base /\
  parts p = parts base ++ parts r.
Proof.
  unfold relative_to.
  destruct (Bool.eqb (anchored p) (anchored base)) eqn:E; [|discriminate].
  destruct (strip_prefix (parts base) (parts p)) as [rest|] eqn:S;
    simpl; [|discriminate].
  intros [= <-]. simpl. apply Bool.eqb_prop in E.
  apply strip_prefix_Some in S. auto.
Qed.

Section ScanAnyBase.

Variable fs : FileSystem.
Variable sha : list byte -> string.
Variables d base : Path.

Lemma scan_loop_None (rels : list (list string)) (files : dict FileInfo) :
  scan_loop fs sha d base rels files = None <->
  exists rel, In rel rels /\ kept fs d rel = true /\
              (relative_to (path_div d rel) base = None \/
               undatable fs (path_div d rel) = true).
Proof.
  revert files; induction rels as [|rel rels IH]; intros files; simpl.
  - split; [discriminate | intros [rel [[] _]]].
  - fold (kept fs d rel). destruct (kept fs d rel) eqn:K.
    + destruct (get_file_info fs sha (path_div d rel) base) as [info|] eqn:G;
        simpl.
      * rewrite IH. split.
        -- intros [r [H1 H2]]. exists r. auto.
        -- intros [r [[<-|H1] [H2 H3]]].
           ++ apply (proj2 (get_file_info_None fs sha _ _)) in H3.
              congruence.
           ++ exists r. auto.
      * split; [|reflexivity]. intros _. exists rel.
        apply get_file_info_None in G. auto.
    + rewrite IH. split.
      * intros [r [H1 H2]]. exists r. auto.
      * intros [r [[<-|H1] [H2 H3]]]; [congruence|]. exists r. auto.
Qed.

Lemma scan_loop_Some (rels : list (list string))
    (files0 files : dict FileInfo) :
  scan_loop fs sha d base rels files0 = Some files ->
  (NoDup (keys files0) -> NoDup (keys files)) /\
  forall key info,
    In (key, info) files ->
    In (key, info) files0 \/
    (info_path info = key /\
     exists rel, In rel rels /\ kept fs d rel = true /\
                 get_file_info fs sha (path_div d rel) base = Some info).
Proof.
  revert files0; induction rels as [|rel rels IH]; intros files0; simpl.
  - intros [= <-]. auto.
  - fold (kept fs d rel). destruct (kept fs d rel) eqn:K.
    + destruct (get_file_info fs sha (path_div d rel) base) as [i|] eqn:G;
        simpl; [|discriminate].
      intros H. apply IH in H. destruct H as [Hnd Hin]. split.
      * intros H0. apply Hnd. now apply NoDup_keys_dict_set.
      * intros key info H. apply Hin in H.
        destruct H as [H|[E [r [H1 H2]]]].
        -- apply In_dict_set in H. destruct H as [[-> ->]|H]; [|auto].
           right. split; [reflexivity|]. exists rel. auto.
        -- right. split; [exact E|]. exists r. tauto.
    + intros H. apply IH in H. destruct H as [Hnd Hin].
      split; [exact Hnd|]. intros key info H. apply Hin in H.
      destruct H as [H|[E [r [H1 H2]]]]; [auto|].
      right. split; [exact E|]. exists r. tauto.
Qed.

End ScanAnyBase.

(** X1. The tree a scan returns: no path occurs twice, every record is
    stored under its own [path] and is found there, and every record is the
    [get_file_info] of a descendant of the directory that is a file and is
    not skipped. *)
Theorem scan_directory_tree_invariant :
  forall (fs : FileSystem) (sha : list byte -> string)
         (directory base_dir : Path) (files : dict FileInfo),
    scan_directory fs sha directory base_dir = Some files ->
    NoDup (keys files) /\
    forall key info,
      In (key, info) files ->
      info_path info = key /\
      dict_get key files = Some info /\
      exists rel,
        In rel (fs_rglob fs directory) /\
        fs_is_file fs (path_div directory rel) = true /\
        _should_skip (path_div directory rel) = false /\
        get_file_info fs sha (path_div directory rel) base_dir = Some info.
Proof.
  intros fs sha directory base_dir files H. unfold scan_directory in H.
  assert (G : NoDup (keys files) /\
              forall key info,
                In (key, info) files ->
                info_path info = key /\
                exists rel,
                  In rel (fs_rglob fs directory) /\
                  kept fs directory rel = true /\
                  get_file_info fs sha (path_div directory rel) base_dir
                  = Some info).
  { destruct (negb (fs_exists fs directory)).
    - injection H as <-. split; [constructor | intros ? ? []].
    - apply scan_loop_Some in H. destruct H as [Hnd Hin].
      split; [apply Hnd; constructor|].
      intros key info Hi. apply Hin in Hi. destruct Hi as [[]|Hi]. exact Hi. }
  destruct G as [Hnd Hin]. split; [exact Hnd|].
  intros key info Hi. destruct (Hin key info Hi) as [E [rel [H1 [K H2]]]].
  split; [exact E|]. split; [now apply In_dict_get|].
  exists rel. unfold kept in K. apply andb_true_iff in K.
  destruct K as [K1 K2]. apply negb_true_iff in K2. auto.
Qed.


(** ** Skipping by substring *)

Lemma substring_of_trans (a b c : string) :
  substring_of a b -> substring_of b c -> substring_of a c.
Proof.
  intros [x [y ->]] [u [v ->]].
  exists (String.append u x), (String.append y v).
  now rewrite !append_assoc.
Qed.

Lemma substring_of_refl (a : string) : substring_of a a.
Proof. exists "", "". simpl. now rewrite append_nil_r. Qed.

Lemma component_in_concat (comp : string) (ps : list string) :
  In comp ps -> substring_of comp (String.concat "/" ps).
Proof.
  induction ps as [|x ps IH]; [intros []|].
  intros Hin. destruct ps as [|y ps].
  - destruct Hin as [->|[]]. apply substring_of_refl.
  - change (String.concat "/" (x :: y :: ps))
      with (String.append x (String.append "/" (String.concat "/" (y :: ps)))).
    destruct Hin as [->|Hin].
    + apply substring_of_append_r. apply substring_of_refl.
    + apply substring_of_append_l, substring_of_append_l. now apply IH.
Qed.

Lemma component_in_path_str (comp : string) (p : Path) :
  In comp (parts p) -> substring_of comp (path_str p).
Proof.
  destruct p as [anc ps]; simpl. intros Hin.
  rewrite path_str_nonempty by (intros ->; destruct Hin).
  apply substring_of_append_l. now apply component_in_concat.
Qed.

(** X3. The exclusion is by substring, not by whole component: a path is
    skipped as soon as one of its components, the root's included, contains
    a pattern, as [.gitignore] and [.github] contain [.git]; no scan then
    records the file. *)
Theorem should_skip_component_containing_pattern :
  forall (fs : FileSystem) (directory : Path) (rel : list string)
         (comp pat : string),
    In comp (parts directory ++ rel) ->
    In pat skip_patterns ->
    substring_of pat comp ->
    _should_skip (path_div directory rel) = true /\
    kept fs directory rel = false.
Proof.
  intros fs directory rel comp pat Hc Hp Hs.
  assert (E : _should_skip (path_div directory rel) = true).
  { apply should_skip_spec. exists pat. split; [exact Hp|].
    apply (substring_of_trans Hs). now apply component_in_path_str. }
  split; [exact E|]. unfold kept. rewrite E. apply andb_false_r.
Qed.

(** ** The order of [sorted] *)

Lemma ascii_compare_refl (a : ascii) : Ascii.compare a a = Eq.
Proof. unfold Ascii.compare. apply N.compare_refl. Qed.

Lemma ascii_compare_lt_trans (a b c : ascii) :
  Ascii.compare a b = Lt -> Ascii.compare b c = Lt -> Ascii.compare a c = Lt.
Proof.
  unfold Ascii.compare. rewrite !N.compare_lt_iff. apply N.lt_trans.
Qed.

Lemma compare_refl (s : string) : String.compare s s = Eq.
Proof.
  induction s as [|a s IH]; simpl; [reflexivity|].
  now rewrite ascii_compare_refl.
Qed.

Lemma compare_lt_trans (s1 s2 s3 : string) :
  String.compare s1 s2 = Lt -> String.compare s2 s3 = Lt ->
  String.compare s1 s3 = Lt.
Proof.
  revert s2 s3; induction s1 as [|a s1 IH]; intros [|b s2] [|c s3]; simpl;
    try congruence.
  destruct (Ascii.compare a b) eqn:Eab; try discriminate;
    destruct (Ascii.compare b c) eqn:Ebc; try discriminate.
  - apply Ascii.compare_eq_iff in Eab, Ebc. subst.
    rewrite ascii_compare_refl. apply IH.
  - apply Ascii.compare_eq_iff in Eab. subst. now rewrite Ebc.
  - apply Ascii.compare_eq_iff in Ebc. subst. now rewrite Eab.
  - now rewrite (ascii_compare_lt_trans _ _ _ Eab Ebc).
Qed.

Lemma str_le_refl (x : string) : str_le x x.
Proof. unfold str_le, String.leb. now rewrite compare_refl. Qed.

Lemma str_le_trans (x y z : string) : str_le x y -> str_le y z -> str_le x z.
Proof.
  unfold str_le, String.leb.
  destruct (String.compare x y) eqn:Exy; try discriminate;
    destruct (String.compare y z) eqn:Eyz; try discriminate; intros _ _.
  - apply String.compare_eq_iff in Exy, Eyz. subst. now rewrite compare_refl.
  - apply String.compare_eq_iff in Exy. subst. now rewrite Eyz.
  - apply String.compare_eq_iff in Eyz. subst. now rewrite Exy.
  - now rewrite (compare_lt_trans _ _ _ Exy Eyz).
Qed.

Lemma insert_sorted_Forall (R : string -> Prop) (x : string)
    (l : list string) :
  R x -> Forall R l -> Forall R (insert_sorted x l).
Proof.
  intros Hx Hl. induction Hl as [|y l Hy Hl IH]; simpl; [auto|].
  destruct (String.leb x y); auto.
Qed.

Lemma insert_sorted_sorted (x : string) (l : list string) :
  StronglySorted str_le l -> StronglySorted str_le (insert_sorted x l).
Proof.
  induction 1 as [|y l Hs IH Hy]; simpl; [repeat constructor|].
  destruct (String.leb x y) eqn:E.
  - constructor; [now constructor|]. constructor; [exact E|].
    apply (Forall_impl _ (fun z Hz => @str_le_trans x y z E Hz) Hy).
  - constructor; [exact IH|]. apply insert_sorted_Forall; [|exact Hy].
    destruct (String.leb_total x y) as [H|H]; [congruence | exact H].
Qed.

(** [sorted] returns its argument in non-decreasing order. *)
Lemma sorted_sorted (l : list string) : StronglySorted str_le (sorted l).
Proof.
  induction l as [|x l IH]; simpl; [constructor|].
  now apply insert_sorted_sorted.
Qed.

Lemma StronglySorted_filter {A : Type} (R : A -> A -> Prop) (c : A -> bool)
    (l : list A) :
  StronglySorted R l -> StronglySorted R (filter c l).
Proof.
  induction 1 as [|x l Hs IH Hx]; simpl; [constructor|].
  destruct (c x); [|exact IH]. constructor; [exact IH|].
  rewrite Forall_forall in *. intros y Hy. apply filter_In in Hy.
  apply Hx. tauto.
Qed.

(** ** The archive trees *)

Lemma path_name_div (d : Path) (child : string) :
  path_name (path_div d [child]) = child.
Proof. unfold path_name, path_div; simpl. apply last_last. Qed.

Lemma fold_archive_fresh (fs : FileSystem) (sha : list byte -> string)
    (arch : Path) (names : list string) (acc : dict (dict FileInfo)) :
  NoDup (keys acc ++ names) ->
  fold_left (archive_step fs sha arch) names acc =
  acc ++ map (fun v => (v, scan_tree fs sha (path_div arch [v])))
             (filter (fun v => fs_is_dir fs (path_div arch [v])) names).
Proof.
  revert acc; induction names as [|v names IH]; intros acc Hnd; simpl.
  - now rewrite app_nil_r.
  - unfold archive_step at 2.
    destruct (fs_is_dir fs (path_div arch [v])); simpl.
    + rewrite path_name_div, dict_set_fresh.
      * rewrite IH; [now rewrite <- app_assoc|].
        unfold keys in *. rewrite map_app. simpl. now rewrite <- app_assoc.
      * intros Hin. apply NoDup_remove_2 in Hnd. apply Hnd.
        apply in_or_app. now left.
    + apply IH. now apply NoDup_remove_1 in Hnd.
Qed.


(** ** The order of a lineage list *)

Lemma block_then_sorted (v : string) (block rest : list string) :
  (forall x, In x block -> x = v) ->
  StronglySorted str_le rest -> Forall (str_le v) rest ->
  StronglySorted str_le (block ++ rest).
Proof.
  intros Hb Hs Hf. induction block as [|x block IH]; simpl; [exact Hs|].
  constructor.
  - apply IH. intros y Hy. apply Hb. now right.
  - rewrite (Hb x) by now left. apply Forall_app. split; [|exact Hf].
    apply Forall_forall. intros y Hy. rewrite (Hb y) by now right.
    apply str_le_refl.
Qed.

Lemma lineage_of_versions_sorted (archive : dict (dict FileInfo))
    (prod_info : FileInfo) :
  StronglySorted str_le (map le_version (lineage_of archive prod_info)).
Proof.
  rewrite lineage_of_flat.
  generalize (sorted_sorted (keys archive)).
  generalize (sorted (keys archive)). intros vs Hs.
  induction Hs as [|v vs Hs IH Hv]; simpl; [constructor|].
  rewrite map_app. apply (@block_then_sorted v).
  - intros x Hx. apply in_map_iff in Hx. destruct Hx as [e [<- He]].
    now apply entries_in_version in He.
  - exact IH.
  - apply Forall_forall. intros x Hx. apply in_map_iff in Hx.
    destruct Hx as [e [<- He]]. apply in_flat_map in He.
    destruct He as [v' [Hv' He]]. apply entries_in_version in He.
    rewrite He. rewrite Forall_forall in Hv. now apply Hv.
Qed.


(** ** Every shared digest has its group *)

Lemma hash_to_files_NoDup (a : CrossReferenceAnalyzer) :
  NoDup (keys (hash_to_files a)).
Proof. rewrite hash_to_files_flat. apply fold_keys_NoDup. constructor. Qed.

Lemma fold_keys_complete (h : string)
    (entries : list (string * (string * FileInfo)))
    (acc : dict (list (string * string))) :
  In h (keys acc) \/
  (h <> "" /\ exists e, In e entries /\ info_hash (snd (snd e)) = h) ->
  In h (keys (fold_left (fun acc e => add_location (fst e) acc (snd e))
                entries acc)).
Proof.
  revert acc; induction entries as [|e entries IH]; intros acc; simpl.
  - intros [H|[_ [e [[] _]]]]. exact H.
  - intros H. apply IH. destruct e as [label [path info]]; simpl.
    destruct H as [H|[Hne [e' [[<-|Hin] E]]]].
    + left. destruct (truthy (info_hash info)); [|exact H].
      unfold dict_append. apply In_keys_dict_set. now right.
    + simpl in E. left. apply truthy_spec in Hne. rewrite <- E in Hne.
      rewrite Hne. unfold dict_append. apply In_keys_dict_set. now left.
    + right. split; [exact Hne|]. exists e'. auto.
Qed.

Lemma fold_add_group_closed (items : list (string * list (string * string)))
    (dups : list DuplicateGroup) :
  fold_left add_group items dups =
  dups ++
  map (fun item =>
         mkGroup (str_take 16 (fst item))
                 (map (fun loc => mkLoc (fst loc) (snd loc)) (snd item)))
      (filter (fun item => (1 <? List.length (snd item))%nat) items).
Proof.
  revert dups; induction items as [|[h locs] items IH]; intros dups; simpl.
  - now rewrite app_nil_r.
  - rewrite IH. destruct (1 <? List.length locs)%nat; simpl;
      [now rewrite <- app_assoc | reflexivity].
Qed.

Lemma keys_In_pair {V : Type} (k : string) (d : dict V) :
  In k (keys d) -> exists v, In (k, v) d.
Proof.
  unfold keys. rewrite in_map_iff. intros [[k' v] [E H]]. simpl in E.
  subst. eauto.
Qed.

(** The groups [_find_duplicates] adds, from the digests that head them. *)
Lemma new_groups_closed (a : CrossReferenceAnalyzer) :
  exists hs,
    NoDup hs /\
    (forall h, In h hs <->
               h <> "" /\
               2 <= List.length (locations_with h (corpus_entries a))) /\
    duplicates (_find_duplicates a) =
    duplicates a ++
    map (fun h => mkGroup (str_take 16 h)
                          (locations_with h (corpus_entries a))) hs.
Proof.
  exists (keys (filter (fun item => (1 <? List.length (snd item))%nat)
                       (hash_to_files a))).
  split; [apply NoDup_keys_filter, hash_to_files_NoDup|]. split.
  - intros h. split.
    + intros Hin. apply keys_In_pair in Hin. destruct Hin as [locs Hin].
      apply filter_In in Hin. destruct Hin as [Hin Hlen]. simpl in Hlen.
      apply Nat.ltb_lt in Hlen. apply hash_to_files_item in Hin.
      destruct Hin as [Hne E]. split; [exact Hne|].
      rewrite <- E, length_map. exact Hlen.
    + intros [Hne Hlen].
      assert (Hk : In h (keys (hash_to_files a))).
      { rewrite hash_to_files_flat. apply fold_keys_complete. right.
        split; [exact Hne|]. unfold locations_with in Hlen.
        destruct (filter (fun e => String.eqb (info_hash (snd (snd e))) h)
                         (corpus_entries a)) as [|e l] eqn:F;
          [simpl in Hlen; lia|].
        assert (He : In e (e :: l)) by now left.
        rewrite <- F in He. apply filter_In in He. destruct He as [He E].
        apply String.eqb_eq in E. eauto. }
      apply keys_In_pair in Hk. destruct Hk as [locs Hin].
      destruct (hash_to_files_item _ _ _ Hin) as [_ E].
      apply (in_map fst
               (filter (fun item => (1 <? List.length (snd item))%nat)
                       (hash_to_files a)) (h, locs)).
      apply filter_In. split; [exact Hin|]. simpl. apply Nat.ltb_lt.
      rewrite <- E, length_map in Hlen. exact Hlen.
  - unfold _find_duplicates. cbn [duplicates set_duplicates].
    rewrite fold_add_group_closed. f_equal. unfold keys. rewrite map_map.
    apply map_ext_in. intros [h locs] Hin. apply filter_In in Hin.
    destruct Hin as [Hin _]. apply hash_to_files_item in Hin.
    destruct Hin as [_ E]. simpl. now rewrite E.
Qed.

Lemma analyzed_groups_closed (fs : FileSystem) (sha : list byte -> string)
    (prod arch out : Path) :
  exists hs,
    NoDup hs /\
    (forall h,
        In h hs <->
        h <> "" /\
        2 <= List.length
               (locations_with h
                  (corpus_entries (analyzed fs sha (fresh_analyzer prod arch out))))) /\
    duplicates (analyzed fs sha (fresh_analyzer prod arch out)) =
    map (fun h =>
           mkGroup (str_take 16 h)
             (locations_with h
                (corpus_entries (analyzed fs sha (fresh_analyzer prod arch out)))))
        hs.
Proof.
  destruct (new_groups_closed (scanned fs sha (fresh_analyzer prod arch out)))
    as [hs [Hnd [Hin E]]].
  exists hs. split; [exact Hnd|]. split; [exact Hin|]. exact E.
Qed.

(** X6. The duplicate groups of a run, exactly: one group for each
    non-empty digest that two or more scanned files have, none for any
    other digest and no digest twice; the group lists every scanned file
    with that digest.
    Stated of a run in which nothing raises; such a run returns. *)
Theorem duplicates_one_group_per_shared_digest :
  forall (fs : FileSystem) (sha : list byte -> string) (now : string)
         (prod arch out : Path),
    run_raises fs prod arch out = false ->
    exists a r hs,
    run fs sha now prod arch out = Some (a, r) /\
    NoDup hs /\
    (forall h,
        In h hs <->
        h <> "" /\ 2 <= List.length (locations_with h (corpus_entries a))) /\
    duplicates a =
    map (fun h => mkGroup (str_take 16 h)
                          (locations_with h (corpus_entries a))) hs /\
    sm_duplicates_found (rp_summary r) = List.length hs.
Proof.
  intros fs sha now prod arch out Hok.
  destruct (analyzed_groups_closed fs sha prod arch out)
    as [hs [Hnd [Hin E]]].
  exists (analyzed fs sha (fresh_analyzer prod arch out)).
  exists (report_of now (analyzed fs sha (fresh_analyzer prod arch out))).
  exists hs. split; [now apply run_returns|].
  split; [exact Hnd|]. split; [exact Hin|]. split; [exact E|].
  cbn [report_of rp_summary sm_duplicates_found].
  now rewrite E, length_map.
Qed.

Lemma two_distinct_members {A : Type} (x y : A) (l : list A) :
  In x l -> In y l -> x <> y -> 2 <= List.length l.
Proof.
  destruct l as [|u [|v l]]; simpl; [tauto| |lia].
  intros [<-|[]] [<-|[]] H. congruence.
Qed.

(** X7. Two scanned files at different locations with the same non-empty
    digest are listed together in one duplicate group, whatever their size
    and whichever trees they are in.
    Stated of a run in which nothing raises; such a run returns. *)
Theorem same_digest_files_share_a_group :
  forall (fs : FileSystem) (sha : list byte -> string) (now : string)
         (prod arch out : Path),
    run_raises fs prod arch out = false ->
    exists a r,
    run fs sha now prod arch out = Some (a, r) /\
    forall source1 path1 info1 source2 path2 info2,
      In (source1, (path1, info1)) (corpus_entries a) ->
      In (source2, (path2, info2)) (corpus_entries a) ->
      (source1, path1) <> (source2, path2) ->
      info_hash info1 = info_hash info2 ->
      info_hash info1 <> "" ->
      exists g,
        In g (duplicates a) /\
        dup_hash g = str_take 16 (info_hash info1) /\
        In (mkLoc source1 path1) (dup_locations g) /\
        In (mkLoc source2 path2) (dup_locations g).
Proof.
  intros fs sha now prod arch out Hok.
  destruct (analyzed_groups_closed fs sha prod arch out)
    as [hs [Hnd [Hin E]]].
  exists (analyzed fs sha (fresh_analyzer prod arch out)).
  exists (report_of now (analyzed fs sha (fresh_analyzer prod arch out))).
  split; [now apply run_returns|].
  intros s1 p1 i1 s2 p2 i2 H1 H2 Hd Hh Hne.
  set (E0 := corpus_entries (analyzed fs sha (fresh_analyzer prod arch out))) in *.
  assert (L1 : In (mkLoc s1 p1) (locations_with (info_hash i1) E0)).
  { unfold locations_with. apply in_map_iff. exists (s1, (p1, i1)).
    split; [reflexivity|]. apply filter_In. split; [exact H1|].
    simpl. apply String.eqb_refl. }
  assert (L2 : In (mkLoc s2 p2) (locations_with (info_hash i1) E0)).
  { unfold locations_with. apply in_map_iff. exists (s2, (p2, i2)).
    split; [reflexivity|]. apply filter_In. split; [exact H2|].
    simpl. rewrite Hh. apply String.eqb_refl. }
  exists (mkGroup (str_take 16 (info_hash i1))
                  (locations_with (info_hash i1) E0)).
  split; [|simpl; auto]. rewrite E. apply in_map_iff.
  exists (info_hash i1). split; [reflexivity|]. apply Hin.
  split; [exact Hne|].
  eapply two_distinct_members; [exact L1 | exact L2 |].
  intros [= -> ->]. now apply Hd.
Qed.

(** ** Bounds on the summary *)

Lemma list_sum_map_add {A : Type} (f g : A -> nat) (l : list A) :
  list_sum (map (fun x => f x + g x) l) =
  list_sum (map f l) + list_sum (map g l).
Proof. induction l as [|x l IH]; simpl; [reflexivity | rewrite IH; lia]. Qed.

Lemma hits_at_most_once (k : string) (hs : list string) :
  NoDup hs ->
  list_sum (map (fun h => if String.eqb k h then 1 else 0) hs) <= 1.
Proof.
  induction 1 as [|h hs Hh Hnd IH]; simpl; [lia|].
  destruct (String.eqb_spec k h) as [->|Hne]; [|lia].
  assert (Z : list_sum (map (fun h0 => if String.eqb h h0 then 1 else 0) hs)
              = 0); [|lia].
  clear IH Hnd. induction hs as [|x hs IH]; simpl; [reflexivity|].
  destruct (String.eqb_spec h x) as [->|Hne].
  - exfalso. apply Hh. now left.
  - apply IH. intros H. apply Hh. now right.
Qed.

Lemma classes_fit {A : Type} (key : A -> string) (hs : list string)
    (l : list A) :
  NoDup hs ->
  list_sum (map (fun h => List.length
                            (filter (fun e => String.eqb (key e) h) l)) hs)
  <= List.length l.
Proof.
  intros Hnd. induction l as [|e l IH]; simpl.
  - induction hs as [|h hs IHh]; simpl; [lia|].
    inversion Hnd; subst. auto.
  - rewrite (map_ext _
               (fun h => (if String.eqb (key e) h then 1 else 0) +
                         List.length
                           (filter (fun e0 => String.eqb (key e0) h) l))).
    + rewrite list_sum_map_add.
      pose proof (@hits_at_most_once (key e) hs Hnd). lia.
    + intros h. destruct (String.eqb (key e) h); reflexivity.
Qed.

Lemma sum_at_least_two {A : Type} (f : A -> nat) (l : list A) :
  (forall x, In x l -> 2 <= f x) -> 2 * List.length l <= list_sum (map f l).
Proof.
  induction l as [|x l IH]; intros H; simpl; [lia|].
  specialize (H x (or_introl eq_refl)) as Hx.
  assert (2 * List.length l <= list_sum (map f l))
    by (apply IH; intros y Hy; apply H; now right).
  lia.
Qed.

Lemma length_corpus_entries (a : CrossReferenceAnalyzer) :
  List.length (corpus_entries a) =
  List.length (production_files a) +
  list_sum (map (fun f => List.length f) (values (archive_files a))).
Proof.
  unfold corpus_entries, values.
  rewrite length_app, length_map, length_flat_map, map_map. f_equal.
  f_equal. apply map_ext. intros item. apply length_map.
Qed.

(** X8. The counts of the summary bound each other: twice the number of
    duplicate groups is at most the number of scanned files, production and
    archive together; the files with lineage are at most the production
    files; each sample is no longer than its count.
    Stated of a run in which nothing raises; such a run returns. *)
Theorem summary_counts_bounds :
  forall (fs : FileSystem) (sha : list byte -> string) (now : string)
         (prod arch out : Path),
    run_raises fs prod arch out = false ->
    exists a r,
    run fs sha now prod arch out = Some (a, r) /\
    2 * sm_duplicates_found (rp_summary r) <=
      sm_production_files (rp_summary r) + sm_archive_files (rp_summary r) /\
    sm_files_with_lineage (rp_summary r) <=
      sm_production_files (rp_summary r) /\
    List.length (rp_duplicates r) <= sm_duplicates_found (rp_summary r) /\
    List.length (rp_lineage_sample r) <=
      sm_files_with_lineage (rp_summary r).
Proof.
  intros fs sha now prod arch out Hok.
  destruct (analyzed_groups_closed fs sha prod arch out)
    as [hs [Hnd [Hin E]]].
  pose proof (analyzed_lineage fs sha prod arch out) as L.
  pose proof (length_corpus_entries
                (analyzed fs sha (fresh_analyzer prod arch out))) as C.
  exists (analyzed fs sha (fresh_analyzer prod arch out)).
  exists (report_of now (analyzed fs sha (fresh_analyzer prod arch out))).
  split; [now apply run_returns|].
  cbn [report_of rp_summary rp_duplicates rp_lineage_sample
       sm_duplicates_found sm_production_files sm_archive_files
       sm_files_with_lineage].
  generalize dependent (analyzed fs sha (fresh_analyzer prod arch out)).
  intros a Hin E L C. split; [|split; [|split]].
  - rewrite <- C, E, length_map.
    etransitivity;
      [apply (sum_at_least_two
                (fun h => List.length (locations_with h (corpus_entries a))))|].
    + intros h Hh. now apply Hin.
    + unfold locations_with.
      rewrite (map_ext _
                 (fun h => List.length
                             (filter
                                (fun e => String.eqb
                                            (info_hash (snd (snd e))) h)
                                (corpus_entries a)))).
      * now apply classes_fit.
      * intros h. apply length_map.
  - rewrite L, length_map. apply filter_length_le.
  - rewrite length_firstn. apply Nat.le_min_r.
  - etransitivity; [apply length_dict_of_items|].
    rewrite length_firstn. apply Nat.le_min_r.
Qed.

(** ** A second [analyze] on the same analyzer *)

Lemma dict_set_same {V : Type} (k : string) (v : V) (d : dict V) :
  dict_get k d = Some v -> dict_set k v d = d.
Proof.
  induction d as [|[k' v'] d IH]; simpl; [discriminate|].
  destruct (String.eqb_spec k k') as [->|Hne].
  - now intros [= ->].
  - intros H. now rewrite IH.
Qed.

Section ArchiveAgain.

Variable fs : FileSystem.
Variable sha : list byte -> string.
Variable arch : Path.

Lemma archive_step_keeps (names : list string) (acc : dict (dict FileInfo))
    (k : string) :
  dict_get k acc = Some (scan_tree fs sha (path_div arch [k])) ->
  dict_get k (fold_left (archive_step fs sha arch) names acc) =
  Some (scan_tree fs sha (path_div arch [k])).
Proof.
  revert acc; induction names as [|n names IH]; intros acc H; simpl;
    [exact H|].
  apply IH. unfold archive_step.
  destruct (fs_is_dir fs (path_div arch [n])); [|exact H].
  rewrite path_name_div, dict_get_set.
  destruct (String.eqb_spec k n) as [->|Hne]; [reflexivity | exact H].
Qed.

Lemma archive_step_stores (names : list string) (acc : dict (dict FileInfo))
    (k : string) :
  In k names -> fs_is_dir fs (path_div arch [k]) = true ->
  dict_get k (fold_left (archive_step fs sha arch) names acc) =
  Some (scan_tree fs sha (path_div arch [k])).
Proof.
  revert acc; induction names as [|n names IH]; intros acc Hin Hd;
    [destruct Hin|]. simpl. destruct Hin as [->|Hin]; [|now apply IH].
  apply archive_step_keeps. unfold archive_step. rewrite Hd.
  rewrite path_name_div, dict_get_set. now rewrite String.eqb_refl.
Qed.

Lemma archive_step_settled (names : list string)
    (acc : dict (dict FileInfo)) :
  (forall k, In k names -> fs_is_dir fs (path_div arch [k]) = true ->
             dict_get k acc = Some (scan_tree fs sha (path_div arch [k]))) ->
  fold_left (archive_step fs sha arch) names acc = acc.
Proof.
  induction names as [|n names IH]; intros H; simpl; [reflexivity|].
  assert (E : archive_step fs sha arch acc n = acc).
  { unfold archive_step.
    destruct (fs_is_dir fs (path_div arch [n])) eqn:D; [|reflexivity].
    rewrite path_name_div. apply dict_set_same. apply H; [now left | exact D]. }
  rewrite E. apply IH. intros k Hk. apply H. now right.
Qed.

Lemma scanned_archive_again :
  scanned_archive fs sha arch (scanned_archive fs sha arch []) =
  scanned_archive fs sha arch [].
Proof.
  unfold scanned_archive. destruct (fs_exists fs arch); [|reflexivity].
  apply archive_step_settled. intros k Hk Hd.
  now apply archive_step_stores.
Qed.

End ArchiveAgain.

Lemma trace_one_settled (archive : dict (dict FileInfo))
    (items : dict FileInfo) (lin : dict (list LineageEntry)) :
  (forall p info,
      In (p, info) items -> lineage_of archive info <> [] ->
      dict_get p lin = Some (lineage_of archive info)) ->
  fold_left (trace_one archive) items lin = lin.
Proof.
  induction items as [|[p info] items IH]; intros H; cbn [fold_left];
    [reflexivity|].
  assert (E : trace_one archive lin (p, info) = lin).
  { unfold trace_one. destruct (lineage_of archive info) as [|e l] eqn:L;
      [reflexivity|].
    apply dict_set_same. rewrite <- L. apply H; [now left|].
    rewrite L. discriminate. }
  rewrite E. apply IH. intros q i Hq. apply H. now right.
Qed.

Lemma find_missing_closed (fs : FileSystem) (a : CrossReferenceAnalyzer) :
  missing (_find_missing fs a) =
  missing a ++
  (map (String.append "directory: ")
       (filter (fun name =>
                  negb (fs_exists fs (path_div_str (production_dir a) name)))
               expected_dirs) ++
   map (String.append "file: ")
       (filter (fun name =>
                  negb (fs_exists fs (path_div_str (production_dir a) name)))
               expected_files)).
Proof.
  unfold _find_missing. cbn [missing set_missing].
  rewrite !fold_check_expected. now rewrite <- app_assoc.
Qed.

Section AnalyzedFields.

Variable fs : FileSystem.
Variable sha : list byte -> string.
Variable a : CrossReferenceAnalyzer.

Lemma analyzed_production_files :
  production_files (analyzed fs sha a) = scan_tree fs sha (production_dir a).
Proof. reflexivity. Qed.

Lemma analyzed_archive_files :
  archive_files (analyzed fs sha a) =
  scanned_archive fs sha (archive_dir a) (archive_files a).
Proof. reflexivity. Qed.

Lemma analyzed_production_dir :
  production_dir (analyzed fs sha a) = production_dir a.
Proof. reflexivity. Qed.

Lemma analyzed_archive_dir :
  archive_dir (analyzed fs sha a) = archive_dir a.
Proof. reflexivity. Qed.

Lemma analyzed_duplicates_step :
  duplicates (analyzed fs sha a) =
  fold_left add_group (hash_to_files (analyzed fs sha a)) (duplicates a).
Proof. reflexivity. Qed.

Lemma analyzed_lineage_step :
  lineage (analyzed fs sha a) =
  fold_left (trace_one (archive_files (analyzed fs sha a)))
    (production_files (analyzed fs sha a)) (lineage a).
Proof. reflexivity. Qed.

Lemma analyzed_missing_step :
  missing (analyzed fs sha a) =
  missing a ++
  (map (String.append "directory: ")
       (filter (fun name =>
                  negb (fs_exists fs (path_div_str (production_dir a) name)))
               expected_dirs) ++
   map (String.append "file: ")
       (filter (fun name =>
                  negb (fs_exists fs (path_div_str (production_dir a) name)))
               expected_files)).
Proof. unfold analyzed. rewrite find_missing_closed. reflexivity. Qed.

End AnalyzedFields.

Lemma hash_to_files_ext (a b : CrossReferenceAnalyzer) :
  production_files a = production_files b ->
  archive_files a = archive_files b ->
  hash_to_files a = hash_to_files b.
Proof. unfold hash_to_files. now intros -> ->. Qed.

(** X9. The analyzer accumulates: a second [analyze] on the same analyzer,
    over an unchanged file system, leaves the scanned trees and the lineage
    map as they were, but appends every duplicate group and every missing
    item a second time, so that the two counts of the second report are
    twice those of the first.
    Stated of a run in which nothing raises; such a run returns. *)
Theorem analyze_twice_accumulates :
  forall (fs : FileSystem) (sha : list byte -> string) (now1 now2 : string)
         (prod arch out : Path),
    run_raises fs prod arch out = false ->
    exists a1 r1 a2 r2,
    run fs sha now1 prod arch out = Some (a1, r1) /\
    analyze fs sha now2 a1 = Some (a2, r2) /\
    production_files a2 = production_files a1 /\
    archive_files a2 = archive_files a1 /\
    lineage a2 = lineage a1 /\
    duplicates a2 = duplicates a1 ++ duplicates a1 /\
    missing a2 = missing a1 ++ missing a1 /\
    sm_duplicates_found (rp_summary r2) =
      2 * sm_duplicates_found (rp_summary r1) /\
    sm_missing_components (rp_summary r2) =
      2 * sm_missing_components (rp_summary r1) /\
    rp_critical_missing r2 = rp_critical_missing r1 ++ rp_critical_missing r1.
Proof.
  intros fs sha now1 now2 prod arch out Hok.
  exists (analyzed fs sha (fresh_analyzer prod arch out)).
  exists (report_of now1 (analyzed fs sha (fresh_analyzer prod arch out))).
  exists (analyzed fs sha (analyzed fs sha (fresh_analyzer prod arch out))).
  exists (report_of now2
            (analyzed fs sha (analyzed fs sha (fresh_analyzer prod arch out)))).
  split; [now apply run_returns|].
  split; [apply analyze_returns; rewrite analyze_raises_analyzed;
          now apply run_raises_false|].
  pose proof (analyzed_production_files fs sha (fresh_analyzer prod arch out)) as F1.
  pose proof (analyzed_archive_files fs sha (fresh_analyzer prod arch out)) as F2.
  pose proof (analyzed_production_dir fs sha (fresh_analyzer prod arch out)) as F3.
  pose proof (analyzed_archive_dir fs sha (fresh_analyzer prod arch out)) as F4.
  pose proof (analyzed_duplicates_step fs sha (fresh_analyzer prod arch out)) as F5.
  pose proof (analyzed_missing_step fs sha (fresh_analyzer prod arch out)) as F7.
  pose proof (analyzed_lineage_lookup fs sha prod arch out) as F6.
  cbn [__init__ production_dir archive_dir archive_files duplicates missing]
    in F1, F2, F3, F4, F5, F7.
  cbn [report_of rp_summary sm_duplicates_found
       sm_missing_components rp_critical_missing].
  generalize dependent (analyzed fs sha (fresh_analyzer prod arch out)).
  intros a1 F1 F2 F3 F4 F5 F7 F6.
  assert (EP : production_files (analyzed fs sha a1) = production_files a1)
    by (rewrite analyzed_production_files, F3; now rewrite F1).
  assert (EA : archive_files (analyzed fs sha a1) = archive_files a1)
    by (rewrite analyzed_archive_files, F4, F2;
        apply scanned_archive_again).
  assert (EL : lineage (analyzed fs sha a1) = lineage a1).
  { rewrite analyzed_lineage_step, EA, EP. apply trace_one_settled.
    intros p info Hin Hne. specialize (F6 p info Hin).
    unfold dict_get_default in F6.
    destruct (dict_get p (lineage a1)); congruence. }
  assert (ED : duplicates (analyzed fs sha a1) =
               duplicates a1 ++ duplicates a1).
  { rewrite analyzed_duplicates_step.
    rewrite (hash_to_files_ext (analyzed fs sha a1) a1 EP EA).
    rewrite fold_add_group_closed. f_equal.
    rewrite F5, fold_add_group_closed. reflexivity. }
  assert (EM : missing (analyzed fs sha a1) = missing a1 ++ missing a1).
  { rewrite analyzed_missing_step, F3. f_equal. now rewrite F7. }
  split; [exact EP|]. split; [exact EA|]. split; [exact EL|].
  split; [exact ED|]. split; [exact EM|].
  rewrite ED, EM, !length_app, filter_app. repeat split; lia.
Qed.

(** ** The missing items *)

Lemma append_inj_l (k x y : string) :
  String.append k x = String.append k y -> x = y.
Proof. induction k as [|c k IH]; simpl; [auto | intros [= H]; auto]. Qed.

Lemma NoDup_map_append (k : string) (l : list string) :
  NoDup l -> NoDup (map (String.append k) l).
Proof.
  induction 1 as [|x l Hx Hl IH]; simpl; constructor; [|exact IH].
  rewrite in_map_iff. intros [y [E Hy]]. apply append_inj_l in E.
  congruence.
Qed.

Lemma expected_dirs_NoDup : NoDup expected_dirs.
Proof.
  unfold expected_dirs.
  repeat (constructor; [simpl; intuition discriminate|]). constructor.
Qed.

Lemma expected_files_NoDup : NoDup expected_files.
Proof.
  unfold expected_files.
  repeat (constructor; [simpl; intuition discriminate|]). constructor.
Qed.

Lemma fresh_missing (fs : FileSystem) (sha : list byte -> string)
    (prod arch out : Path) :
  missing (analyzed fs sha (fresh_analyzer prod arch out)) =
  map (String.append "directory: ")
      (filter (fun name => negb (fs_exists fs (path_div_str prod name)))
              expected_dirs) ++
  map (String.append "file: ")
      (filter (fun name => negb (fs_exists fs (path_div_str prod name)))
              expected_files).
Proof. unfold analyzed. rewrite find_missing_closed. reflexivity. Qed.

(** X10. The missing items of a run: an expected directory or file is
    reported exactly when nothing exists at its place directly under the
    production root, whatever kind of thing exists there otherwise; the
    directories come first, no item is reported twice, there are at most
    13, at most 2 of them critical, and none when all 13 places exist.
    Stated of a run in which nothing raises; such a run returns. *)
Theorem missing_items_of_a_run :
  forall (fs : FileSystem) (sha : list byte -> string) (now : string)
         (prod arch out : Path),
    run_raises fs prod arch out = false ->
    exists a r,
    run fs sha now prod arch out = Some (a, r) /\
    (exists dirs files,
        missing a = map (String.append "directory: ") dirs ++
                    map (String.append "file: ") files /\
        (forall name,
            In name dirs <->
            In name expected_dirs /\
            fs_exists fs (path_div_str prod name) = false) /\
        (forall name,
            In name files <->
            In name expected_files /\
            fs_exists fs (path_div_str prod name) = false)) /\
    NoDup (missing a) /\
    List.length (missing a) <= 13 /\
    List.length (rp_critical_missing r) <= 2 /\
    (missing a = [] <->
     forall name, In name (expected_dirs ++ expected_files) ->
                  fs_exists fs (path_div_str prod name) = true).
Proof.
  intros fs sha now prod arch out Hok.
  exists (analyzed fs sha (fresh_analyzer prod arch out)).
  exists (report_of now (analyzed fs sha (fresh_analyzer prod arch out))).
  split; [now apply run_returns|].
  set (absent := fun name => negb (fs_exists fs (path_div_str prod name))).
  assert (E : missing (analyzed fs sha (fresh_analyzer prod arch out)) =
              map (String.append "directory: ") (filter absent expected_dirs)
              ++ map (String.append "file: ") (filter absent expected_files))
    by apply fresh_missing.
  assert (Habs : forall l name,
             In name (filter absent l) <->
             In name l /\ fs_exists fs (path_div_str prod name) = false).
  { intros l name. rewrite filter_In. unfold absent.
    now rewrite negb_true_iff. }
  split; [|split; [|split; [|split]]].
  - exists (filter absent expected_dirs), (filter absent expected_files).
    split; [exact E|]. split; intros name; apply Habs.
  - rewrite E. apply NoDup_app.
    + apply NoDup_map_append, NoDup_filter, expected_dirs_NoDup.
    + apply NoDup_map_append, NoDup_filter, expected_files_NoDup.
    + intros m H1 H2. apply in_map_iff in H1, H2.
      destruct H1 as [x [<- _]]. destruct H2 as [y [H _]]. discriminate.
  - rewrite E, length_app, !length_map.
    pose proof (filter_length_le absent expected_dirs).
    pose proof (filter_length_le absent expected_files).
    simpl in *. lia.
  - cbn [report_of rp_critical_missing]. unfold analyzed.
    rewrite critical_missing_fresh by reflexivity.
    rewrite length_app.
    destruct (fs_exists fs _); destruct (fs_exists fs _); simpl; lia.
  - rewrite E. split.
    + intros H name Hin. apply app_eq_nil in H. destruct H as [H1 H2].
      apply map_eq_nil in H1, H2.
      destruct (fs_exists fs (path_div_str prod name)) eqn:X;
        [reflexivity|]. exfalso. apply in_app_iff in Hin.
      destruct Hin as [Hin|Hin].
      * assert (G : In name (filter absent expected_dirs))
          by (apply Habs; auto). rewrite H1 in G. destruct G.
      * assert (G : In name (filter absent expected_files))
          by (apply Habs; auto). rewrite H2 in G. destruct G.
    + intros H.
      assert (N : forall l, (forall n, In n l ->
                               fs_exists fs (path_div_str prod n) = true) ->
                            filter absent l = []).
      { intros l Hl. apply filter_none. intros n Hn. unfold absent.
        now rewrite (Hl n Hn). }
      rewrite !N; [reflexivity| |]; intros n Hn; apply H; apply in_or_app;
        auto.
Qed.

(** ** The lines of [report.md] *)

Lemma count_char_append (c : ascii) (a b : string) :
  count_char c (String.append a b) = count_char c a + count_char c b.
Proof.
  induction a as [|x a IH]; simpl; [reflexivity|]. rewrite IH. lia.
Qed.

Lemma count_char_concat (c : ascii) (sep : string) (lines : list string) :
  lines <> [] ->
  count_char c (String.concat sep lines) =
  list_sum (map (count_char c) lines) +
  (List.length lines - 1) * count_char c sep.
Proof.
  induction lines as [|x lines IH]; [congruence|]. intros _.
  destruct lines as [|y lines].
  - simpl. lia.
  - change (String.concat sep (x :: y :: lines))
      with (String.append x
              (String.append sep (String.concat sep (y :: lines)))).
    rewrite !count_char_append, IH by discriminate.
    simpl. rewrite Nat.sub_0_r. lia.
Qed.

Lemma string_of_uint_one_line (d : Decimal.uint) :
  count_char (ascii_of_nat 10) (NilEmpty.string_of_uint d) = 0.
Proof. induction d; simpl; auto. Qed.

Lemma missing_item_one_line (fs : FileSystem) (sha : list byte -> string)
    (prod arch out : Path) (m : string) :
  In m (missing (analyzed fs sha (fresh_analyzer prod arch out))) ->
  count_char (ascii_of_nat 10) m = 0.
Proof.
  rewrite fresh_missing, in_app_iff, !in_map_iff.
  intros [[name [<- H]]|[name [<- H]]]; apply filter_In in H;
    destruct H as [H _]; simpl in H;
    repeat (destruct H as [<-|H]; [reflexivity|]); destruct H.
Qed.

Lemma list_sum_zero {A : Type} (f : A -> nat) (l : list A) :
  (forall x, In x l -> f x = 0) -> list_sum (map f l) = 0.
Proof.
  induction l as [|x l IH]; intros H; simpl; [reflexivity|].
  rewrite (H x) by now left. apply IH. intros y Hy. apply H. now right.
Qed.

(** X12. The text written to [report.md] for a run, the timestamp holding
    no newline: twelve header lines, the ninth showing the number of missing
    items, followed by one [- item] line for each missing item in report
    order, or by the single line saying that nothing is missing.
    Stated of a run in which nothing raises; such a run returns. *)
Theorem report_md_lines :
  forall (fs : FileSystem) (sha : list byte -> string) (now : string)
         (prod arch out : Path),
    count_char (ascii_of_nat 10) now = 0 ->
    run_raises fs prod arch out = false ->
    exists a r,
      run fs sha now prod arch out = Some (a, r) /\
      count_char (ascii_of_nat 10) (_format_markdown r) + 1 =
        12 + Nat.max 1 (List.length (missing a)) /\
      List.length (markdown_lines r) =
        12 + Nat.max 1 (List.length (missing a)) /\
      nth 8 (markdown_lines r) "" =
        String.append "- Missing components: "
          (str_of_nat (List.length (missing a))) /\
      skipn 12 (markdown_lines r) =
        match missing a with
        | [] => ["*No missing components*"]
        | _ :: _ => map (fun item => String.append "- " item) (missing a)
        end.
Proof.
  intros fs sha now prod arch out Hnow Hok.
  exists (analyzed fs sha (fresh_analyzer prod arch out)).
  exists (report_of now (analyzed fs sha (fresh_analyzer prod arch out))).
  split; [now apply run_returns|].
  pose proof (missing_item_one_line fs sha prod arch out) as Hm.
  generalize dependent (analyzed fs sha (fresh_analyzer prod arch out)).
  intros a Hm.
  assert (Hlen : List.length (markdown_lines (report_of now a)) =
                 12 + Nat.max 1 (List.length (missing a))).
  { unfold markdown_lines. cbn [report_of rp_missing].
    rewrite !length_app. cbn [List.length].
    destruct (missing a) as [|m ms]; [reflexivity|].
    rewrite length_map. cbn [List.length]. lia. }
  split; [|split; [exact Hlen|split]].
  - unfold _format_markdown. rewrite count_char_concat.
    + rewrite Hlen. change (count_char (ascii_of_nat 10) newline) with 1.
      rewrite list_sum_zero; [lia|].
      intros line Hline. unfold markdown_lines in Hline.
      cbn [report_of rp_missing rp_timestamp rp_summary
           sm_production_files sm_duplicates_found sm_missing_components]
        in Hline.
      rewrite !in_app_iff in Hline.
      destruct Hline as [Hline|[Hline|Hline]].
      * cbn [In] in Hline.
        repeat (destruct Hline as [<-|Hline]; [try reflexivity|]);
          [|destruct Hline].
        rewrite count_char_append, Hnow. reflexivity.
      * cbn [In] in Hline.
        repeat (destruct Hline as [<-|Hline];
                [try reflexivity;
                 rewrite count_char_append; unfold str_of_nat;
                 now rewrite string_of_uint_one_line|]).
        destruct Hline.
      * destruct (missing a) as [|m ms] eqn:M.
        -- destruct Hline as [<-|[]]. reflexivity.
        -- apply in_map_iff in Hline. destruct Hline as [item [<- Hi]].
           rewrite count_char_append, (Hm item Hi). reflexivity.
    + unfold markdown_lines. discriminate.
  - reflexivity.
  - reflexivity.
Qed.

(** ** The keys of the lineage map *)

(** X13. The keys of the lineage map are exactly the production paths whose
    file has a same-named file in some archive version, in the order of the
    production scan, each with a non-empty list.
    Stated of a run in which nothing raises; such a run returns. *)
Theorem lineage_keys_are_the_matched_files :
  forall (fs : FileSystem) (sha : list byte -> string) (now : string)
         (prod arch out : Path),
    run_raises fs prod arch out = false ->
    exists a r,
    run fs sha now prod arch out = Some (a, r) /\
    keys (lineage a) =
    keys (filter (fun item => has_same_named (archive_files a) (snd item))
                 (production_files a)) /\
    (forall prod_path,
        In prod_path (keys (lineage a)) <->
        exists info,
          In (prod_path, info) (production_files a) /\
          has_same_named (archive_files a) info = true) /\
    (forall prod_path info,
        In (prod_path, info) (production_files a) ->
        has_same_named (archive_files a) info = true ->
        exists e l, dict_get prod_path (lineage a) = Some (e :: l)).
Proof.
  intros fs sha now prod arch out Hok.
  pose proof (analyzed_lineage fs sha prod arch out) as L.
  pose proof (analyzed_lineage_lookup fs sha prod arch out) as Lk.
  pose proof (analyzed_archive_NoDup fs sha prod arch out) as Hnd.
  exists (analyzed fs sha (fresh_analyzer prod arch out)).
  exists (report_of now (analyzed fs sha (fresh_analyzer prod arch out))).
  split; [now apply run_returns|].
  generalize dependent (analyzed fs sha (fresh_analyzer prod arch out)).
  intros a L Lk Hnd.
  assert (E : filter (fun item =>
                        negb (Nat.eqb (List.length
                                         (lineage_of (archive_files a)
                                            (snd item))) 0))
                     (production_files a) =
              filter (fun item => has_same_named (archive_files a) (snd item))
                     (production_files a)).
  { apply filter_ext. intros item. now apply lineage_of_nonempty. }
  assert (K : keys (lineage a) =
              keys (filter (fun item =>
                              has_same_named (archive_files a) (snd item))
                           (production_files a))).
  { rewrite L, E. unfold keys. now rewrite map_map. }
  split; [exact K|]. split.
  - intros prod_path. rewrite K. unfold keys. rewrite in_map_iff. split.
    + intros [[p info] [<- H]]. apply filter_In in H. exists info. exact H.
    + intros [info [H1 H2]]. exists (prod_path, info).
      split; [reflexivity|]. apply filter_In. auto.
  - intros prod_path info Hin Hs. specialize (Lk prod_path info Hin).
    pose proof (@lineage_of_nonempty (archive_files a) info Hnd) as N.
    rewrite Hs in N. unfold dict_get_default in Lk.
    destruct (dict_get prod_path (lineage a)) as [l|].
    + rewrite <- Lk in N. destruct l as [|e l]; [discriminate|]. eauto.
    + rewrite <- Lk in N. discriminate.
Qed.

(** ** The further properties on the example corpora *)

(** The production tree of the noisy corpus: only [lib.py] is recorded. *)
Lemma scan_directory_tree_invariant_witness :
  scan_directory (fs_of_listing corpus_with_noise) content_digest
    prod_root prod_root
  = Some (scan_tree (fs_of_listing corpus_with_noise) content_digest
            prod_root) /\
  keys (scan_tree (fs_of_listing corpus_with_noise) content_digest prod_root)
  = ["lib.py"] /\
  NoDup (keys (scan_tree (fs_of_listing corpus_with_noise) content_digest
                 prod_root)).
Proof.
  split; [reflexivity|]. split; [reflexivity|].
  apply (@scan_directory_tree_invariant
           (fs_of_listing corpus_with_noise) content_digest
           prod_root prod_root
           (scan_tree (fs_of_listing corpus_with_noise) content_digest
              prod_root) eq_refl).
Defined.

(** [.gitignore] contains [.git]: the file is skipped. *)
Lemma should_skip_component_witness :
  In ".gitignore" (parts prod_root ++ [".gitignore"]) /\
  In ".git" skip_patterns /\
  substring_of ".git" ".gitignore" /\
  _should_skip (path_div prod_root [".gitignore"]) = true /\
  kept (fs_of_listing corpus_with_noise) prod_root [".gitignore"] = false.
Proof.
  assert (H1 : In ".gitignore" (parts prod_root ++ [".gitignore"]))
    by (simpl; auto).
  assert (H2 : In ".git" skip_patterns) by (simpl; auto).
  assert (H3 : substring_of ".git" ".gitignore")
    by (exists "", "ignore"; reflexivity).
  split; [exact H1|]. split; [exact H2|]. split; [exact H3|].
  exact (@should_skip_component_containing_pattern
           (fs_of_listing corpus_with_noise) prod_root [".gitignore"]
           ".gitignore" ".git" H1 H2 H3).
Defined.


(** The scenario's [a.txt] of production and of [v1] have the same bytes:
    one group lists both. *)
Lemma same_digest_files_share_a_group_witness :
  exists a r g,
    run (fs_of_listing corpus_scenario) content_digest
      "2024-01-01T00:00:00" prod_root arch_root out_root
    = Some (a, r) /\
    In g (duplicates a) /\
    In (mkLoc "production" "a.txt") (dup_locations g) /\
    In (mkLoc "v1" "a.txt") (dup_locations g).
Proof.
  destruct (same_digest_files_share_a_group
              (fs_of_listing corpus_scenario) content_digest
              "2024-01-01T00:00:00" prod_root arch_root out_root eq_refl)
    as [a [r [Ha H]]].
  assert (Ea : a = analyzed (fs_of_listing corpus_scenario) content_digest
                     (fresh_analyzer prod_root arch_root out_root)).
  { rewrite run_returns in Ha by reflexivity. now injection Ha as <- <-. }
  destruct (H "production" "a.txt"
              (record_at (fs_of_listing corpus_scenario) content_digest
                 prod_root ["a.txt"])
              "v1" "a.txt"
              (record_at (fs_of_listing corpus_scenario) content_digest
                 (path_div arch_root ["v1"]) ["a.txt"]))
    as [g [Hg [_ [H1 H2]]]].
  - rewrite Ea. vm_compute. left. reflexivity.
  - rewrite Ea. vm_compute. right. right. left. reflexivity.
  - discriminate.
  - reflexivity.
  - vm_compute. discriminate.
  - exists a, r, g. auto.
Defined.

(** The scenario has 11 missing items: its [report.md] has 23 lines. *)
Lemma report_md_lines_witness :
  count_char (ascii_of_nat 10) "2024-01-01T00:00:00" = 0 /\
  exists a r,
    run (fs_of_listing corpus_scenario) content_digest
      "2024-01-01T00:00:00" prod_root arch_root out_root
    = Some (a, r) /\
    List.length (missing a) = 11 /\
    List.length (markdown_lines r) = 23 /\
    count_char (ascii_of_nat 10) (_format_markdown r) = 22.
Proof.
  split; [reflexivity|].
  destruct (@report_md_lines
              (fs_of_listing corpus_scenario) content_digest
              "2024-01-01T00:00:00" prod_root arch_root out_root eq_refl
              eq_refl)
    as [a [r [Ha [Hc [Hl _]]]]].
  assert (Em : List.length (missing a) = 11).
  { rewrite run_returns in Ha by reflexivity. now injection Ha as <- <-. }
  exists a, r. split; [exact Ha|]. split; [exact Em|].
  rewrite Em in Hc, Hl. change (12 + Nat.max 1 11) with 23 in Hc, Hl.
  split; [exact Hl | lia].
Defined.



(** The scenario has one shared digest, hence one group. *)
Lemma duplicates_one_group_per_shared_digest_witness :
  exists a r hs,
    run (fs_of_listing corpus_scenario) content_digest
      "2024-01-01T00:00:00" prod_root arch_root out_root
    = Some (a, r) /\
    NoDup hs /\ List.length hs = 1 /\
    duplicates a =
    map (fun h => mkGroup (str_take 16 h)
                          (locations_with h (corpus_entries a))) hs.
Proof.
  destruct (duplicates_one_group_per_shared_digest
              (fs_of_listing corpus_scenario) content_digest
              "2024-01-01T00:00:00" prod_root arch_root out_root eq_refl)
    as [a [r [hs [Ha [Hnd [_ [Hd Hn]]]]]]].
  exists a, r, hs. split; [exact Ha|]. split; [exact Hnd|].
  split; [|exact Hd]. rewrite <- Hn.
  rewrite run_returns in Ha by reflexivity. now injection Ha as <- <-.
Defined.

(** The counts of the scenario: one group among four scanned files, one
    file with lineage among two production files. *)
Lemma summary_counts_bounds_witness :
  exists a r,
    run (fs_of_listing corpus_scenario) content_digest
      "2024-01-01T00:00:00" prod_root arch_root out_root
    = Some (a, r) /\
    sm_duplicates_found (rp_summary r) = 1 /\
    sm_production_files (rp_summary r) + sm_archive_files (rp_summary r)
    = 4 /\
    2 * sm_duplicates_found (rp_summary r) <=
      sm_production_files (rp_summary r) + sm_archive_files (rp_summary r) /\
    sm_files_with_lineage (rp_summary r) <=
      sm_production_files (rp_summary r).
Proof.
  destruct (summary_counts_bounds
              (fs_of_listing corpus_scenario) content_digest
              "2024-01-01T00:00:00" prod_root arch_root out_root eq_refl)
    as [a [r [Ha [H1 [H2 _]]]]].
  exists a, r. split; [exact Ha|].
  assert (Er : r = report_of "2024-01-01T00:00:00"
                     (analyzed (fs_of_listing corpus_scenario) content_digest
                        (fresh_analyzer prod_root arch_root out_root))).
  { rewrite run_returns in Ha by reflexivity. now injection Ha as <- <-. }
  split; [rewrite Er; reflexivity|]. split; [rewrite Er; reflexivity|].
  split; [exact H1 | exact H2].
Defined.

(** A second [analyze] in the scenario: two groups and 22 missing items,
    where the first call left one and 11. *)
Lemma analyze_twice_accumulates_witness :
  exists a1 r1 a2 r2,
    run (fs_of_listing corpus_scenario) content_digest
      "2024-01-01T00:00:00" prod_root arch_root out_root
    = Some (a1, r1) /\
    analyze (fs_of_listing corpus_scenario) content_digest
      "2024-01-01T00:00:01" a1 = Some (a2, r2) /\
    List.length (duplicates a1) = 1 /\ List.length (missing a1) = 11 /\
    List.length (duplicates a2) = 2 /\ List.length (missing a2) = 22 /\
    lineage a2 = lineage a1.
Proof.
  destruct (analyze_twice_accumulates
              (fs_of_listing corpus_scenario) content_digest
              "2024-01-01T00:00:00" "2024-01-01T00:00:01"
              prod_root arch_root out_root eq_refl)
    as [a1 [r1 [a2 [r2 [H1 [H2 [_ [_ [Hl [Hd [Hm _]]]]]]]]]]].
  assert (Ed : List.length (duplicates a1) = 1 /\
               List.length (missing a1) = 11).
  { rewrite run_returns in H1 by reflexivity. injection H1 as <- <-.
    split; reflexivity. }
  destruct Ed as [Ed Em].
  exists a1, r1, a2, r2. split; [exact H1|]. split; [exact H2|].
  split; [exact Ed|]. split; [exact Em|].
  rewrite Hd, Hm, !length_app, Ed, Em. auto.
Defined.

(** The scenario has [core/src] and [security] and nothing else of what is
    expected: 11 items are missing, none of them critical. *)
Lemma missing_items_of_a_run_witness :
  exists a r,
    run (fs_of_listing corpus_scenario) content_digest
      "2024-01-01T00:00:00" prod_root arch_root out_root
    = Some (a, r) /\
    NoDup (missing a) /\ List.length (missing a) = 11 /\
    rp_critical_missing r = [].
Proof.
  destruct (missing_items_of_a_run
              (fs_of_listing corpus_scenario) content_digest
              "2024-01-01T00:00:00" prod_root arch_root out_root eq_refl)
    as [a [r [Ha [_ [Hnd _]]]]].
  exists a, r. split; [exact Ha|]. split; [exact Hnd|].
  rewrite run_returns in Ha by reflexivity. injection Ha as <- <-.
  split; reflexivity.
Defined.

(** In the scenario [a.txt] has namesakes in the archive and [b.bin] has
    none: the lineage map has the one key [a.txt]. *)
Lemma lineage_keys_are_the_matched_files_witness :
  exists a r,
    run (fs_of_listing corpus_scenario) content_digest
      "2024-01-01T00:00:00" prod_root arch_root out_root
    = Some (a, r) /\
    keys (production_files a) = ["a.txt"; "b.bin"] /\
    keys (lineage a) = ["a.txt"] /\
    keys (lineage a) =
    keys (filter (fun item => has_same_named (archive_files a) (snd item))
                 (production_files a)).
Proof.
  destruct (lineage_keys_are_the_matched_files
              (fs_of_listing corpus_scenario) content_digest
              "2024-01-01T00:00:00" prod_root arch_root out_root eq_refl)
    as [a [r [Ha [H _]]]].
  exists a, r. split; [exact Ha|]. split; [|split; [|exact H]].
  - rewrite run_returns in Ha by reflexivity. now injection Ha as <- <-.
  - rewrite run_returns in Ha by reflexivity. now injection Ha as <- <-.
Defined.

(** * The run as a whole *)

(** ** A missing root *)

Lemma trace_nothing (items : dict FileInfo) (lin : dict (list LineageEntry)) :
  fold_left (trace_one []) items lin = lin.
Proof.
  induction items as [|[p info] items IH]; [reflexivity|]. exact IH.
Qed.

Lemma archive_raises_false (fs : FileSystem) (arch : Path) (v : string) :
  archive_raises fs arch = false ->
  fs_exists fs arch = true ->
  In v (children fs arch) ->
  fs_is_dir fs (path_div arch [v]) = true ->
  scan_raises fs (path_div arch [v]) = false.
Proof.
  unfold archive_raises, children. intros H He Hin Hd. rewrite He in H.
  cbn [andb] in H.
  destruct (fs_iterdir fs arch) as [names|]; [|discriminate].
  destruct (scan_raises fs (path_div arch [v])) eqn:R; [|reflexivity].
  rewrite <- H. symmetry. apply existsb_exists. exists v.
  now rewrite Hd, R.
Qed.

(** C7. Scanning a root that does not exist yields the empty tree and raises
    nothing, so that a missing root is no cause for a run to raise: with
    both roots missing, a run raises only if the output directory cannot be
    made or a report file cannot be written.  And the analysis goes on over
    what is there.  Of a run in which nothing raises, which then returns: a missing
    production root leaves an empty production tree and no lineage, a
    missing archive root leaves no archive tree and no lineage; the
    production tree is what scanning the production root gives; every
    directory among the children of an archive root that exists has its
    tree stored under its name; and the analyzer and the report are those
    of the three passes run over these trees. *)
Theorem C7_missing_root_is_empty_tree :
  forall (fs : FileSystem) (sha : list byte -> string) (now : string)
         (prod arch out : Path),
    (forall root base,
        fs_exists fs root = false ->
        scan_directory fs sha root base = Some []) /\
    (fs_exists fs prod = false -> scan_raises fs prod = false) /\
    (fs_exists fs arch = false -> archive_raises fs arch = false) /\
    (fs_exists fs prod = false -> fs_exists fs arch = false ->
     (run fs sha now prod arch out = None <->
      fs_mkdir fs out = false \/
      fs_write fs (path_div out ["report.json"]) = false \/
      fs_write fs (path_div out ["report.md"]) = false)) /\
    (run_raises fs prod arch out = false ->
     exists a r,
       run fs sha now prod arch out = Some (a, r) /\
       (fs_exists fs prod = false ->
        production_files a = [] /\ lineage a = [] /\
        sm_production_files (rp_summary r) = 0) /\
       (fs_exists fs arch = false ->
        archive_files a = [] /\ lineage a = [] /\
        sm_archive_versions (rp_summary r) = 0) /\
       scan_directory fs sha prod prod = Some (production_files a) /\
       (fs_exists fs arch = true ->
        forall v,
          In v (children fs arch) ->
          fs_is_dir fs (path_div arch [v]) = true ->
          exists files,
            scan_directory fs sha (path_div arch [v]) (path_div arch [v])
            = Some files /\
            dict_get v (archive_files a) = Some files) /\
       a = _find_missing fs
             (_trace_lineage
                (_find_duplicates
                   (set_archive_files
                      (set_production_files (fresh_analyzer prod arch out)
                         (production_files a))
                      (archive_files a)))) /\
       r = report_of now a).
Proof.
  intros fs sha now prod arch out.
  split; [|split; [|split; [|split]]].
  - intros root base H. unfold scan_directory. now rewrite H.
  - intros H. unfold scan_raises. now rewrite H.
  - intros H. unfold archive_raises. now rewrite H.
  - intros Hp Ha. rewrite run_spec.
    unfold run_raises, analyze_raises, scan_raises, archive_raises.
    cbn [fresh_analyzer production_dir archive_dir output_dir].
    rewrite Hp, Ha. cbn [andb orb].
    destruct (fs_mkdir fs out);
      destruct (fs_write fs (path_div out ["report.json"]));
      destruct (fs_write fs (path_div out ["report.md"])); cbn [negb orb];
      split; try discriminate; try tauto; intros [H|[H|H]]; discriminate.
  - intros Hok.
    exists (analyzed fs sha (fresh_analyzer prod arch out)).
    exists (report_of now (analyzed fs sha (fresh_analyzer prod arch out))).
    split; [now apply run_returns|].
    apply run_raises_false in Hok. destruct Hok as [_ Hok].
    unfold analyze_raises in Hok. apply orb_false_iff in Hok.
    destruct Hok as [Hok _]. apply orb_false_iff in Hok.
    destruct Hok as [Hok _]. apply orb_false_iff in Hok.
    destruct Hok as [Hp Ha].
    cbn [fresh_analyzer production_dir archive_dir] in Hp, Ha.
    split; [|split; [|split; [|split; [|split]]]].
    + intros H.
      assert (E : scan_tree fs sha prod = [])
        by (unfold scan_tree; now rewrite H).
      unfold analyzed, scanned.
      cbn [_find_missing _trace_lineage _find_duplicates set_missing
           set_lineage set_duplicates set_archive_files set_production_files
           production_files archive_files lineage production_dir
           archive_dir fresh_analyzer report_of rp_summary
           sm_production_files].
      rewrite E. auto.
    + intros H.
      assert (E : scanned_archive fs sha arch [] = [])
        by (unfold scanned_archive; now rewrite H).
      unfold analyzed, scanned.
      cbn [_find_missing _trace_lineage _find_duplicates set_missing
           set_lineage set_duplicates set_archive_files set_production_files
           production_files archive_files lineage production_dir
           archive_dir fresh_analyzer report_of rp_summary
           sm_archive_versions].
      rewrite E. split; [reflexivity|]. split; [apply trace_nothing|].
      reflexivity.
    + now apply scan_directory_returns.
    + intros He v Hin Hd. exists (scan_tree fs sha (path_div arch [v])).
      split.
      * apply scan_directory_returns.
        now apply archive_raises_false.
      * unfold analyzed, scanned, scanned_archive.
        cbn [_find_missing _trace_lineage _find_duplicates set_missing
             set_lineage set_duplicates set_archive_files
             set_production_files archive_files archive_dir
             fresh_analyzer].
        rewrite He. apply archive_step_stores; [|exact Hd].
        now apply In_sorted.
    + reflexivity.
    + reflexivity.
Qed.

(** With no archive root, the production tree is still scanned; with no
    production root, the archive version is still scanned, and its two
    copies of one file make a duplicate group. *)
Lemma C7_missing_archive_root_witness :
  fs_exists (fs_of_listing corpus_readme) arch_root = false /\
  scan_directory (fs_of_listing corpus_readme) content_digest
    arch_root arch_root = Some [] /\
  (exists a r,
      run (fs_of_listing corpus_readme) content_digest
        "2024-01-01T00:00:00" prod_root arch_root out_root
      = Some (a, r) /\
      archive_files a = [] /\
      keys (production_files a) = ["README.MD"] /\
      List.length (missing a) = 13) /\
  fs_exists (fs_of_listing corpus_archive_only) prod_root = false /\
  (exists a r,
      run (fs_of_listing corpus_archive_only) content_digest
        "2024-01-01T00:00:00" prod_root arch_root out_root
      = Some (a, r) /\
      production_files a = [] /\
      option_map keys (dict_get "v1" (archive_files a))
      = Some ["a.txt"; "b.txt"] /\
      duplicates a = [mkGroup "sha:X" [mkLoc "v1" "a.txt";
                                       mkLoc "v1" "b.txt"]]).
Proof.
  destruct (C7_missing_root_is_empty_tree
              (fs_of_listing corpus_readme) content_digest
              "2024-01-01T00:00:00" prod_root arch_root out_root)
    as [Hscan [_ [_ [_ Hrun]]]].
  destruct (Hrun eq_refl) as [a [r [Ha [_ [Harch [_ [_ [Ea _]]]]]]]].
  destruct (C7_missing_root_is_empty_tree
              (fs_of_listing corpus_archive_only) content_digest
              "2024-01-01T00:00:00" prod_root arch_root out_root)
    as [_ [_ [_ [_ Hrun']]]].
  destruct (Hrun' eq_refl) as [a' [r' [Ha' [Hprod [_ [_ [Hv [Ea' _]]]]]]]].
  split; [reflexivity|].
  split; [exact (Hscan arch_root arch_root eq_refl)|].
  split; [|split; [reflexivity|]].
  - exists a, r. split; [exact Ha|].
    split; [exact (proj1 (Harch eq_refl))|].
    rewrite run_returns in Ha by reflexivity. injection Ha as <- <-.
    split; reflexivity.
  - exists a', r'. split; [exact Ha'|].
    split; [exact (proj1 (Hprod eq_refl))|].
    destruct (Hv eq_refl "v1") as [files [Hf Hg]];
      [vm_compute; tauto | reflexivity |].
    split.
    + rewrite Hg. vm_compute in Hf. injection Hf as <-. reflexivity.
    + rewrite run_returns in Ha' by reflexivity. injection Ha' as <- <-.
      reflexivity.
Defined.

(** ** Two runs over the same trees *)

Lemma path_div_nil (d : Path) : path_div d [] = d.
Proof. destruct d as [anc ps]. unfold path_div; simpl. now rewrite app_nil_r. Qed.

Lemma path_div_div (d : Path) (r1 r2 : list string) :
  path_div (path_div d r1) r2 = path_div d (r1 ++ r2).
Proof. unfold path_div; simpl. now rewrite <- app_assoc. Qed.

Lemma fold_left_ext_in {A B : Type} (f g : A -> B -> A) (l : list B) (acc : A) :
  (forall x y, In y l -> f x y = g x y) ->
  fold_left f l acc = fold_left g l acc.
Proof.
  revert acc; induction l as [|y l IH]; intros acc H; [reflexivity|].
  cbn [fold_left]. rewrite (H acc y) by now left.
  apply IH. intros x z Hz. apply H. now right.
Qed.

Lemma existsb_ext_in {A : Type} (f g : A -> bool) (l : list A) :
  (forall x, In x l -> f x = g x) -> existsb f l = existsb g l.
Proof.
  induction l as [|x l IH]; intros H; [reflexivity|]. cbn [existsb].
  rewrite (H x) by now left. f_equal. apply IH. intros y Hy. apply H.
  now right.
Qed.

Section SameTrees.

Variables fs1 fs2 : FileSystem.
Variable sha : list byte -> string.
Hypothesis same_zone : forall t, fs_isoformat fs1 t = fs_isoformat fs2 t.

Lemma same_tree_below (root : Path) (rel : list string) :
  same_tree root fs1 fs2 -> same_tree (path_div root rel) fs1 fs2.
Proof. intros H rel'. cbv zeta. rewrite path_div_div. apply H. Qed.

Lemma same_tree_root (root : Path) :
  same_tree root fs1 fs2 ->
  fs_exists fs1 root = fs_exists fs2 root /\
  fs_rglob fs1 root = fs_rglob fs2 root /\
  fs_iterdir fs1 root = fs_iterdir fs2 root.
Proof.
  intros H. pose proof (H []) as H0. cbv zeta in H0.
  rewrite path_div_nil in H0. tauto.
Qed.

Lemma same_kept (d : Path) (rel : list string) :
  same_tree d fs1 fs2 -> kept fs1 d rel = kept fs2 d rel.
Proof.
  intros H. unfold kept. pose proof (H rel) as Hr. cbv zeta in Hr.
  destruct Hr as [_ [_ [-> _]]]. reflexivity.
Qed.

Lemma same_undatable (d : Path) (rel : list string) :
  same_tree d fs1 fs2 ->
  undatable fs1 (path_div d rel) = undatable fs2 (path_div d rel).
Proof.
  intros H. unfold undatable. pose proof (H rel) as Hr. cbv zeta in Hr.
  destruct Hr as [_ [_ [_ [_ [_ [_ ->]]]]]].
  destruct (fs_stat fs2 (path_div d rel)) as [st|]; [|reflexivity].
  now rewrite same_zone.
Qed.

Lemma same_record_at (d : Path) (rel : list string) :
  same_tree d fs1 fs2 -> record_at fs1 sha d rel = record_at fs2 sha d rel.
Proof.
  intros H. unfold record_at, size_seen, modified_seen, compute_file_hash.
  pose proof (H rel) as Hr. cbv zeta in Hr.
  destruct Hr as [_ [_ [_ [_ [_ [-> ->]]]]]].
  destruct (fs_stat fs2 (path_div d rel)) as [st|]; [|reflexivity].
  now rewrite same_zone.
Qed.

Lemma same_scan_tree (d : Path) :
  same_tree d fs1 fs2 -> scan_tree fs1 sha d = scan_tree fs2 sha d.
Proof.
  intros H. unfold scan_tree.
  destruct (same_tree_root H) as [-> [-> _]].
  destruct (negb (fs_exists fs2 d)); [reflexivity|].
  apply fold_left_ext_in. intros files rel _. unfold scan_step.
  now rewrite (same_kept rel H), (same_record_at rel H).
Qed.

Lemma same_scan_raises (d : Path) :
  same_tree d fs1 fs2 -> scan_raises fs1 d = scan_raises fs2 d.
Proof.
  intros H. unfold scan_raises.
  destruct (same_tree_root H) as [-> [-> _]]. f_equal.
  apply existsb_ext_in. intros rel _.
  now rewrite (same_kept rel H), (same_undatable rel H).
Qed.

Lemma same_is_dir (d : Path) (rel : list string) :
  same_tree d fs1 fs2 ->
  fs_is_dir fs1 (path_div d rel) = fs_is_dir fs2 (path_div d rel).
Proof. intros H. pose proof (H rel) as Hr. cbv zeta in Hr. tauto. Qed.

Lemma same_scanned_archive (arch : Path) (acc : dict (dict FileInfo)) :
  same_tree arch fs1 fs2 ->
  scanned_archive fs1 sha arch acc = scanned_archive fs2 sha arch acc.
Proof.
  intros H. unfold scanned_archive, children.
  destruct (same_tree_root H) as [-> [_ ->]].
  destruct (fs_exists fs2 arch); [|reflexivity].
  apply fold_left_ext_in. intros archive v _. unfold archive_step.
  rewrite (same_is_dir [v] H).
  now rewrite (same_scan_tree (same_tree_below [v] H)).
Qed.

Lemma same_archive_raises (arch : Path) :
  same_tree arch fs1 fs2 ->
  archive_raises fs1 arch = archive_raises fs2 arch.
Proof.
  intros H. unfold archive_raises.
  destruct (same_tree_root H) as [-> [_ ->]]. f_equal.
  destruct (fs_iterdir fs2 arch) as [names|]; [|reflexivity].
  apply existsb_ext_in. intros v _.
  rewrite (same_is_dir [v] H).
  now rewrite (same_scan_raises (same_tree_below [v] H)).
Qed.

Lemma same_missing (prod : Path) (a1 a2 : CrossReferenceAnalyzer) :
  same_tree prod fs1 fs2 ->
  production_dir a1 = prod -> production_dir a2 = prod ->
  missing a1 = missing a2 ->
  missing (_find_missing fs1 a1) = missing (_find_missing fs2 a2).
Proof.
  intros H E1 E2 Em. rewrite !find_missing_closed, E1, E2, Em.
  assert (X : forall name,
             negb (fs_exists fs1 (path_div_str prod name)) =
             negb (fs_exists fs2 (path_div_str prod name))).
  { intros name. unfold path_div_str.
    match goal with
    | |- context [path_div prod ?rel] =>
        pose proof (H rel) as Hr
    end.
    cbv zeta in Hr. destruct Hr as [-> _]. reflexivity. }
  f_equal. f_equal; f_equal; apply filter_ext; exact X.
Qed.

(** The state two runs leave agrees in all but the output directory. *)
Lemma same_analyzed (prod arch out1 out2 : Path) :
  same_tree prod fs1 fs2 -> same_tree arch fs1 fs2 ->
  let a1 := analyzed fs1 sha (fresh_analyzer prod arch out1) in
  let a2 := analyzed fs2 sha (fresh_analyzer prod arch out2) in
  production_files a2 = production_files a1 /\
  archive_files a2 = archive_files a1 /\
  duplicates a2 = duplicates a1 /\
  lineage a2 = lineage a1 /\
  missing a2 = missing a1.
Proof.
  intros Hp Ha a1 a2.
  assert (EP : production_files a2 = production_files a1).
  { unfold a1, a2. rewrite !analyzed_production_files.
    cbn [fresh_analyzer production_dir]. symmetry.
    now apply same_scan_tree. }
  assert (EA : archive_files a2 = archive_files a1).
  { unfold a1, a2. rewrite !analyzed_archive_files.
    cbn [fresh_analyzer archive_dir archive_files]. symmetry.
    now apply same_scanned_archive. }
  split; [exact EP|]. split; [exact EA|]. split; [|split].
  - unfold a1, a2. rewrite !analyzed_duplicates_step.
    fold a1 a2. cbn [fresh_analyzer duplicates].
    now rewrite (hash_to_files_ext a2 a1 EP EA).
  - unfold a1, a2. rewrite !analyzed_lineage_step.
    fold a1 a2. cbn [fresh_analyzer lineage]. now rewrite EP, EA.
  - unfold a1, a2, analyzed. symmetry.
    apply (@same_missing prod); [exact Hp | reflexivity..].
Qed.

Lemma same_run_raises (prod arch out1 out2 : Path) :
  same_tree prod fs1 fs2 -> same_tree arch fs1 fs2 ->
  run_raises fs1 prod arch out1 = false ->
  fs_mkdir fs2 out2 = true ->
  fs_write fs2 (path_div out2 ["report.json"]) = true ->
  fs_write fs2 (path_div out2 ["report.md"]) = true ->
  run_raises fs2 prod arch out2 = false.
Proof.
  intros Hp Ha H Hm Hj Hmd. apply run_raises_false in H.
  destruct H as [_ H]. unfold analyze_raises in H.
  apply orb_false_iff in H. destruct H as [H _].
  apply orb_false_iff in H. destruct H as [H _].
  apply orb_false_iff in H. destruct H as [H1 H2].
  cbn [fresh_analyzer production_dir archive_dir] in H1, H2.
  unfold run_raises, analyze_raises.
  cbn [fresh_analyzer production_dir archive_dir output_dir].
  rewrite Hm, Hj, Hmd, <- (same_scan_raises Hp), <- (same_archive_raises Ha).
  now rewrite H1, H2.
Qed.

End SameTrees.


(** ** Listings that differ outside a tree *)

Lemma find_app_skip {A : Type} (f : A -> bool) (l1 l2 : list A) :
  (forall x, In x l1 -> f x = false) -> find f (l1 ++ l2) = find f l2.
Proof.
  induction l1 as [|x l1 IH]; intros H; [reflexivity|]. cbn [app find].
  rewrite (H x) by now left. apply IH. intros y Hy. apply H. now right.
Qed.

Lemma find_app_keep {A : Type} (f : A -> bool) (l1 l2 : list A) :
  (forall x, In x l2 -> f x = false) -> find f (l1 ++ l2) = find f l1.
Proof.
  intros H. induction l1 as [|x l1 IH]; cbn [app find].
  - induction l2 as [|y l2 IH]; [reflexivity|]. cbn [find].
    rewrite (H y) by now left. apply IH. intros z Hz. apply H. now right.
  - destruct (f x); [reflexivity | exact IH].
Qed.

Lemma flat_map_nothing {A B : Type} (f : A -> list B) (l : list A) :
  (forall x, In x l -> f x = []) -> flat_map f l = [].
Proof.
  induction l as [|x l IH]; intros H; [reflexivity|]. cbn [flat_map].
  rewrite (H x) by now left. apply IH. intros y Hy. apply H. now right.
Qed.

Section Around.

Variables l pre post : listing.
Variable x : string.
Hypothesis outside : elsewhere x (pre ++ post) = true.

Lemma elsewhere_head (e : list string * Node) :
  In e pre \/ In e post ->
  exists y ys, fst e = y :: ys /\ String.eqb y x = false.
Proof.
  intros He. unfold elsewhere in outside.
  rewrite forallb_forall in outside.
  assert (Hin : In e (pre ++ post)) by (apply in_or_app; exact He).
  apply outside in Hin. destruct (fst e) as [|y ys]; [discriminate|].
  exists y, ys. split; [reflexivity|]. now apply negb_true_iff.
Qed.

Lemma find_node_around (q : list string) :
  find_node (pre ++ l ++ post) (mkPath false (x :: q)) =
  find_node l (mkPath false (x :: q)).
Proof.
  unfold find_node. cbn [anchored parts]. f_equal.
  assert (F : forall e, In e pre \/ In e post ->
                        parts_eqb (fst e) (x :: q) = false).
  { intros e He. destruct (elsewhere_head e He) as [y [ys [E Hy]]].
    unfold parts_eqb.
    destruct (list_eq_dec string_dec (fst e) (x :: q)) as [E'|];
      [|reflexivity].
    rewrite E in E'. injection E' as -> _.
    now rewrite String.eqb_refl in Hy. }
  rewrite find_app_skip by auto. apply find_app_keep. auto.
Qed.

Lemma below_around (q : list string) (e : list string * Node) :
  In e pre \/ In e post -> below (mkPath false (x :: q)) e = [].
Proof.
  intros He. destruct (elsewhere_head e He) as [y [ys [E Hy]]].
  unfold below. cbn [anchored parts]. rewrite E. cbn [strip_prefix].
  rewrite String.eqb_sym, Hy. reflexivity.
Qed.

Lemma flat_map_around {B : Type} (f : list string * Node -> list B) :
  (forall e, In e pre \/ In e post -> f e = []) ->
  flat_map f (pre ++ l ++ post) = flat_map f l.
Proof.
  intros H. rewrite !flat_map_app.
  rewrite (flat_map_nothing f pre), (flat_map_nothing f post) by auto.
  now rewrite app_nil_r.
Qed.

(** Entries added elsewhere leave the tree at [x/xs] as it is. *)
Lemma same_tree_around (xs : list string) :
  same_tree (rel (x :: xs)) (fs_of_listing l)
    (fs_of_listing (pre ++ l ++ post)).
Proof.
  intros r. cbv zeta.
  change (path_div (rel (x :: xs)) r) with (mkPath false (x :: (xs ++ r))).
  unfold fs_of_listing.
  cbn [fs_exists fs_is_dir fs_is_file fs_rglob fs_iterdir fs_read fs_stat
       parts anchored].
  rewrite find_node_around.
  rewrite (flat_map_around (below (mkPath false (x :: xs ++ r))))
    by apply below_around.
  rewrite (flat_map_around (child_of (mkPath false (x :: xs ++ r)))).
  - repeat split; reflexivity.
  - intros e He. unfold child_of. now rewrite below_around.
Qed.

End Around.

